(** * Wikitext-VSCode-Extension: preview rendering pipeline

    A shallow embedding of

    - [src/export_command/wikimedia_function/view.ts]
      ([getPreview], [getPageView], [getView]),
    - [src/export_command/wikimedia_function/wmcore.ts]
      ([login], [logout], [writePage], [readPage], [viewPage]),
    - [src/export_command/wikimedia_function/bot.ts]
      ([login], [logout], [getBot]),

    together with the properties of the rendering pipeline that the
    specification states about them.

    Conventions.  A JavaScript string is the list of its UTF-16 code units
    ([list N]); [lit] turns an ASCII literal into such a list.  A value that
    may be [undefined] is an [option]; reading a property of [undefined]
    throws, and [?.] does not (module [completion]).  The editor (panels,
    messages, the documents that were opened, the requests that were issued)
    is an explicit [World] that every command threads through; everything a
    command does to the outside is also appended to the world's [log], in
    program order.  What a command awaits (a prompt, the host, the answer to
    its request) is an argument of the command, and the command runs from
    its invocation to the end of its response handler in one piece. *)

From Stdlib Require Import NArith String Ascii.
From stdpp Require Import base option list numbers.

Set Default Proof Using "Type".

(* ================================================================== *)
(** * JavaScript values and strings *)
(* ================================================================== *)

Module js.

(** An ASCII literal as a list of code units. *)
Definition lit (s : string) : list N :=
  map N_of_ascii (list_ascii_of_string s).
Arguments lit s%_string : simpl never.

(** The double quote, U+0022. *)
Definition dq : N := 34%N.

(** [ToString] of a string-or-undefined value, as performed by a template
    literal [`${v}`] and by [+] with a string operand. *)
Definition toString (v : option (list N)) : list N :=
  match v with
  | Some s => s
  | None => lit "undefined"
  end.

(** [ToBoolean] of a string-or-undefined value: [undefined] and the empty
    string are falsy. *)
Definition truthy (v : option (list N)) : bool :=
  match v with
  | Some (_ :: _) => true
  | _ => false
  end.

(** [a || b] where [b] is a string. *)
Definition orElse (a : option (list N)) (b : list N) : list N :=
  match a with
  | Some (c :: s) => c :: s
  | _ => b
  end.

(** [a ?? b] where [b] is a string. *)
Definition coalesce (a : option (list N)) (b : list N) : list N :=
  match a with
  | Some s => s
  | None => b
  end.

(** ** [String.prototype.replace] with a string pattern *)

Fixpoint isPrefix (p s : list N) : bool :=
  match p, s with
  | [], _ => true
  | _ :: _, [] => false
  | a :: p', b :: s' => N.eqb a b && isPrefix p' s'
  end.

(** The text before and after the first occurrence of [p] in [s]. *)
Fixpoint splitAt (p s : list N) : option (list N * list N) :=
  if isPrefix p s then Some ([], drop (length p) s)
  else match s with
       | [] => None
       | c :: s' =>
           match splitAt p s' with
           | Some (before, after) => Some (c :: before, after)
           | None => None
           end
       end.

(** [GetSubstitution] for a match without capture groups: [$$] is a
    dollar sign, [$&] the matched text, [$`] the text before the match,
    [$'] the text after it; every other [$] stands for itself. *)
Fixpoint getSubstitution (matched before after repl : list N) : list N :=
  match repl with
  | [] => []
  | c :: r =>
      if N.eqb c 36 then
        match r with
        | [] => [36%N]
        | d :: r' =>
            if N.eqb d 36 then 36%N :: getSubstitution matched before after r'
            else if N.eqb d 38 then matched ++ getSubstitution matched before after r'
            else if N.eqb d 96 then before ++ getSubstitution matched before after r'
            else if N.eqb d 39 then after ++ getSubstitution matched before after r'
            else 36%N :: getSubstitution matched before after r
        end
      else c :: getSubstitution matched before after r
  end.

(** [s.replace(pat, repl)] for strings [pat] and [repl]: only the first
    occurrence is replaced. *)
Definition replace (s pat repl : list N) : list N :=
  match splitAt pat s with
  | None => s
  | Some (before, after) =>
      before ++ getSubstitution pat before after repl ++ after
  end.

(** ** Regular expressions

    The fragment the sources use: literal characters and stars (greedy
    [c*] or lazy [c*?]) over a character class, in sequence.  Matching is
    by backtracking, as ECMAScript defines it: a continuation receives the
    rest of the input and answers with what is left after the whole
    pattern. *)

Inductive atom : Type :=
| Chr (c : N)
| Greedy (cls : N -> bool)
| Lazy (cls : N -> bool).

Fixpoint greedyStar (cls : N -> bool) (k : list N -> option (list N))
    (s : list N) : option (list N) :=
  match s with
  | c :: s' =>
      if cls c then
        match greedyStar cls k s' with
        | Some rest => Some rest
        | None => k s
        end
      else k s
  | [] => k []
  end.

Fixpoint lazyStar (cls : N -> bool) (k : list N -> option (list N))
    (s : list N) : option (list N) :=
  match k s with
  | Some rest => Some rest
  | None =>
      match s with
      | c :: s' => if cls c then lazyStar cls k s' else None
      | [] => None
      end
  end.

Fixpoint matchK (r : list atom) (k : list N -> option (list N))
    (s : list N) : option (list N) :=
  match r with
  | [] => k s
  | Chr c :: r' =>
      match s with
      | x :: s' => if N.eqb x c then matchK r' k s' else None
      | [] => None
      end
  | Greedy cls :: r' => greedyStar cls (matchK r' k) s
  | Lazy cls :: r' => lazyStar cls (matchK r' k) s
  end.

(** The leftmost match: the text before it and the text after it. *)
Fixpoint search (r : list atom) (s : list N) : option (list N * list N) :=
  match matchK r Some s with
  | Some rest => Some ([], rest)
  | None =>
      match s with
      | [] => None
      | c :: s' =>
          match search r s' with
          | Some (before, after) => Some (c :: before, after)
          | None => None
          end
      end
  end.

(** [s.replace(re, repl)] for a regular expression without the [g]
    flag. *)
Definition replaceRegExp (s : list N) (r : list atom) (repl : list N)
    : list N :=
  match search r s with
  | None => s
  | Some (before, after) =>
      let matched :=
        take (length s - length before - length after)
             (drop (length before) s) in
      before ++ getSubstitution matched before after repl ++ after
  end.

(** The class [\s]: white space and line terminators. *)
Definition isSpace (c : N) : bool :=
  (N.leb 9 c && N.leb c 13)
  || N.eqb c 32 || N.eqb c 160 || N.eqb c 5760
  || (N.leb 8192 c && N.leb c 8202)
  || N.eqb c 8232 || N.eqb c 8233 || N.eqb c 8239 || N.eqb c 8287
  || N.eqb c 12288 || N.eqb c 65279.

(** The class [[\s\S]]: every code unit. *)
Definition anyChar (c : N) : bool := true.

Definition chars (s : string) : list atom := map Chr (lit s).

End js.

(* ================================================================== *)
(** * Completions: property access that can throw *)
(* ================================================================== *)

Module completion.

(** The result of evaluating an expression: a value, or a [TypeError]
    thrown by reading a property of [undefined]. *)
Inductive Completion (A : Type) : Type :=
| Normal (a : A)
| ThrowTypeError.
Arguments Normal {A} a.
Arguments ThrowTypeError {A}.

Definition bind {A B} (c : Completion A) (k : A -> Completion B)
    : Completion B :=
  match c with
  | Normal a => k a
  | ThrowTypeError => ThrowTypeError
  end.

(** [x.f]: throws when [x] is [undefined]. *)
Definition prop {A B} (x : option A) (f : A -> B) : Completion B :=
  match x with
  | Some a => Normal (f a)
  | None => ThrowTypeError
  end.

(** [x?.rest]: when [x] is [undefined] the whole rest of the chain is
    skipped and the chain is [undefined]. *)
Definition optChain {A B} (x : option A)
    (rest : A -> Completion (option B)) : Completion (option B) :=
  match x with
  | Some a => rest a
  | None => Normal None
  end.

(** [x !== undefined]. *)
Definition defined {A} (x : option A) : bool :=
  match x with
  | Some _ => true
  | None => false
  end.

End completion.

Import completion.

#[global] Instance completion_ret : MRet Completion := @Normal.
#[global] Instance completion_bind : MBind Completion :=
  fun A B k c => completion.bind c k.

(* ================================================================== *)
(** * The decoded responses *)
(* ================================================================== *)

(** Modelled from the spec: the interface [GetViewResult] of
    [interface_definition/getViewInterface.ts], which is not among the
    sources.  The fields are those of the spec's [ParseResult] (section 3),
    nested as [getView] and [viewPage] read them: every field is optional,
    and the HTML fragments sit under a ["*"] payload. *)
Module getViewInterface.

Record Star := { star : option (list N) }.

Record Parse := {
  text : option Star;
  displaytitle : option (list N);
  headhtml : option Star;
  categorieshtml : option Star
}.

Record Error := {
  code : option (list N);
  info : option (list N)
}.

Record GetViewResult := {
  parse : option Parse;
  error : option Error
}.

End getViewInterface.

(** Modelled from the spec: the interface [ReadPageResult] of
    [interface_definition/readPageInterface.ts], which is not among the
    sources.  It is the shape xml2js gives the answer of a revisions query:
    child elements are arrays, attributes sit under [$] (here [dollar]) and
    text under [_] (here [underscore]); every field is optional, as
    [readPage] reads them. *)
Module readPageInterface.

Record IAttr := { iw_title : option (list N); iw : option (list N) }.
Record I := { i_dollar : option IAttr }.
Record Interwiki := { i : option (list I) }.

Record Jump := { from : option (list N); to : option (list N) }.
Record JumpElem := { jump_dollar : option Jump }.
Record Normalized := { n : option (list JumpElem) }.
Record Redirects := { r : option (list JumpElem) }.

Record SlotAttr := { contentmodel : option (list N) }.
Record Slot := {
  underscore : option (list N);
  slot_dollar : option SlotAttr
}.
Record Slots := { slot : option (list Slot) }.
Record Rev := { slots : option (list Slots) }.
Record Revisions := { rev : option (list Rev) }.

Record PageAttr := {
  title : option (list N);
  pageid : option (list N);
  missing : option (list N);
  invalid : option (list N);
  invalidreason : option (list N)
}.
Record Page := {
  dollar : option PageAttr;
  revisions : option (list Revisions)
}.
Record Pages := { page : option (list Page) }.

Record Query := {
  interwiki : option (list Interwiki);
  pages : option (list Pages);
  normalized : option (list Normalized);
  redirects : option (list Redirects)
}.
Record Api := { query : option (list Query) }.
Record ReadPageResult := { api : option Api }.

End readPageInterface.

(* ================================================================== *)
(** * The editor *)
(* ================================================================== *)

Module vscode.

Inductive ViewColumn : Type := Active | Beside.

(** The listeners the sources register with [onDidDispose]; the only one
    is [() => { previewCurrentPlanel = undefined; }] of [getPreview]. *)
Inductive Listener : Type := ClearPreviewCurrentPlanel.

Record WebviewPanel := {
  viewType : list N;
  title : list N;
  html : list N;
  viewColumn : ViewColumn;
  enableScripts : bool;
  disposed : bool;
  onDidDispose : list Listener
}.

(** The settings under ["wikitext"] that the sources read. *)
Record Configuration := {
  getCss : bool;
  enableJavascript : bool;
  redirects : bool;
  previewCssStyle : option (list N);
  transferProtocol : option (list N);
  articlePath : option (list N);
  apiPath : option (list N)
}.

Record MWBot := { apiUrl : list N }.

(** The parameters of a request: the properties of the object literal, in
    source order.  The enumerations of [./args] and [./mediawiki] and
    their [alterNativeValues] are not among the sources; a member is kept
    as written (family and name), and [alterNativeValues(...)] with its
    arguments, [None] for an [undefined] one. *)
Inductive ArgValue : Type :=
| Str (s : list N)
| Enum (family member : string)
| AlterNativeValues (vs : list (option (string * string))).

Inductive Event : Type :=
| CreateWebviewPanel (id : nat) (viewType title : list N) (c : ViewColumn)
| SetHtml (id : nat) (html : list N)
| SetTitle (id : nat) (title : list N)
| ShowErrorMessage (m : list N)
| ShowWarningMessage (m : list N)
| ShowInformationMessage (m : list N)
| BotRequest (tbot : MWBot) (args : list (string * ArgValue))
| SendRequest (queryInput : list (string * ArgValue))
| BotGetEditToken
| BotEdit (title content summary : list N)
| OpenTextDocument (language content : option (list N))
| UncaughtTypeError
| UncaughtException.

(** The editor and the module-level variables of the sources. *)
Record World := {
  config : Configuration;
  (** [vscode.window.activeTextEditor?.document.getText()] *)
  activeDocument : option (list N);
  panels : list WebviewPanel;
  log : list Event;
  (** [previewCurrentPlanel] of view.ts *)
  previewCurrentPlanel : option nat;
  (** [bot] of bot.ts *)
  bot : option MWBot;
  (** [bot] and [pageName] of wmcore.ts *)
  wmcore_bot : option MWBot;
  pageName : option (list N)
}.

Definition with_panels (ps : list WebviewPanel) (w : World) : World :=
  {| config := config w; activeDocument := activeDocument w;
     panels := ps; log := log w;
     previewCurrentPlanel := previewCurrentPlanel w; bot := bot w;
     wmcore_bot := wmcore_bot w; pageName := pageName w |}.

Definition with_previewCurrentPlanel (p : option nat) (w : World) : World :=
  {| config := config w; activeDocument := activeDocument w;
     panels := panels w; log := log w;
     previewCurrentPlanel := p; bot := bot w;
     wmcore_bot := wmcore_bot w; pageName := pageName w |}.

Definition with_pageName (t : option (list N)) (w : World) : World :=
  {| config := config w; activeDocument := activeDocument w;
     panels := panels w; log := log w;
     previewCurrentPlanel := previewCurrentPlanel w; bot := bot w;
     wmcore_bot := wmcore_bot w; pageName := t |}.

Definition with_activeDocument (d : option (list N)) (w : World) : World :=
  {| config := config w; activeDocument := d;
     panels := panels w; log := log w;
     previewCurrentPlanel := previewCurrentPlanel w; bot := bot w;
     wmcore_bot := wmcore_bot w; pageName := pageName w |}.

Definition with_bot (b : option MWBot) (w : World) : World :=
  {| config := config w; activeDocument := activeDocument w;
     panels := panels w; log := log w;
     previewCurrentPlanel := previewCurrentPlanel w; bot := b;
     wmcore_bot := wmcore_bot w; pageName := pageName w |}.

Definition emit (e : Event) (w : World) : World :=
  {| config := config w; activeDocument := activeDocument w;
     panels := panels w; log := log w ++ [e];
     previewCurrentPlanel := previewCurrentPlanel w; bot := bot w;
     wmcore_bot := wmcore_bot w; pageName := pageName w |}.

(** [vscode.window.createWebviewPanel(viewType, title, column, options)]:
    a new panel with empty content; its handle is its index. *)
Definition createWebviewPanel (vt t : list N) (c : ViewColumn)
    (scripts : bool) (w : World) : nat * World :=
  let id := length (panels w) in
  let p := {| viewType := vt; title := t; html := []; viewColumn := c;
              enableScripts := scripts; disposed := false;
              onDidDispose := [] |} in
  (id, emit (CreateWebviewPanel id vt t c) (with_panels (panels w ++ [p]) w)).

Definition set_html (h : list N) (p : WebviewPanel) : WebviewPanel :=
  {| viewType := viewType p; title := title p; html := h;
     viewColumn := viewColumn p; enableScripts := enableScripts p;
     disposed := disposed p; onDidDispose := onDidDispose p |}.

Definition set_title (t : list N) (p : WebviewPanel) : WebviewPanel :=
  {| viewType := viewType p; title := t; html := html p;
     viewColumn := viewColumn p; enableScripts := enableScripts p;
     disposed := disposed p; onDidDispose := onDidDispose p |}.

Definition add_listener (l : Listener) (p : WebviewPanel) : WebviewPanel :=
  {| viewType := viewType p; title := title p; html := html p;
     viewColumn := viewColumn p; enableScripts := enableScripts p;
     disposed := disposed p; onDidDispose := onDidDispose p ++ [l] |}.

Definition set_disposed (p : WebviewPanel) : WebviewPanel :=
  {| viewType := viewType p; title := title p; html := html p;
     viewColumn := viewColumn p; enableScripts := enableScripts p;
     disposed := true; onDidDispose := onDidDispose p |}.

(** [panel.webview.html = h] *)
Definition setHtml (id : nat) (h : list N) (w : World) : World :=
  emit (SetHtml id h) (with_panels (alter (set_html h) id (panels w)) w).

(** [panel.title = t] *)
Definition setTitle (id : nat) (t : list N) (w : World) : World :=
  emit (SetTitle id t) (with_panels (alter (set_title t) id (panels w)) w).

(** [panel.onDidDispose(listener, ...)] *)
Definition registerOnDidDispose (id : nat) (l : Listener) (w : World)
    : World :=
  with_panels (alter (add_listener l) id (panels w)) w.

Definition runListener (l : Listener) (w : World) : World :=
  match l with
  | ClearPreviewCurrentPlanel => with_previewCurrentPlanel None w
  end.

(** The user closes panel [id]: the panel is disposed and its dispose
    listeners run.  Closing a panel that is already gone does nothing. *)
Definition userCloses (id : nat) (w : World) : World :=
  match panels w !! id with
  | Some p =>
      if disposed p then w
      else foldl (fun w l => runListener l w)
                 (with_panels (alter set_disposed id (panels w)) w)
                 (onDidDispose p)
  | None => w
  end.

Definition with_wmcore_bot (b : option MWBot) (w : World) : World :=
  {| config := config w; activeDocument := activeDocument w;
     panels := panels w; log := log w;
     previewCurrentPlanel := previewCurrentPlanel w; bot := bot w;
     wmcore_bot := b; pageName := pageName w |}.

(** What the login commands do beside what [Event] records: the call of
    the client library's [login] and the status bar message.  A command
    that does such things returns them, in program order, next to the
    editor it leaves. *)
Inductive LibraryCall : Type :=
| BotLogin (tbot : MWBot) (username password : list N)
| SetStatusBarMessage (m : list N)
| DisposeStatusBarMessage.

(** What [login] of the client library answers, as far as the sources read
    it. *)
Record LoginResponse := {
  lg_username : option (list N);
  lg_userid : option (list N);
  lg_result : option (list N);
  lg_token : option (list N)
}.

End vscode.

Import js vscode.

(** What [await tbot.request(args)] followed by
    [ViewConverter.getViewResultToJson] comes to: nothing yet, a decoded
    result, or an exception ([error.code] and [error.info] are read from
    whatever was thrown). *)
Inductive RequestOutcome : Type :=
| Pending
| Resolved (re : getViewInterface.GetViewResult)
| Threw (error : getViewInterface.Error).

(** What becomes of a request sent with [sendRequest(queryInput, callback)]:
    the callback is never called, or it is called with a response that ends
    with a body that is decoded to [re], or with one that ends with a body
    whose decoding throws ([JSON.parse] on a text that is not JSON, or the
    converter), or with one that fails. *)
Inductive Response (A : Type) : Type :=
| NoResponse
| End (re : A)
| Undecodable
| Failed (name : list N).
Arguments NoResponse {A}.
Arguments End {A} re.
Arguments Undecodable {A}.
Arguments Failed {A} name.

(** [if (!v) { return undefined; }] on a string-or-undefined value: the
    value when it is truthy. *)
Definition whenTruthy (v : option (list N)) : option (list N) :=
  if truthy v then v else None.

(* ================================================================== *)
(** * bot.ts *)
(* ================================================================== *)

Module bot.

(** [getBot()]; [host] is what its [getHost()] comes to, and is consulted
    only without a session. *)
Definition getBot (host : option (list N)) (w : World) : option MWBot :=
  match vscode.bot w with
  | Some b => Some b
  | None =>
      match whenTruthy host with
      | None => None
      | Some host =>
          Some {| apiUrl := toString (transferProtocol (config w)) ++ host
                              ++ toString (apiPath (config w)) |}
      end
  end.

(** [`User "${response.lgusername}"(UserID:"${response.lguserid}") Login
    Result is "${response.result}". Login Token is "${response.token}".`] *)
Definition loginMessage (response : LoginResponse) : list N :=
  lit "User " ++ [dq] ++ toString (lg_username response) ++ [dq]
    ++ lit "(UserID:" ++ [dq] ++ toString (lg_userid response) ++ [dq]
    ++ lit ") Login Result is " ++ [dq] ++ toString (lg_result response) ++ [dq]
    ++ lit ". Login Token is " ++ [dq] ++ toString (lg_token response) ++ [dq]
    ++ lit ".".

(** [login()] of bot.ts.  [host] is what [getHost()] comes to, [userName]
    and [password] are the settings of these names, and [outcome] is what
    [bot.login] comes to: an answer, or an error with its message. *)
Definition login (host userName password : option (list N))
    (outcome : LoginResponse + list N) (w : World)
    : list LibraryCall * World :=
  match whenTruthy host with
  | None => ([], w)
  | Some host =>
      match whenTruthy userName, whenTruthy password with
      | Some username, Some password =>
          let tbot :=
            {| apiUrl := toString (transferProtocol (config w)) ++ host
                           ++ toString (apiPath (config w)) |} in
          let w := with_bot (Some tbot) w in
          ([ SetStatusBarMessage (lit "Wikitext: Login...");
             BotLogin tbot username password;
             DisposeStatusBarMessage ],
           match outcome with
           | inl response =>
               emit (ShowInformationMessage (loginMessage response)) w
           | inr message => emit (ShowErrorMessage message) w
           end)
      | _, _ =>
          ([], emit (ShowWarningMessage
                       (lit "You have not filled in the user name or password, please go to the settings to edit them and try again."))
                    w)
      end
  end.

(** The text [result: "Success"]. *)
Definition success : list N := lit "result: " ++ [dq] ++ lit "Success" ++ [dq].

(** [logout()] of bot.ts.  With a session, [tokenFetched] tells whether
    [bot.getEditToken()] succeeded (when it fails, so does the command, at
    once), [editToken] is the token the bot then holds, and [outcome] is
    what the logout request comes to: an answer, or an error with its
    message.  Without a session [bot?.] skips both calls. *)
Definition logout (tokenFetched : bool) (editToken : list N)
    (outcome : unit + list N) (w : World) : list LibraryCall * World :=
  let bar :=
    [SetStatusBarMessage (lit "Wikitext: Logout..."); DisposeStatusBarMessage] in
  match vscode.bot w with
  | Some tbot =>
      let w := emit BotGetEditToken w in
      if tokenFetched then
        let w :=
          emit (BotRequest tbot
                  [ ("action", Str (lit "logout"));
                    ("token", Str editToken) ]%string) w in
        (bar,
         match outcome with
         | inl _ => emit (ShowInformationMessage success) (with_bot None w)
         | inr message => emit (ShowErrorMessage message) w
         end)
      else ([], w)
  | None => (bar, emit (ShowInformationMessage success) (with_bot None w))
  end.

End bot.

(* ================================================================== *)
(** * view.ts *)
(* ================================================================== *)

Module view.
Import getViewInterface.

(** [/\<%\-\-\s*\[PAGE_INFO\][\s\S]*?\[END_PAGE_INFO\]\s*\-\-%\>\s*/] *)
Definition pageInfoRegExp : list atom :=
  chars "<%--" ++ [Greedy isSpace] ++ chars "[PAGE_INFO]"
    ++ [Lazy anyChar] ++ chars "[END_PAGE_INFO]" ++ [Greedy isSpace]
    ++ chars "--%>" ++ [Greedy isSpace].

Inductive PanelOrString : Type :=
| Panel (id : nat)
| ViewType (s : list N).

(** [`<!DOCTYPE html><html><body><h2>${info}</h2></body></html>`] *)
Definition showHtmlInfo (info : list N) : list N :=
  lit "<!DOCTYPE html><html><body><h2>" ++ info ++ lit "</h2></body></html>".

(** The template literal of [baseElem]: [<base href=], a double quote, the
    base address, a double quote, [ />], and one more double quote before
    the closing backtick. *)
Definition baseElem (baseURI : list N) : list N :=
  lit "<base href=" ++ [dq] ++ baseURI ++ [dq] ++ lit " />" ++ [dq].

(** [`<style>${config.get("previewCssStyle")}</style>`] *)
Definition style (cfg : Configuration) : list N :=
  lit "<style>" ++ toString (previewCssStyle cfg) ++ lit "</style>".

(** [re.parse.headhtml?.["*"]?.replace("<head>", "<head>" + baseElem + style)
     ?? `<!DOCTYPE html><html><head>${baseElem + style}</head><body>`] *)
Definition htmlHead (cfg : Configuration) (baseURI : list N)
    (re : GetViewResult) : Completion (list N) :=
  hh ← prop (parse re) headhtml;
  h ← optChain hh (λ h, optChain (star h) (λ s,
        Normal (Some (replace s (lit "<head>")
                        (lit "<head>" ++ baseElem baseURI ++ style cfg)))));
  Normal (coalesce h (lit "<!DOCTYPE html><html><head>"
                        ++ (baseElem baseURI ++ style cfg)
                        ++ lit "</head><body>")).

(** [re.parse.text?.["*"] || e], [e] the empty string *)
Definition htmlText (re : GetViewResult) : Completion (list N) :=
  t ← prop (parse re) text;
  v ← optChain t (λ t, Normal (star t));
  Normal (orElse v []).

(** [re.parse.categorieshtml?.["*"]] *)
Definition categoriesPayload (re : GetViewResult)
    : Completion (option (list N)) :=
  c ← prop (parse re) categorieshtml;
  optChain c (λ c, Normal (star c)).

(** [re.parse.categorieshtml?.["*"]
       ? "<hr />" + re.parse.categorieshtml?.["*"] : e], [e] the empty
    string *)
Definition htmlCategories (re : GetViewResult) : Completion (list N) :=
  c ← categoriesPayload re;
  if truthy c then
    c' ← categoriesPayload re;
    Normal (lit "<hr />" ++ toString c')
  else Normal [].

Definition htmlEnd : list N := lit "</body></html>".

(** [htmlHead + htmlText + htmlCategories + htmlEnd] *)
Definition html (cfg : Configuration) (baseURI : list N)
    (re : GetViewResult) : Completion (list N) :=
  head ← htmlHead cfg baseURI re;
  body ← htmlText re;
  categories ← htmlCategories re;
  Normal (head ++ body ++ categories ++ htmlEnd).

(** [`${viewerTitle}: ${re.parse.displaytitle}`] *)
Definition panelTitle (viewerTitle : list N) (re : GetViewResult)
    : Completion (list N) :=
  dt ← prop (parse re) displaytitle;
  Normal (viewerTitle ++ lit ": " ++ toString dt).

(** The [catch] block of [getView]. *)
Definition getView_catch (currentPlanel : nat) (error : Error) (w : World)
    : World :=
  let w := emit (ShowErrorMessage
                   (lit "ErrorCode:" ++ toString (code error)
                      ++ lit "| ErrorInfo:" ++ toString (info error))) w in
  setHtml currentPlanel (showHtmlInfo (lit "Error")) w.

(** The [try] block of [getView] from the decoded result on.  A
    [TypeError] raised by a property access lands in the [catch] block
    like any other exception; it has neither [code] nor [info]. *)
Definition getView_try (currentPlanel : nat) (viewerTitle baseURI : list N)
    (re : GetViewResult) (w : World) : World :=
  let typeError := {| code := None; info := None |} in
  if negb (defined (parse re)) then w
  else
    match html (config w) baseURI re with
    | ThrowTypeError => getView_catch currentPlanel typeError w
    | Normal h =>
        let w := setHtml currentPlanel h w in
        match panelTitle viewerTitle re with
        | ThrowTypeError => getView_catch currentPlanel typeError w
        | Normal t => setTitle currentPlanel t w
        end
    end.

Definition getView (currentPlanel : PanelOrString) (viewerTitle : list N)
    (args : list (string * ArgValue)) (tbot : MWBot) (baseURI : list N)
    (outcome : RequestOutcome) (w : World) : World :=
  let '(currentPlanel, w) :=
    match currentPlanel with
    | ViewType s =>
        createWebviewPanel s viewerTitle Active
          (enableJavascript (config w)) w
    | Panel id => (id, w)
    end in
  let w := setHtml currentPlanel (showHtmlInfo (lit "Loading...")) w in
  let w := emit (BotRequest tbot args) w in
  match outcome with
  | Pending => w
  | Resolved re => getView_try currentPlanel viewerTitle baseURI re w
  | Threw error => getView_catch currentPlanel error w
  end.

(** The [prop] argument both commands send. *)
Definition propArg (cfg : Configuration) : ArgValue :=
  AlterNativeValues
    [ Some ("Prop", "text"); Some ("Prop", "displayTitle");
      Some ("Prop", "categoriesHTML");
      if getCss cfg then Some ("Prop", "headHTML") else None ]%string.

(** [getPreview()].  [host] is what [getHost()] comes to and [botHost]
    what the [getHost()] inside [getBot()] comes to ([getHost] is not
    among the sources); [outcome] is the fate of the request. *)
Definition getPreview (host botHost : option (list N))
    (outcome : RequestOutcome) (w : World) : World :=
  match whenTruthy host with
  | None => w
  | Some host =>
      match whenTruthy (activeDocument w) with
      | None => w
      | Some sourceText =>
          let sourceText := replaceRegExp sourceText pageInfoRegExp [] in
          let args :=
            [ ("action", Enum "Action" "parse");
              ("text", Str sourceText);
              ("prop", propArg (config w));
              ("contentmodel", Enum "ContextModel" "wikitext");
              ("pst", Str (lit "whynot"));
              ("disableeditsection", Str (lit "yes")) ]%string in
          let viewerTitle := lit "WikitextPreviewer" in
          let w :=
            match previewCurrentPlanel w with
            | Some _ => w
            | None =>
                let '(id, w) :=
                  createWebviewPanel (lit "previewer") viewerTitle Beside
                    (enableJavascript (config w)) w in
                let w := with_previewCurrentPlanel (Some id) w in
                registerOnDidDispose id ClearPreviewCurrentPlanel w
            end in
          match bot.getBot botHost w with
          | None => w
          | Some tbot =>
              let baseHref :=
                toString (transferProtocol (config w)) ++ host
                  ++ toString (articlePath (config w)) in
              match previewCurrentPlanel w with
              | Some id =>
                  getView (Panel id) viewerTitle args tbot baseHref
                    outcome w
              | None => emit UncaughtTypeError w
              end
          end
      end
  end.

(** [getPageView()]; [pageTitle] is what the input box comes to. *)
Definition getPageView (host : option (list N))
    (pageTitle : option (list N)) (botHost : option (list N))
    (outcome : RequestOutcome) (w : World) : World :=
  match whenTruthy host with
  | None => w
  | Some host =>
      match whenTruthy pageTitle with
      | None => w
      | Some pageTitle =>
          let args :=
            [ ("action", Enum "Action" "parse");
              ("page", Str pageTitle);
              ("prop", propArg (config w)) ]%string in
          let args :=
            if redirects (config w)
            then args ++ [ ("redirects", Str (lit "true")) ]%string
            else args in
          match bot.getBot botHost w with
          | None => w
          | Some tbot =>
              let baseHref :=
                toString (transferProtocol (config w)) ++ host
                  ++ toString (articlePath (config w)) in
              getView (ViewType (lit "pageViewer")) (lit "WikiViewer")
                args tbot baseHref outcome w
          end
      end
  end.

End view.

(* ================================================================== *)
(** * wmcore.ts *)
(* ================================================================== *)

Module wmcore.
Import getViewInterface readPageInterface.

(** A string between double quotes. *)
Definition quoted (s : list N) : list N := [dq] ++ s ++ [dq].

(** A statement whose expression may throw: the exception leaves the
    handler and nothing after it runs. *)
Definition orUncaught {A} (c : Completion A) (k : A -> World -> World)
    (w : World) : World :=
  match c with
  | Normal a => k a w
  | ThrowTypeError => emit UncaughtTypeError w
  end.

(** ** [writePage] *)

(** What [bot.getEditToken()] and [bot.edit()] answer, as far as
    [writePage] reads it. *)
Record TokenResponse := {
  tk_result : option (list N);
  tk_lgusername : option (list N);
  tk_lguserid : option (list N);
  tk_token : option (list N);
  tk_csrftoken : option (list N)
}.

Record EditResponse := {
  ed_nochange : option (list N);
  ed_title : option (list N);
  ed_pageid : option (list N);
  ed_result : option (list N);
  ed_contentmodel : option (list N);
  ed_watched : option (list N);
  ed_oldrevid : option (list N);
  ed_newrevid : option (list N);
  ed_newtimestamp : option (list N)
}.

Definition tokenMessage (response : TokenResponse) : list N :=
  lit "Get edit token status is " ++ quoted (toString (tk_result response))
    ++ lit ". User " ++ quoted (toString (tk_lgusername response))
    ++ lit " (User ID: " ++ quoted (toString (tk_lguserid response))
    ++ lit ") got the token: " ++ quoted (toString (tk_token response))
    ++ lit " and csrftoken: " ++ quoted (toString (tk_csrftoken response))
    ++ lit ".".

Definition noChangeMessage (e : EditResponse) : list N :=
  lit "No changes have occurred: " ++ quoted (toString (ed_nochange e))
    ++ lit ", Edit page " ++ quoted (toString (ed_title e))
    ++ lit " (Page ID: " ++ quoted (toString (ed_pageid e))
    ++ lit ") action status is " ++ quoted (toString (ed_result e))
    ++ lit " with Content Model " ++ quoted (toString (ed_contentmodel e))
    ++ lit ". Watched by: " ++ quoted (toString (ed_watched e))
    ++ lit ".".

Definition editMessage (e : EditResponse) : list N :=
  lit "Edit page " ++ quoted (toString (ed_title e))
    ++ lit " (Page ID: " ++ quoted (toString (ed_pageid e))
    ++ lit ") action status is " ++ quoted (toString (ed_result e))
    ++ lit " with Content Model " ++ quoted (toString (ed_contentmodel e))
    ++ lit " (Version: " ++ quoted (toString (ed_oldrevid e))
    ++ lit " => " ++ quoted (toString (ed_newrevid e))
    ++ lit ", Time: " ++ quoted (toString (ed_newtimestamp e))
    ++ lit "). Watched by: " ++ quoted (toString (ed_watched e))
    ++ lit ".".

(** [writePage()].  The two input boxes come to [wikiTitle] and
    [wikiSummary]; [getEditToken] answers or fails with an error of the
    given name; [edit] answers, or fails ([None]) with nobody to catch
    it. *)
Definition writePage (wikiTitle wikiSummary : option (list N))
    (token : TokenResponse + list N) (edit : option EditResponse)
    (w : World) : World :=
  match activeDocument w with
  | None =>
      emit (ShowWarningMessage (lit "There is no active text editor.")) w
  | Some wikiContent =>
      match wmcore_bot w with
      | None =>
          emit (ShowWarningMessage
                  (lit "You are not logged in. Please log in and try again."))
               w
      | Some _ =>
          match whenTruthy wikiTitle with
          | None => w
          | Some wikiTitle =>
              let wikiSummary :=
                toString wikiSummary
                  ++ lit " // Edit via Wikitext Extension for Visual Studio Code" in
              let w := emit BotGetEditToken w in
              let w :=
                match token with
                | inl response =>
                    emit (ShowInformationMessage (tokenMessage response)) w
                | inr name => emit (ShowErrorMessage name) w
                end in
              let w := emit (BotEdit wikiTitle wikiContent wikiSummary) w in
              match edit with
              | None => w
              | Some e =>
                  if defined (ed_nochange e)
                  then emit (ShowWarningMessage (noChangeMessage e)) w
                  else emit (ShowInformationMessage (editMessage e)) w
              end
          end
      end
  end.

(** ** [readPage] *)

(** [re.api.query[0]] *)
Definition query0 (re : ReadPageResult) : Completion (option Query) :=
  q ← prop (api re) query;
  prop q (λ q, q !! 0%nat).

(** [re.api.query[0].pages[0].page[0]] *)
Definition page0 (re : ReadPageResult) : Completion (option Page) :=
  q0 ← query0 re;
  ps ← prop q0 pages;
  ps0 ← prop ps (λ ps, ps !! 0%nat);
  pg ← prop ps0 page;
  prop pg (λ pg, pg !! 0%nat).

(** [re.api.query[0].pages[0].page[0].$?.f] *)
Definition page0Attr (re : ReadPageResult)
    (f : PageAttr -> option (list N)) : Completion (option (list N)) :=
  pg0 ← page0 re;
  d ← prop pg0 dollar;
  optChain d (λ d, Normal (f d)).

(** [re.api?.query?.[0].interwiki] *)
Definition interwikiProbe (re : ReadPageResult)
    : Completion (option (list Interwiki)) :=
  optChain (api re) (λ a, optChain (query a) (λ q,
    prop (q !! 0%nat) interwiki)).

(** [re.api.query[0].interwiki?.[0].i?.[0].$?.f] *)
Definition interwikiAttr (re : ReadPageResult)
    (f : IAttr -> option (list N)) : Completion (option (list N)) :=
  q0 ← query0 re;
  iws ← prop q0 interwiki;
  optChain iws (λ iws,
    els ← prop (iws !! 0%nat) i;
    optChain els (λ els,
      d ← prop (els !! 0%nat) i_dollar;
      optChain d (λ d, Normal (f d)))).

Definition interwikiMessage (re : ReadPageResult) : Completion (list N) :=
  t ← interwikiAttr re iw_title;
  space ← interwikiAttr re iw;
  Normal (lit "Interwiki page " ++ quoted (toString t)
            ++ lit " in space " ++ quoted (toString space)
            ++ lit " are currently not supported. Please try to modify host.").

(** [re.api?.query?.[0].pages?.[0].page] *)
Definition pageProbe (re : ReadPageResult) : Completion (option (list Page)) :=
  optChain (api re) (λ a, optChain (query a) (λ q,
    ps ← prop (q !! 0%nat) pages;
    optChain ps (λ ps, prop (ps !! 0%nat) page))).

(** [page[0].$?.missing !== undefined || page[0].$?.invalid !== undefined] *)
Definition missingOrInvalid (re : ReadPageResult) : Completion bool :=
  m ← page0Attr re missing;
  if defined m then Normal true
  else
    i ← page0Attr re invalid;
    Normal (defined i).

(** [`The page "${wikiTitle}" you are looking for does not exist.` +
      page[0].$?.invalidreason || ``]; [+] binds tighter than [||]. *)
Definition notExistMessage (wikiTitle : option (list N))
    (re : ReadPageResult) : Completion (list N) :=
  reason ← page0Attr re invalidreason;
  Normal (orElse (Some (lit "The page " ++ quoted (toString wikiTitle)
                          ++ lit " you are looking for does not exist."
                          ++ toString reason))
                 []).

(** [page[0].revisions?.[0].rev?.[0].slots?.[0].slot?.[0]] followed by
    [rest]. *)
Definition slot0 {B} (re : ReadPageResult)
    (rest : option Slot -> Completion (option B)) : Completion (option B) :=
  pg0 ← page0 re;
  rs ← prop pg0 revisions;
  optChain rs (λ rs,
    rv ← prop (rs !! 0%nat) rev;
    optChain rv (λ rv,
      ss ← prop (rv !! 0%nat) slots;
      optChain ss (λ ss,
        sl ← prop (ss !! 0%nat) slot;
        optChain sl (λ sl, rest (sl !! 0%nat))))).

(** [... .slot?.[0]._] *)
Definition wikiContent (re : ReadPageResult) : Completion (option (list N)) :=
  slot0 re (λ s0, prop s0 underscore).

(** [... .slot?.[0].$?.contentmodel] *)
Definition wikiModel (re : ReadPageResult) : Completion (option (list N)) :=
  slot0 re (λ s0,
    d ← prop s0 slot_dollar;
    optChain d (λ d, Normal (contentmodel d))).

(** [re.api.query[0].normalized?.[0].n?.[0].$] *)
Definition wikiNormalized (re : ReadPageResult) : Completion (option Jump) :=
  q0 ← query0 re;
  ns ← prop q0 normalized;
  optChain ns (λ ns,
    es ← prop (ns !! 0%nat) n;
    optChain es (λ es, prop (es !! 0%nat) jump_dollar)).

(** [re.api.query[0].redirects?.[0].r?.[0].$] *)
Definition wikiRedirect (re : ReadPageResult) : Completion (option Jump) :=
  q0 ← query0 re;
  rs ← prop q0 redirects;
  optChain rs (λ rs,
    es ← prop (rs !! 0%nat) r;
    optChain es (λ es, prop (es !! 0%nat) jump_dollar)).

Definition jumpText (label : list N) (j : option Jump) : list N :=
  match j with
  | Some j =>
      label ++ quoted (toString (from j)) ++ lit " => "
        ++ quoted (toString (to j))
  | None => []
  end.

Definition openedMessage (wikiTitle wikiPageID model : option (list N))
    (normalized redirect : option Jump) : list N :=
  lit "Opened page " ++ quoted (toString wikiTitle)
    ++ lit " (page ID:" ++ quoted (toString wikiPageID)
    ++ lit ") with Model " ++ toString model ++ lit "."
    ++ match normalized with
       | Some _ => jumpText (lit " Normalized: ") normalized ++ lit "."
       | None => []
       end
    ++ jumpText (lit " Redirect: ") redirect.

(** The callback of [xml2js.parseString] in [readPage], from the decoded
    result on. *)
Definition readPage_decoded (re : ReadPageResult) : World -> World :=
  orUncaught (interwikiProbe re) (λ iw,
    if defined iw then
      orUncaught (interwikiMessage re) (λ m, emit (ShowWarningMessage m))
    else
      orUncaught (pageProbe re) (λ pg,
        if negb (defined pg) then id
        else
          orUncaught (page0Attr re title) (λ wikiTitle,
          orUncaught (missingOrInvalid re) (λ gone,
            if gone then
              orUncaught (notExistMessage wikiTitle re)
                (λ m, emit (ShowWarningMessage m))
            else
              orUncaught (wikiContent re) (λ content,
              orUncaught (wikiModel re) (λ model w,
                let w := emit (OpenTextDocument model content) w in
                let w := with_pageName wikiTitle w in
                orUncaught (page0Attr re pageid) (λ wikiPageID,
                orUncaught (wikiNormalized re) (λ normalized,
                orUncaught (wikiRedirect re) (λ redirect,
                  emit (ShowInformationMessage
                          (openedMessage wikiTitle wikiPageID model
                             normalized redirect))))) w)))))).

(** [readPage()]; [title] is what the input box comes to. *)
Definition readPage (title : option (list N))
    (response : Response ReadPageResult) (w : World) : World :=
  match whenTruthy title with
  | None => w
  | Some title =>
      let queryInput :=
        [ ("action", Enum "action" "query");
          ("format", Enum "format" "xml");
          ("prop", Enum "prop" "reVisions");
          ("rvprop", AlterNativeValues
                       [ Some ("rvprop", "content"); Some ("rvprop", "ids") ]);
          ("rvslots", Str (lit "*"));
          ("titles", Str title) ]%string in
      let queryInput :=
        if vscode.redirects (config w)
        then queryInput ++ [ ("redirects", Str (lit "true")) ]%string
        else queryInput in
      let w := emit (SendRequest queryInput) w in
      match response with
      | NoResponse => w
      | End re => readPage_decoded re w
      | Undecodable => emit UncaughtException w
      | Failed name => emit (ShowErrorMessage name) w
      end
  end.

(** ** [viewPage] *)

(** [config.get("getCss") ? (re.parse.headhtml?.["*"] || ``)
                          : `<!DOCTYPE html><html><body>`] *)
Definition header (cfg : Configuration) (re : GetViewResult)
    : Completion (list N) :=
  if getCss cfg then
    hh ← prop (parse re) headhtml;
    h ← optChain hh (λ h, Normal (star h));
    Normal (orElse h [])
  else Normal (lit "<!DOCTYPE html><html><body>").

(** [header + re.parse.text?.["*"] + end] *)
Definition pageHtml (cfg : Configuration) (re : GetViewResult)
    : Completion (list N) :=
  h ← header cfg re;
  t ← prop (parse re) text;
  body ← optChain t (λ t, Normal (star t));
  Normal (h ++ toString body ++ lit "</body></html>").

(** [`WikitextPreviewer: ${re.parse.displaytitle}`] *)
Definition pageTitleText (re : GetViewResult) : Completion (list N) :=
  dt ← prop (parse re) displaytitle;
  Normal (lit "WikitextPreviewer: " ++ toString dt).

(** [`${re.error.code}! ${re.error.info}`] *)
Definition errorMessage (re : GetViewResult) : Completion (list N) :=
  c ← prop (error re) code;
  i ← prop (error re) info;
  Normal (toString c ++ lit "! " ++ toString i).

(** The ['end'] handler of [viewPage], from the decoded result on. *)
Definition viewPage_decoded (currentPlanel : nat) (re : GetViewResult)
    (w : World) : World :=
  if defined (error re) then
    orUncaught (errorMessage re) (λ m, emit (ShowErrorMessage m)) w
  else if defined (parse re) then
    orUncaught (pageHtml (config w) re) (λ h w,
      let w := setHtml currentPlanel h w in
      orUncaught (pageTitleText re) (λ t, setTitle currentPlanel t) w) w
  else w.

(** [viewPage()]; [pageTitle] is what the input box comes to.  The panel
    is created by [requestCallback], that is, once a response arrives. *)
Definition viewPage (pageTitle : option (list N))
    (response : Response GetViewResult) (w : World) : World :=
  match whenTruthy pageTitle with
  | None => w
  | Some pageTitle =>
      let queryInput :=
        [ ("action", Enum "action" "parse");
          ("format", Enum "format" "json");
          ("page", Str pageTitle);
          ("prop", AlterNativeValues
                     [ Some ("prop", "text"); Some ("prop", "displayTitle");
                       if getCss (config w) then Some ("prop", "headHTML")
                       else None ]) ]%string in
      let queryInput :=
        if vscode.redirects (config w)
        then queryInput ++ [ ("redirects", Str (lit "true")) ]%string
        else queryInput in
      let w := emit (SendRequest queryInput) w in
      match response with
      | NoResponse => w
      | End re =>
          let '(currentPlanel, w) :=
            createWebviewPanel (lit "pageViewer") (lit "PageViewer") Active
              (enableJavascript (config w)) w in
          viewPage_decoded currentPlanel re w
      | Undecodable =>
          let '(_, w) :=
            createWebviewPanel (lit "pageViewer") (lit "PageViewer") Active
              (enableJavascript (config w)) w in
          emit UncaughtException w
      | Failed name =>
          let '(_, w) :=
            createWebviewPanel (lit "pageViewer") (lit "PageViewer") Active
              (enableJavascript (config w)) w in
          emit (ShowErrorMessage name) w
      end
  end.

(** ** [login] and [logout] *)

(** [`User "${response.lgusername}"(UserID:"${response.lguserid}") Login
    Result is "${response.result}". Login Token is "${response.token}".`] *)
Definition loginMessage (response : LoginResponse) : list N :=
  lit "User " ++ quoted (toString (lg_username response))
    ++ lit "(UserID:" ++ quoted (toString (lg_userid response))
    ++ lit ") Login Result is " ++ quoted (toString (lg_result response))
    ++ lit ". Login Token is " ++ quoted (toString (lg_token response))
    ++ lit ".".

(** [login()] of wmcore.ts.  [host] is what [getHost()] comes to,
    [userName] and [password] are the settings of these names, and
    [outcome] is what [bot.login] comes to: an answer, or an error with its
    message. *)
Definition login (host userName password : option (list N))
    (outcome : LoginResponse + list N) (w : World)
    : list LibraryCall * World :=
  match whenTruthy host with
  | None => ([], w)
  | Some host =>
      match whenTruthy userName, whenTruthy password with
      | Some username, Some password =>
          let tbot :=
            {| apiUrl := lit "https://" ++ host
                           ++ toString (apiPath (config w)) |} in
          let w := with_wmcore_bot (Some tbot) w in
          ([BotLogin tbot username password],
           match outcome with
           | inl response =>
               emit (ShowInformationMessage (loginMessage response)) w
           | inr message => emit (ShowErrorMessage message) w
           end)
      | _, _ =>
          ([], emit (ShowWarningMessage
                       (lit "You have not filled in the user name or password, please go to the settings and try again."))
                    w)
      end
  end.

(** [logout()] of wmcore.ts. *)
Definition logout (w : World) : World :=
  emit (ShowInformationMessage (lit "result: " ++ quoted (lit "Success")))
    (with_wmcore_bot None w).

End wmcore.

(* ================================================================== *)
(** * Sessions of use *)
(* ================================================================== *)

(** What can happen to the editor: a command is invoked (with what its
    prompts and its request come to), the user closes a panel, edits or
    switches the active document, or a session of bot.ts begins or ends.
    A command runs to the end of its request before the next thing
    happens. *)
Inductive Action : Type :=
| InvokeGetPreview (host botHost : option (list N)) (outcome : RequestOutcome)
| InvokeGetPageView (host pageTitle botHost : option (list N))
    (outcome : RequestOutcome)
| InvokeViewPage (pageTitle : option (list N))
    (response : Response getViewInterface.GetViewResult)
| InvokeReadPage (title : option (list N))
    (response : Response readPageInterface.ReadPageResult)
| InvokeWritePage (wikiTitle wikiSummary : option (list N))
    (token : wmcore.TokenResponse + list N)
    (edit : option wmcore.EditResponse)
| UserCloses (id : nat)
| UserEdits (document : option (list N))
| SessionBecomes (b : option MWBot).

Definition step (w : World) (a : Action) : World :=
  match a with
  | InvokeGetPreview host botHost outcome =>
      view.getPreview host botHost outcome w
  | InvokeGetPageView host pageTitle botHost outcome =>
      view.getPageView host pageTitle botHost outcome w
  | InvokeViewPage pageTitle response => wmcore.viewPage pageTitle response w
  | InvokeReadPage title response => wmcore.readPage title response w
  | InvokeWritePage wikiTitle wikiSummary token edit =>
      wmcore.writePage wikiTitle wikiSummary token edit w
  | UserCloses id => userCloses id w
  | UserEdits d => with_activeDocument d w
  | SessionBecomes b => with_bot b w
  end.

Definition run (acts : list Action) (w : World) : World := foldl step w acts.

(** The editor when the extension starts: no panel, nothing tracked, no
    session, and the empty string as page name. *)
Definition fresh (cfg : Configuration) (document : option (list N)) : World :=
  {| config := cfg; activeDocument := document; panels := []; log := [];
     previewCurrentPlanel := None; bot := None; wmcore_bot := None;
     pageName := Some [] |}.

(** Panel [id] is an open preview panel: one made by [getPreview] that the
    user has not closed. *)
Definition livePreview (w : World) (id : nat) : Prop :=
  ∃ p, panels w !! id = Some p ∧ viewType p = lit "previewer"
       ∧ disposed p = false.

(* ================================================================== *)
(** * Vocabulary of the properties *)
(* ================================================================== *)

(** [q] is [p] up to what it shows: same kind of panel, as open or closed,
    with the same listeners. *)
Definition sameFrame (p q : WebviewPanel) : Prop :=
  viewType q = viewType p ∧ disposed q = disposed p
  ∧ onDidDispose q = onDidDispose p.

(** From [w] to [w'] nothing happened to the editor but messages, requests
    and writes to the content or title of panel [id]. *)
Definition rewrites (id : nat) (w w' : World) : Prop :=
  previewCurrentPlanel w' = previewCurrentPlanel w
  ∧ config w' = config w
  ∧ activeDocument w' = activeDocument w
  ∧ bot w' = bot w
  ∧ length (panels w') = length (panels w)
  ∧ (∀ i, i ≠ id -> panels w' !! i = panels w !! i)
  ∧ (∀ p, panels w !! id = Some p ->
          ∃ q, panels w' !! id = Some q ∧ sameFrame p q).

(** The tracked panel is an open preview panel with its dispose listener;
    every open preview panel is the tracked one; no other panel has a
    listener. *)
Definition tracksItsPreview (w : World) : Prop :=
  (∀ id, previewCurrentPlanel w = Some id ->
         ∃ p, panels w !! id = Some p ∧ viewType p = lit "previewer"
              ∧ disposed p = false
              ∧ onDidDispose p = [ClearPreviewCurrentPlanel])
  ∧ (∀ id, livePreview w id -> previewCurrentPlanel w = Some id)
  ∧ (∀ id p, panels w !! id = Some p -> viewType p ≠ lit "previewer" ->
             onDidDispose p = []).

(** A page-info block: [<%--], white space, [[PAGE_INFO]], anything,
    [[END_PAGE_INFO]], white space, [--%>]. *)
Definition isBlock (b : list N) : Prop :=
  ∃ ws1 body ws2,
    b = lit "<%--" ++ ws1 ++ lit "[PAGE_INFO]" ++ body
          ++ lit "[END_PAGE_INFO]" ++ ws2 ++ lit "--%>"
    ∧ Forall (λ c, isSpace c = true) ws1
    ∧ Forall (λ c, isSpace c = true) ws2.

(** [s] does not begin with white space. *)
Definition noLeadingSpace (s : list N) : Prop :=
  match s with
  | [] => True
  | c :: _ => isSpace c = false
  end.

(** The value of the property [key] of a request's parameters. *)
Fixpoint argOf (key : string) (args : list (string * ArgValue))
    : option ArgValue :=
  match args with
  | [] => None
  | (k, v) :: rest => if String.eqb k key then Some v else argOf key rest
  end.

(** The events that issue a request to the wiki. *)
Definition isRequest (e : Event) : Prop :=
  (∃ tbot args, e = BotRequest tbot args) ∨ (∃ q, e = SendRequest q).

(** The language of a pattern: the strings it can match, whatever the
    order in which the matcher tries them. *)
Inductive matches : list atom -> list N -> Prop :=
| matches_nil : matches [] []
| matches_chr c r m : matches r m -> matches (Chr c :: r) (c :: m)
| matches_greedy cls r ws m :
    Forall (λ c, cls c = true) ws -> matches r m ->
    matches (Greedy cls :: r) (ws ++ m)
| matches_lazy cls r ws m :
    Forall (λ c, cls c = true) ws -> matches r m ->
    matches (Lazy cls :: r) (ws ++ m).

(** The HTML fragment of a decoded result under field [f]: the ["*"]
    payload of that field of the [parse] node, [None] as soon as one of the
    three is missing. *)
Definition fragment (re : getViewInterface.GetViewResult)
    (f : getViewInterface.Parse -> option getViewInterface.Star)
    : option (list N) :=
  match getViewInterface.parse re with
  | Some p =>
      match f p with
      | Some payload => getViewInterface.star payload
      | None => None
      end
  | None => None
  end.

(** ** Shapes of a revisions answer *)

(** The array [l], when it is there, has a first element, and [P] holds of
    it. *)
Definition headed {A} (P : A -> Prop) (l : option (list A)) : Prop :=
  match l with
  | None => True
  | Some [] => False
  | Some (x :: _) => P x
  end.

(** No array that [readPage] reads the first element of is empty (xml2js
    makes an array only for elements that occur). *)
Definition firstElements (re : readPageInterface.ReadPageResult) : Prop :=
  match readPageInterface.api re with
  | None => True
  | Some a =>
      headed (λ q,
        headed (λ iw, headed (λ _, True) (readPageInterface.i iw))
          (readPageInterface.interwiki q)
        ∧ headed (λ ps,
            headed (λ pg,
              headed (λ rv,
                headed (λ r,
                  headed (λ ss, headed (λ _, True) (readPageInterface.slot ss))
                    (readPageInterface.slots r))
                  (readPageInterface.rev rv))
                (readPageInterface.revisions pg))
              (readPageInterface.page ps))
            (readPageInterface.pages q)
        ∧ headed (λ nz, headed (λ _, True) (readPageInterface.n nz))
            (readPageInterface.normalized q)
        ∧ headed (λ rd, headed (λ _, True) (readPageInterface.r rd))
            (readPageInterface.redirects q))
        (readPageInterface.query a)
  end.

(** The first element of an array that may be missing. *)
Definition first {A} (l : option (list A)) : option A :=
  match l with
  | Some (x :: _) => Some x
  | _ => None
  end.

(** The first slot of the first revision of a page. *)
Definition firstSlot (revisions : option (list readPageInterface.Revisions))
    : option readPageInterface.Slot :=
  match first revisions with
  | None => None
  | Some rv =>
      match first (readPageInterface.rev rv) with
      | None => None
      | Some r =>
          match first (readPageInterface.slots r) with
          | None => None
          | Some ss => first (readPageInterface.slot ss)
          end
      end
  end.

(** The attributes of the first [n] of the first [normalized] element, and
    of the first [r] of the first [redirects] element. *)
Definition firstNormalized
    (normalized : option (list readPageInterface.Normalized))
    : option readPageInterface.Jump :=
  match first normalized with
  | None => None
  | Some nz =>
      match first (readPageInterface.n nz) with
      | None => None
      | Some e => readPageInterface.jump_dollar e
      end
  end.

Definition firstRedirect
    (redirects : option (list readPageInterface.Redirects))
    : option readPageInterface.Jump :=
  match first redirects with
  | None => None
  | Some rd =>
      match first (readPageInterface.r rd) with
      | None => None
      | Some e => readPageInterface.jump_dollar e
      end
  end.

(** From [w] to [w'] nothing changed but the log and the remembered page
    name. *)
Definition onlyMessages (w w' : World) : Prop :=
  config w' = config w
  ∧ activeDocument w' = activeDocument w
  ∧ panels w' = panels w
  ∧ previewCurrentPlanel w' = previewCurrentPlanel w
  ∧ bot w' = bot w
  ∧ wmcore_bot w' = wmcore_bot w.

(** [e] is a message shown to the user. *)
Definition isMessage (e : Event) : Prop :=
  (∃ m, e = ShowErrorMessage m) ∨ (∃ m, e = ShowWarningMessage m)
  ∨ (∃ m, e = ShowInformationMessage m).

(** ** Concrete inputs *)

Definition exampleConfig : Configuration :=
  {| getCss := true; enableJavascript := false; redirects := false;
     previewCssStyle := Some (lit "body { margin: 0; }");
     transferProtocol := Some (lit "https://");
     articlePath := Some (lit "/wiki/");
     apiPath := Some (lit "/w/api.php") |}.

Definition exampleHost : option (list N) := Some (lit "wiki.example").

Definition exampleDocument : list N :=
  lit "intro <%-- [PAGE_INFO] title=Foo [END_PAGE_INFO] --%>  ''Hello''".

(** [{"parse": {"text": {"*": "<p>Hi</p>"}, "displaytitle": "Hi"}}] *)
Definition exampleResult : getViewInterface.GetViewResult :=
  {| getViewInterface.parse :=
       Some {| getViewInterface.text :=
                 Some {| getViewInterface.star := Some (lit "<p>Hi</p>") |};
               getViewInterface.displaytitle := Some (lit "Hi");
               getViewInterface.headhtml := None;
               getViewInterface.categorieshtml := None |};
     getViewInterface.error := None |}.

(** [{"parse": {"text": {"*": "<p>Hi</p>"}}}]: no display title. *)
Definition untitledResult : getViewInterface.GetViewResult :=
  {| getViewInterface.parse :=
       Some {| getViewInterface.text :=
                 Some {| getViewInterface.star := Some (lit "<p>Hi</p>") |};
               getViewInterface.displaytitle := None;
               getViewInterface.headhtml := None;
               getViewInterface.categorieshtml := None |};
     getViewInterface.error := None |}.

(** [{"parse": {"text": {"*": "<p>Hi</p>"}, "displaytitle": "Hi",
                "categorieshtml": {"*": e}}}], [e] the empty string: an
    empty categories payload. *)
Definition emptyCategoriesResult : getViewInterface.GetViewResult :=
  {| getViewInterface.parse :=
       Some {| getViewInterface.text :=
                 Some {| getViewInterface.star := Some (lit "<p>Hi</p>") |};
               getViewInterface.displaytitle := Some (lit "Hi");
               getViewInterface.headhtml := None;
               getViewInterface.categorieshtml :=
                 Some {| getViewInterface.star := Some [] |} |};
     getViewInterface.error := None |}.

(** [{"error": {"code": "missingtitle",
                "info": "The page you specified doesn't exist."}}] *)
Definition errorResult : getViewInterface.GetViewResult :=
  {| getViewInterface.parse := None;
     getViewInterface.error :=
       Some {| getViewInterface.code := Some (lit "missingtitle");
               getViewInterface.info :=
                 Some (lit "The page you specified doesn't exist.") |} |}.

(** The answer to [titles=w:Bar|Foo<]: an interwiki entry for [w:Bar] next
    to a page entry for the invalid title [Foo<]. *)
Definition interwikiAndInvalid : readPageInterface.ReadPageResult :=
  {| readPageInterface.api := Some
     {| readPageInterface.query := Some
        [ {| readPageInterface.interwiki := Some
               [ {| readPageInterface.i := Some
                    [ {| readPageInterface.i_dollar := Some
                         {| readPageInterface.iw_title := Some (lit "w:Bar");
                            readPageInterface.iw := Some (lit "w") |} |} ] |} ];
             readPageInterface.pages := Some
               [ {| readPageInterface.page := Some
                    [ {| readPageInterface.dollar := Some
                         {| readPageInterface.title := Some (lit "Foo<");
                            readPageInterface.pageid := None;
                            readPageInterface.missing := None;
                            readPageInterface.invalid := Some [];
                            readPageInterface.invalidreason :=
                              Some (lit "The requested page title contains invalid characters.") |};
                         readPageInterface.revisions := None |} ] |} ];
             readPageInterface.normalized := None;
             readPageInterface.redirects := None |} ] |} |}.

(** The answer for a page [Foo] that does not exist. *)
Definition missingFoo : readPageInterface.ReadPageResult :=
  {| readPageInterface.api := Some
     {| readPageInterface.query := Some
        [ {| readPageInterface.interwiki := None;
             readPageInterface.pages := Some
               [ {| readPageInterface.page := Some
                    [ {| readPageInterface.dollar := Some
                         {| readPageInterface.title := Some (lit "Foo");
                            readPageInterface.pageid := None;
                            readPageInterface.missing := Some [];
                            readPageInterface.invalid := None;
                            readPageInterface.invalidreason := None |};
                         readPageInterface.revisions := None |} ] |} ];
             readPageInterface.normalized := None;
             readPageInterface.redirects := None |} ] |} |}.

(** A response shaped like [re], whose first query has no interwiki entry
    and whose first page has the attributes [attrs]. *)
Definition pageResponse (attrs : readPageInterface.PageAttr)
    (revisions : option (list readPageInterface.Revisions))
    (morePages : list readPageInterface.Page)
    (morePageLists : list readPageInterface.Pages)
    (normalized : option (list readPageInterface.Normalized))
    (redirects : option (list readPageInterface.Redirects))
    (moreQueries : list readPageInterface.Query)
    : readPageInterface.ReadPageResult :=
  {| readPageInterface.api := Some
     {| readPageInterface.query := Some
        ({| readPageInterface.interwiki := None;
            readPageInterface.pages := Some
              ({| readPageInterface.page := Some
                   ({| readPageInterface.dollar := Some attrs;
                       readPageInterface.revisions := revisions |}
                      :: morePages) |}
                 :: morePageLists);
            readPageInterface.normalized := normalized;
            readPageInterface.redirects := redirects |}
           :: moreQueries) |} |}.

(** The answer for the page [Foo] asked for as [foo]: one revision with one
    slot of wikitext, and a note of the normalized title. *)
Definition fooAttrs : readPageInterface.PageAttr :=
  {| readPageInterface.title := Some (lit "Foo");
     readPageInterface.pageid := Some (lit "42");
     readPageInterface.missing := None;
     readPageInterface.invalid := None;
     readPageInterface.invalidreason := None |}.

Definition fooRevisions : option (list readPageInterface.Revisions) :=
  Some [ {| readPageInterface.rev := Some
            [ {| readPageInterface.slots := Some
                 [ {| readPageInterface.slot := Some
                      [ {| readPageInterface.underscore := Some (lit "''Hello''");
                           readPageInterface.slot_dollar := Some
                             {| readPageInterface.contentmodel :=
                                  Some (lit "wikitext") |} |} ] |} ] |} ] |} ].

Definition fooNormalized : option (list readPageInterface.Normalized) :=
  Some [ {| readPageInterface.n := Some
            [ {| readPageInterface.jump_dollar := Some
                 {| readPageInterface.from := Some (lit "foo");
                    readPageInterface.to := Some (lit "Foo") |} |} ] |} ].

Definition openedFoo : readPageInterface.ReadPageResult :=
  pageResponse fooAttrs fooRevisions [] [] fooNormalized None [].

(** A preview, the user closes it, a page view, and a preview again. *)
Definition exampleSession : list Action :=
  [ InvokeGetPreview exampleHost exampleHost (Resolved exampleResult);
    UserCloses 0;
    InvokeGetPageView exampleHost (Some (lit "Foo")) exampleHost
      (Resolved exampleResult);
    InvokeGetPreview exampleHost exampleHost Pending ].

(** The parts of [view.pageInfoRegExp] before and after its lazy star. *)
Definition blockHead : list atom :=
  chars "<%--" ++ [Greedy isSpace] ++ chars "[PAGE_INFO]".

Definition blockTail : list atom :=
  chars "[END_PAGE_INFO]" ++ [Greedy isSpace] ++ chars "--%>".

(* ================================================================== *)
(** * The matcher *)
(* ================================================================== *)

Section Matcher.
Implicit Types (cls : N -> bool) (k : list N -> option (list N)).
Implicit Types (s ws m rest : list N) (r : list atom).

Lemma greedyStar_sound cls k s rest :
  greedyStar cls k s = Some rest ->
  ∃ ws s', s = ws ++ s' ∧ Forall (λ c, cls c = true) ws ∧ k s' = Some rest.
Proof.
  revert rest. induction s as [|c s IH]; intros rest; simpl.
  - intros Hk. by exists [], [].
  - destruct (cls c) eqn:Hc.
    + destruct (greedyStar cls k s) as [rest'|] eqn:Hg.
      * intros [= <-]. destruct (IH _ eq_refl) as (ws & s' & -> & Hws & Hk).
        exists (c :: ws), s'. split_and!; [done | by constructor | done].
      * intros Hk. by exists [], (c :: s).
    + intros Hk. by exists [], (c :: s).
Qed.

Lemma lazyStar_sound cls k s rest :
  lazyStar cls k s = Some rest ->
  ∃ ws s', s = ws ++ s' ∧ Forall (λ c, cls c = true) ws ∧ k s' = Some rest
    ∧ ∀ ws0 s0, s = ws0 ++ s0 -> length ws0 < length ws -> k s0 = None.
Proof.
  revert rest. induction s as [|c s IH]; intros rest; simpl.
  - destruct (k []) eqn:Hk; [|done]. intros [= <-].
    exists [], []. split_and!; [done | done | done |]. simpl. lia.
  - destruct (k (c :: s)) eqn:Hk.
    + intros [= <-]. exists [], (c :: s).
      split_and!; [done | done | done |]. simpl. lia.
    + destruct (cls c) eqn:Hc; [|done]. intros Hl.
      destruct (IH _ Hl) as (ws & s' & -> & Hws & Hk' & Hmin).
      exists (c :: ws), s'. split_and!; [done | by constructor | done |].
      intros [|c0 ws0] s0 Heq Hlen; simpl in *.
      * by subst.
      * injection Heq as -> Heq. apply (Hmin ws0 s0 Heq). lia.
Qed.

Lemma matchK_sound r k s rest :
  matchK r k s = Some rest ->
  ∃ m s', s = m ++ s' ∧ matches r m ∧ k s' = Some rest.
Proof.
  revert k s rest. induction r as [|[c|cls|cls] r IH]; intros k s rest; simpl.
  - intros Hk. exists [], s. split_and!; [done | constructor | done].
  - destruct s as [|x s]; [done|].
    destruct (N.eqb_spec x c) as [->|]; [|done]. intros Hm.
    destruct (IH _ _ _ Hm) as (m & s' & -> & Hr & Hk).
    exists (c :: m), s'. split_and!; [done | by constructor | done].
  - intros Hg. destruct (greedyStar_sound _ _ _ _ Hg) as (ws & s1 & -> & Hws & Hm).
    destruct (IH _ _ _ Hm) as (m & s' & -> & Hr & Hk).
    exists (ws ++ m), s'. rewrite <-(assoc_L (++)).
    split_and!; [done | by constructor | done].
  - intros Hl.
    destruct (lazyStar_sound _ _ _ _ Hl) as (ws & s1 & -> & Hws & Hm & _).
    destruct (IH _ _ _ Hm) as (m & s' & -> & Hr & Hk).
    exists (ws ++ m), s'. rewrite <-(assoc_L (++)).
    split_and!; [done | by constructor | done].
Qed.

Lemma greedyStar_complete cls k ws s :
  Forall (λ c, cls c = true) ws -> is_Some (k s) -> is_Some (greedyStar cls k (ws ++ s)).
Proof.
  intros Hws Hk. induction Hws as [|c ws Hc _ IH]; simpl.
  - destruct s as [|c s]; simpl; [done|].
    destruct (cls c); [|done]. by destruct (greedyStar cls k s).
  - rewrite Hc. destruct IH as [x ->]. by eexists.
Qed.

Lemma lazyStar_complete cls k ws s :
  Forall (λ c, cls c = true) ws -> is_Some (k s) -> is_Some (lazyStar cls k (ws ++ s)).
Proof.
  intros Hws [x Hk]. induction Hws as [|c ws Hc _ IH]; simpl.
  - destruct s; simpl; rewrite Hk; by eexists.
  - destruct (k (c :: ws ++ s)); [by eexists|]. by rewrite Hc.
Qed.

Lemma matchK_complete r k m s :
  matches r m -> is_Some (k s) -> is_Some (matchK r k (m ++ s)).
Proof.
  intros Hm Hk. induction Hm as [|c r m _ IH|cls r ws m Hws _ IH|cls r ws m Hws _ IH];
    simpl.
  - done.
  - by rewrite N.eqb_refl.
  - rewrite <-(assoc_L (++)). by apply greedyStar_complete.
  - rewrite <-(assoc_L (++)). by apply lazyStar_complete.
Qed.

Lemma greedyStar_ext cls k1 k2 s :
  (∀ s, k1 s = k2 s) -> greedyStar cls k1 s = greedyStar cls k2 s.
Proof.
  intros Hk. induction s as [|c s IH]; simpl; [done|]. by rewrite IH, Hk.
Qed.

Lemma lazyStar_ext cls k1 k2 s :
  (∀ s, k1 s = k2 s) -> lazyStar cls k1 s = lazyStar cls k2 s.
Proof.
  intros Hk. induction s as [|c s IH]; simpl; [by rewrite Hk|].
  by rewrite IH, Hk.
Qed.

Lemma matchK_app r1 r2 k s :
  matchK (r1 ++ r2) k s = matchK r1 (matchK r2 k) s.
Proof.
  revert s. induction r1 as [|[c|cls|cls] r1 IH]; intros s; simpl; [done|..].
  - destruct s as [|x s]; [done|]. by destruct (N.eqb x c).
  - by apply greedyStar_ext.
  - by apply lazyStar_ext.
Qed.

(** The last star of a pattern, with nothing after it, leaves no character
    of its class behind. *)
Lemma greedyStar_last cls s rest :
  greedyStar cls Some s = Some rest ->
  ∃ ws, s = ws ++ rest ∧ Forall (λ c, cls c = true) ws
        ∧ match rest with [] => True | c :: _ => cls c = false end.
Proof.
  revert rest. induction s as [|c s IH]; intros rest; simpl.
  - intros [= <-]. by exists [].
  - destruct (cls c) eqn:Hc.
    + destruct (greedyStar cls Some s) as [rest'|] eqn:Hg.
      * intros [= <-]. destruct (IH _ eq_refl) as (ws & -> & Hws & Hr).
        exists (c :: ws). split_and!; [done | by constructor | done].
      * intros [= <-]. exfalso.
        destruct (greedyStar_complete cls Some [] s) as [? ?]; [done..|].
        simpl in *. congruence.
    + intros [= <-]. by exists [].
Qed.

Lemma search_None r s :
  search r s = None ->
  ∀ pre rest, s = pre ++ rest -> matchK r Some rest = None.
Proof.
  induction s as [|c s IH]; simpl.
  - destruct (matchK r Some []) eqn:E; [done|]. intros _ pre rest Heq.
    symmetry in Heq. apply app_eq_nil in Heq as [-> ->]. done.
  - destruct (matchK r Some (c :: s)) eqn:E; [done|].
    destruct (search r s) as [[??]|] eqn:Es; [done|]. intros _ [|c' pre] rest Heq.
    + simpl in Heq. by subst.
    + injection Heq as -> ->. by eapply IH.
Qed.

Lemma search_Some r s pre post :
  search r s = Some (pre, post) ->
  ∃ m, s = pre ++ m ++ post
       ∧ matchK r Some (m ++ post) = Some post
       ∧ ∀ pre' rest', s = pre' ++ rest' -> length pre' < length pre ->
                       matchK r Some rest' = None.
Proof.
  revert pre post. induction s as [|c s IH]; intros pre post; simpl.
  - destruct (matchK r Some []) as [rest|] eqn:E; [|done]. intros [= <- <-].
    destruct (matchK_sound _ _ _ _ E) as (m & s' & Heq & _ & [= <-]).
    exists m. split_and!; [done | by rewrite <-Heq |]. simpl. lia.
  - destruct (matchK r Some (c :: s)) as [rest|] eqn:E.
    + intros [= <- <-].
      destruct (matchK_sound _ _ _ _ E) as (m & s' & Heq & _ & [= <-]).
      exists m. split_and!; [done | by rewrite <-Heq |]. simpl. lia.
    + destruct (search r s) as [[before after]|] eqn:Es; [|done].
      intros [= <- <-]. destruct (IH _ _ eq_refl) as (m & -> & Hm & Hmin).
      exists m. split_and!; [done | done |].
      intros [|c' pre'] rest' Heq Hlen; simpl in *.
      * by subst.
      * injection Heq as -> Heq. apply (Hmin pre' rest' Heq). lia.
Qed.

End Matcher.

(* ================================================================== *)
(** * The page-info pattern *)
(* ================================================================== *)

Section PageInfo.
Implicit Types (s ws m b body rest : list N) (r : list atom).

Lemma matches_app r1 r2 m :
  matches (r1 ++ r2) m ↔ ∃ m1 m2, m = m1 ++ m2 ∧ matches r1 m1 ∧ matches r2 m2.
Proof.
  split.
  - revert m. induction r1 as [|a r1 IH]; intros m; simpl.
    + intros Hm. exists [], m. split_and!; [done | constructor | done].
    + inversion 1 as [|c r m' Hm'|cls r ws m' Hws Hm'|cls r ws m' Hws Hm']; subst;
        destruct (IH _ Hm') as (m1 & m2 & -> & H1 & H2).
      * exists (c :: m1), m2. split_and!; [done | by constructor | done].
      * exists (ws ++ m1), m2. rewrite (assoc_L (++)).
        split_and!; [done | by constructor | done].
      * exists (ws ++ m1), m2. rewrite (assoc_L (++)).
        split_and!; [done | by constructor | done].
  - intros (m1 & m2 & -> & H1 & H2).
    induction H1; simpl; rewrite <-?(assoc_L (++)); [done | by constructor..].
Qed.

Lemma matches_chars l m : matches (map Chr l) m ↔ m = l.
Proof.
  split.
  - revert m. induction l as [|c l IH]; intros m; simpl; inversion 1; subst;
      [done|]. f_equal. by apply IH.
  - intros ->. induction l; simpl; by constructor.
Qed.

Lemma matches_greedy_last cls m :
  matches [Greedy cls] m ↔ Forall (λ c, cls c = true) m.
Proof.
  split.
  - inversion 1 as [| |? ? ws m' Hws Hm'|]; subst. inversion Hm'; subst.
    by rewrite (right_id_L [] (++)).
  - intros Hm. rewrite <-(right_id_L [] (++) m). constructor; [done|constructor].
Qed.

Lemma matches_lazy_any r m :
  matches (Lazy anyChar :: r) m ↔ ∃ body m', m = body ++ m' ∧ matches r m'.
Proof.
  split.
  - inversion 1; subst. eauto.
  - intros (body & m' & -> & Hm). constructor; [|done].
    by apply Forall_forall.
Qed.

Lemma matches_blockHead m :
  matches blockHead m ↔
  ∃ ws1, m = lit "<%--" ++ ws1 ++ lit "[PAGE_INFO]"
         ∧ Forall (λ c, isSpace c = true) ws1.
Proof.
  unfold blockHead, chars. rewrite matches_app. split.
  - intros (m1 & m2 & -> & ->%matches_chars & H2).
    change (matches ([Greedy isSpace] ++ map Chr (lit "[PAGE_INFO]")) m2) in H2.
    apply matches_app in H2
      as (ws1 & m3 & -> & Hws%matches_greedy_last & ->%matches_chars).
    by exists ws1.
  - intros (ws1 & -> & Hws). exists (lit "<%--"), (ws1 ++ lit "[PAGE_INFO]").
    split_and!; [done | by apply matches_chars |].
    change (matches ([Greedy isSpace] ++ map Chr (lit "[PAGE_INFO]"))
              (ws1 ++ lit "[PAGE_INFO]")).
    apply matches_app. exists ws1, (lit "[PAGE_INFO]").
    split_and!; [done | by apply matches_greedy_last | by apply matches_chars].
Qed.

Lemma matches_blockTail m :
  matches blockTail m ↔
  ∃ ws2, m = lit "[END_PAGE_INFO]" ++ ws2 ++ lit "--%>"
         ∧ Forall (λ c, isSpace c = true) ws2.
Proof.
  unfold blockTail, chars. rewrite matches_app. split.
  - intros (m1 & m2 & -> & ->%matches_chars & H2).
    change (matches ([Greedy isSpace] ++ map Chr (lit "--%>")) m2) in H2.
    apply matches_app in H2
      as (ws2 & m3 & -> & Hws%matches_greedy_last & ->%matches_chars).
    by exists ws2.
  - intros (ws2 & -> & Hws). exists (lit "[END_PAGE_INFO]"), (ws2 ++ lit "--%>").
    split_and!; [done | by apply matches_chars |].
    change (matches ([Greedy isSpace] ++ map Chr (lit "--%>"))
              (ws2 ++ lit "--%>")).
    apply matches_app. exists ws2, (lit "--%>").
    split_and!; [done | by apply matches_greedy_last | by apply matches_chars].
Qed.

Lemma pageInfoRegExp_split :
  view.pageInfoRegExp
  = blockHead ++ Lazy anyChar :: (blockTail ++ [Greedy isSpace]).
Proof. reflexivity. Qed.

Lemma matches_block b :
  matches (blockHead ++ Lazy anyChar :: blockTail) b ↔ isBlock b.
Proof.
  rewrite matches_app. split.
  - intros (m1 & m2 & -> & (ws1 & -> & Hws1)%matches_blockHead
            & (body & m3 & -> & (ws2 & -> & Hws2)%matches_blockTail)%matches_lazy_any).
    exists ws1, body, ws2. by rewrite <-!(assoc_L (++)).
  - intros (ws1 & body & ws2 & -> & Hws1 & Hws2).
    exists (lit "<%--" ++ ws1 ++ lit "[PAGE_INFO]"),
           (body ++ lit "[END_PAGE_INFO]" ++ ws2 ++ lit "--%>").
    split_and!.
    + by rewrite <-!(assoc_L (++)).
    + apply matches_blockHead. by exists ws1.
    + apply matches_lazy_any. eexists _, _. split; [done|].
      apply matches_blockTail. by exists ws2.
Qed.

(** A block followed by white space is what the whole pattern matches. *)
Lemma matches_pageInfoRegExp b ws :
  isBlock b -> Forall (λ c, isSpace c = true) ws ->
  matches view.pageInfoRegExp (b ++ ws).
Proof.
  intros Hb%matches_block Hws.
  change view.pageInfoRegExp
    with ((blockHead ++ Lazy anyChar :: blockTail) ++ [Greedy isSpace]).
  apply matches_app. exists b, ws. by rewrite matches_greedy_last.
Qed.

(** White space up to the first other character is determined. *)
Lemma span_unique ws ws' c c' rest rest' :
  Forall (λ c, isSpace c = true) ws -> Forall (λ c, isSpace c = true) ws' ->
  isSpace c = false -> isSpace c' = false ->
  ws ++ c :: rest = ws' ++ c' :: rest' ->
  ws = ws' ∧ rest = rest'.
Proof.
  intros Hws. revert ws'. induction Hws as [|x ws Hx _ IH];
    intros ws' Hws' Hc Hc' Heq; destruct Hws' as [|x' ws' Hx' Hws'].
  - apply (inj2 cons) in Heq as [_ ->]. done.
  - apply (inj2 cons) in Heq as [-> _]. congruence.
  - apply (inj2 cons) in Heq as [-> _]. congruence.
  - apply (inj2 cons) in Heq as [-> Heq].
    destruct (IH _ Hws' Hc Hc' Heq) as [-> ->]. done.
Qed.

(** Past its first character, [[END_PAGE_INFO]] and the white space after
    it hold no opening bracket. *)
Lemma no_bracket_inside ws2 tl o :
  Forall (λ c, isSpace c = true) ws2 ->
  1 ≤ o < 15 + length ws2 ->
  (lit "[END_PAGE_INFO]" ++ ws2 ++ tl) !! o ≠ Some 91%N.
Proof.
  intros Hws [Hlo Hhi]. destruct (decide (o < 15)) as [Hlt|Hge].
  - rewrite lookup_app_l by (vm_compute; lia).
    do 15 (destruct o as [|o]; [vm_compute; (lia || congruence)|]). lia.
  - rewrite lookup_app_r by (vm_compute; lia).
    rewrite lookup_app_l by (change (length (lit "[END_PAGE_INFO]")) with 15; lia).
    intros Hl. by apply (Forall_lookup_1 _ _ _ _ Hws) in Hl.
Qed.

End PageInfo.

Section PageInfoMatch.
Implicit Types (s ws m b body rest text : list N).

Lemma PAGE_INFO_cons s :
  lit "[PAGE_INFO]" ++ s = 91%N :: (lit "PAGE_INFO]" ++ s).
Proof. reflexivity. Qed.

Lemma close_cons s : lit "--%>" ++ s = 45%N :: (lit "-%>" ++ s).
Proof. reflexivity. Qed.

(** Wherever a block starts, the pattern matches. *)
Lemma pageInfo_complete b rest :
  isBlock b -> is_Some (matchK view.pageInfoRegExp Some (b ++ rest)).
Proof.
  intros Hb.
  pose proof (matches_pageInfoRegExp b [] Hb (Forall_nil _)) as Hm.
  rewrite (right_id_L [] (++)) in Hm.
  by apply matchK_complete.
Qed.

Lemma blockTail_complete ws2 rest :
  Forall (λ c, isSpace c = true) ws2 ->
  is_Some (matchK (blockTail ++ [Greedy isSpace]) Some
             (lit "[END_PAGE_INFO]" ++ ws2 ++ lit "--%>" ++ rest)).
Proof.
  intros Hws.
  assert (matches (blockTail ++ [Greedy isSpace])
            (lit "[END_PAGE_INFO]" ++ ws2 ++ lit "--%>")) as Hm.
  { apply matches_app. exists (lit "[END_PAGE_INFO]" ++ ws2 ++ lit "--%>"), [].
    split_and!; [by rewrite (right_id_L [] (++)) | | by apply matches_greedy_last].
    apply matches_blockTail. by exists ws2. }
  pose proof (matchK_complete _ Some _ rest Hm (mk_is_Some _ _ eq_refl)) as H.
  by rewrite <-!(assoc_L (++)) in H.
Qed.

(** What a match of the pattern at the start of [s] consumes: the shortest
    block that starts there and all the white space after it. *)
Lemma pageInfo_matchK s post :
  matchK view.pageInfoRegExp Some s = Some post ->
  ∃ b ws, s = b ++ ws ++ post ∧ isBlock b
          ∧ Forall (λ c, isSpace c = true) ws ∧ noLeadingSpace post
          ∧ ∀ b' rest', s = b' ++ rest' -> isBlock b' -> length b ≤ length b'.
Proof.
  rewrite pageInfoRegExp_split, matchK_app.
  intros (m1 & s2 & -> & (ws1 & -> & Hws1)%matches_blockHead & Hl)%matchK_sound.
  change (lazyStar anyChar (matchK (blockTail ++ [Greedy isSpace]) Some) s2
          = Some post) in Hl.
  apply lazyStar_sound in Hl as (body & s3 & -> & _ & Hk & Hmin).
  rewrite matchK_app in Hk.
  apply matchK_sound
    in Hk as (m2 & s4 & -> & (ws2 & -> & Hws2)%matches_blockTail & Hg).
  change (greedyStar isSpace Some s4 = Some post) in Hg.
  apply greedyStar_last in Hg as (ws & -> & Hws & Hpost).
  exists ((lit "<%--" ++ ws1 ++ lit "[PAGE_INFO]") ++ body
            ++ lit "[END_PAGE_INFO]" ++ ws2 ++ lit "--%>"), ws.
  split_and!.
  - by rewrite <-!(assoc_L (++)).
  - exists ws1, body, ws2. by rewrite <-!(assoc_L (++)).
  - done.
  - by destruct post.
  - intros b' rest' Heq (ws1' & body' & ws2' & -> & Hws1' & Hws2').
    rewrite <-!(assoc_L (++)) in Heq. apply app_inv_head in Heq.
    rewrite !PAGE_INFO_cons in Heq.
    apply span_unique in Heq as [<- Heq]; [|done..].
    apply app_inv_head in Heq.
    (* the body chosen is not longer than the other one *)
    assert (length body ≤ length body') as Hle.
    { destruct (decide (length body' < length body)) as [Hlt|]; [|lia].
      exfalso.
      destruct (blockTail_complete ws2' rest' Hws2') as [x Hx].
      rewrite (Hmin body' _) in Hx; [done| |done].
      rewrite <-!(assoc_L (++)). exact Heq. }
    assert (∃ x, body' = body ++ x
                 ∧ lit "[END_PAGE_INFO]" ++ ws2 ++ lit "--%>" ++ ws ++ post
                   = x ++ lit "[END_PAGE_INFO]" ++ ws2' ++ lit "--%>" ++ rest')
      as (x & -> & Hx).
    { apply app_eq_inv in Heq as [(k & -> & Hk)|(k & -> & Hk)].
      - rewrite length_app in Hle. destruct k; [|simpl in Hle; lia].
        exists []. rewrite app_nil_l in Hk. rewrite !(right_id_L [] (++)).
        split; [done | by rewrite Hk].
      - by exists k. }
    rewrite !length_app. 
    enough (length ws2 ≤ length x + length ws2') by lia.
    destruct x as [|c x].
    + rewrite app_nil_l in Hx. apply app_inv_head in Hx.
      rewrite !close_cons in Hx.
      apply span_unique in Hx as [<- _]; [lia|done..].
    + destruct (decide (length (c :: x) < 15 + length ws2)) as [Hlt|]; [|lia].
      exfalso.
      apply (no_bracket_inside ws2 (lit "--%>" ++ ws ++ post) (length (c :: x)));
        [done | simpl in Hlt |- *; lia |].
      rewrite Hx. rewrite lookup_app_r by done.
      by rewrite Nat.sub_diag.
Qed.

(** No block anywhere when the pattern is not found. *)
Lemma pageInfo_search_None text :
  search view.pageInfoRegExp text = None ->
  ∀ pre b rest, text = pre ++ b ++ rest -> ¬ isBlock b.
Proof.
  intros Hs pre b rest Heq Hb.
  destruct (pageInfo_complete b rest Hb) as [x Hx].
  by rewrite (search_None _ _ Hs pre _ Heq) in Hx.
Qed.

(** [text.replace(pageInfoRegExp, e)], [e] the empty string: the text
    unchanged when it holds no
    block; otherwise the text without its first block (the leftmost, and the
    shortest that starts there) and without the white space that follows
    it. *)
Lemma replace_pageInfo text :
  ((∀ pre b rest, text = pre ++ b ++ rest -> ¬ isBlock b)
   ∧ replaceRegExp text view.pageInfoRegExp [] = text)
  ∨ ∃ pre b ws post,
      text = pre ++ b ++ ws ++ post
      ∧ isBlock b
      ∧ Forall (λ c, isSpace c = true) ws
      ∧ noLeadingSpace post
      ∧ replaceRegExp text view.pageInfoRegExp [] = pre ++ post
      ∧ (∀ pre' b' rest',
           text = pre' ++ b' ++ rest' -> isBlock b' -> length pre ≤ length pre')
      ∧ (∀ b' rest',
           b ++ ws ++ post = b' ++ rest' -> isBlock b' -> length b ≤ length b').
Proof.
  unfold replaceRegExp.
  destruct (search view.pageInfoRegExp text) as [[pre post]|] eqn:Hs.
  - right. apply search_Some in Hs as (m & -> & Hm & Hleft).
    apply pageInfo_matchK in Hm as (b & ws & Heq & Hb & Hws & Hpost & Hshort).
    exists pre, b, ws, post. split_and!; [by rewrite Heq | done..| |].
    + intros pre' b' rest' Heq' Hb'.
      destruct (decide (length pre' < length pre)) as [Hlt|]; [|lia].
      exfalso. destruct (pageInfo_complete b' rest' Hb') as [x Hx].
      by rewrite (Hleft pre' _ Heq' Hlt) in Hx.
    + intros b' rest' Heq' Hb'. apply (Hshort b' rest'); [by rewrite Heq | done].
  - left. split; [|done]. by apply pageInfo_search_None.
Qed.

End PageInfoMatch.

(* ================================================================== *)
(** * Writes to a panel *)
(* ================================================================== *)

Section Surfaces.
Implicit Types (w : World) (id : nat) (p q : WebviewPanel).

Lemma rewrites_refl id w : rewrites id w w.
Proof. unfold rewrites, sameFrame. naive_solver. Qed.

Lemma rewrites_trans id w1 w2 w3 :
  rewrites id w1 w2 -> rewrites id w2 w3 -> rewrites id w1 w3.
Proof.
  intros (Ht & Hc & Hd & Hb & Hl & Ho & Hf) (Ht' & Hc' & Hd' & Hb' & Hl' & Ho' & Hf').
  split_and!; try congruence.
  - intros i Hi. by rewrite Ho', Ho.
  - intros p Hp. destruct (Hf _ Hp) as (q & Hq & ? & ? & ?).
    destruct (Hf' _ Hq) as (q' & Hq' & ? & ? & ?).
    exists q'. unfold sameFrame. split_and!; congruence.
Qed.

Lemma rewrites_emit id e w : rewrites id w (emit e w).
Proof. unfold rewrites, sameFrame. simpl. naive_solver. Qed.

Lemma rewrites_alter id f w :
  (∀ p, sameFrame p (f p)) ->
  rewrites id w (with_panels (alter f id (panels w)) w).
Proof.
  intros Hf. split_and!; simpl; try done.
  - apply length_alter.
  - intros i Hi. by apply list_lookup_alter_ne.
  - intros p Hp. exists (f p). by rewrite list_lookup_alter_eq, Hp.
Qed.

Lemma rewrites_setHtml id h w : rewrites id w (setHtml id h w).
Proof.
  unfold setHtml. eapply rewrites_trans; [|apply rewrites_emit].
  by apply rewrites_alter.
Qed.

Lemma rewrites_setTitle id t w : rewrites id w (setTitle id t w).
Proof.
  unfold setTitle. eapply rewrites_trans; [|apply rewrites_emit].
  by apply rewrites_alter.
Qed.

Lemma rewrites_getView_catch id error w :
  rewrites id w (view.getView_catch id error w).
Proof.
  unfold view.getView_catch.
  eapply rewrites_trans; [apply rewrites_emit | apply rewrites_setHtml].
Qed.

Lemma rewrites_getView_try id viewerTitle baseURI re w :
  rewrites id w (view.getView_try id viewerTitle baseURI re w).
Proof.
  unfold view.getView_try.
  destruct (negb _); [apply rewrites_refl|].
  destruct (view.html _ _ _); [|apply rewrites_getView_catch].
  eapply rewrites_trans; [apply rewrites_setHtml|].
  destruct (view.panelTitle _ _);
    [apply rewrites_setTitle | apply rewrites_getView_catch].
Qed.

(** [getView] on an existing panel writes to that panel only. *)
Lemma rewrites_getView_Panel id viewerTitle args tbot baseURI outcome w :
  rewrites id w
    (view.getView (view.Panel id) viewerTitle args tbot baseURI outcome w).
Proof.
  unfold view.getView.
  eapply rewrites_trans; [apply rewrites_setHtml|].
  eapply rewrites_trans; [apply rewrites_emit|].
  destruct outcome;
    [apply rewrites_refl | apply rewrites_getView_try
     | apply rewrites_getView_catch].
Qed.

(** [getView] on a view type makes a panel and writes to that panel only. *)
Lemma rewrites_getView_ViewType vt viewerTitle args tbot baseURI outcome w :
  rewrites (length (panels w))
    (createWebviewPanel vt viewerTitle Active (enableJavascript (config w)) w).2
    (view.getView (view.ViewType vt) viewerTitle args tbot baseURI outcome w).
Proof.
  unfold view.getView. simpl.
  eapply rewrites_trans; [apply rewrites_setHtml|].
  eapply rewrites_trans; [apply rewrites_emit|].
  destruct outcome;
    [apply rewrites_refl | apply rewrites_getView_try
     | apply rewrites_getView_catch].
Qed.

Lemma tracksItsPreview_rewrites id w w' :
  rewrites id w w' -> tracksItsPreview w -> tracksItsPreview w'.
Proof.
  intros (Ht & _ & _ & _ & Hl & Ho & Hf) (I1 & I2 & I3).
  assert (∀ i q, panels w' !! i = Some q ->
                 ∃ p, panels w !! i = Some p ∧ sameFrame p q) as Hback.
  { intros i q Hq. destruct (decide (i = id)) as [->|Hi].
    - assert (is_Some (panels w !! id)) as [p Hp].
      { apply lookup_lt_is_Some. rewrite <-Hl. by eapply lookup_lt_Some. }
      destruct (Hf _ Hp) as (q' & Hq' & Hs). exists p. naive_solver.
    - rewrite Ho in Hq by done. exists q. unfold sameFrame. naive_solver. }
  split_and!.
  - intros i Hi. rewrite Ht in Hi.
    destruct (I1 _ Hi) as (p & Hp & Hv & Hd & Hls).
    destruct (decide (i = id)) as [->|Hne].
    + destruct (Hf _ Hp) as (q & Hq & Hv' & Hd' & Hls').
      exists q. split_and!; congruence.
    + exists p. rewrite Ho by done. done.
  - intros i (q & Hq & Hv & Hd). rewrite Ht. apply I2.
    destruct (Hback _ _ Hq) as (p & Hp & Hv' & Hd' & _).
    exists p. split_and!; congruence.
  - intros i q Hq Hv. destruct (Hback _ _ Hq) as (p & Hp & Hv' & _ & Hls').
    rewrite Hls'. apply (I3 i p Hp). congruence.
Qed.

Lemma pageViewer_not_previewer : lit "pageViewer" ≠ lit "previewer".
Proof. discriminate. Qed.

(** A new panel of another kind does not disturb the tracking. *)
Lemma tracksItsPreview_create vt t c scripts w :
  vt ≠ lit "previewer" ->
  tracksItsPreview w ->
  tracksItsPreview (createWebviewPanel vt t c scripts w).2.
Proof.
  intros Hvt (I1 & I2 & I3). unfold tracksItsPreview. simpl. split_and!.
  - intros i Hi. destruct (I1 _ Hi) as (p & Hp & ?). exists p.
    split; [|done]. by apply lookup_app_l_Some.
  - intros i (q & Hq & Hv & Hd). simpl in Hq.
    apply lookup_app_Some in Hq as [Hq|[_ Hq]].
    + apply I2. by exists q.
    + apply list_lookup_singleton_Some in Hq as [_ <-]. done.
  - intros i q Hq Hv. apply lookup_app_Some in Hq as [Hq|[_ Hq]].
    + by eapply I3.
    + by apply list_lookup_singleton_Some in Hq as [_ <-].
Qed.

(** The panel [getPreview] makes when none is tracked becomes the tracked
    one. *)
Lemma tracksItsPreview_track t c scripts w :
  previewCurrentPlanel w = None ->
  tracksItsPreview w ->
  let '(id, w1) := createWebviewPanel (lit "previewer") t c scripts w in
  tracksItsPreview
    (registerOnDidDispose id ClearPreviewCurrentPlanel
       (with_previewCurrentPlanel (Some id) w1)).
Proof.
  intros Hnone (I1 & I2 & I3). unfold tracksItsPreview, livePreview. simpl.
  rewrite alter_app_r_alt by done. rewrite Nat.sub_diag. simpl. split_and!.
  - intros i [= <-]. eexists. split; [apply list_lookup_middle; done|]. done.
  - intros i (q & Hq & Hv & Hd).
    apply lookup_app_Some in Hq as [Hq|[Hge Hq]].
    + assert (previewCurrentPlanel w = Some i) as Hi by (apply I2; by exists q).
      congruence.
    + apply list_lookup_singleton_Some in Hq as [Hi _]. f_equal. lia.
  - intros i q Hq Hv. apply lookup_app_Some in Hq as [Hq|[_ Hq]].
    + by eapply I3.
    + apply list_lookup_singleton_Some in Hq as [_ <-]. done.
Qed.

End Surfaces.

(* ================================================================== *)
(** * The tracked preview panel *)
(* ================================================================== *)

Section Tracking.
Implicit Types (w : World) (id : nat) (p q : WebviewPanel).

Lemma tracksItsPreview_fresh cfg document : tracksItsPreview (fresh cfg document).
Proof.
  unfold tracksItsPreview, livePreview. simpl. split_and!.
  - done.
  - intros id (p & Hp & _). done.
  - done.
Qed.

Lemma tracksItsPreview_userCloses id w :
  tracksItsPreview w -> tracksItsPreview (userCloses id w).
Proof.
  intros (I1 & I2 & I3). unfold userCloses.
  destruct (panels w !! id) as [p|] eqn:Hp; [|done].
  destruct (disposed p) eqn:Hd; [done|].
  destruct (decide (viewType p = lit "previewer")) as [Hv|Hv].
  - assert (previewCurrentPlanel w = Some id) as Ht by (apply I2; by exists p).
    destruct (I1 _ Ht) as (p' & Hp' & _ & _ & Hls).
    assert (p' = p) as -> by congruence. rewrite Hls. simpl.
    unfold tracksItsPreview, livePreview. simpl. split_and!.
    + done.
    + intros i (q & Hq & Hvq & Hdq). exfalso.
      rewrite list_lookup_alter in Hq. case_decide as Hi.
      * subst i. rewrite Hp in Hq. by injection Hq as <-.
      * assert (previewCurrentPlanel w = Some i) by (apply I2; by exists q).
        congruence.
    + intros i q Hq Hvq. rewrite list_lookup_alter in Hq. case_decide as Hi.
      * subst i. rewrite Hp in Hq. injection Hq as <-. done.
      * by eapply I3.
  - rewrite (I3 _ _ Hp Hv). simpl.
    unfold tracksItsPreview, livePreview. simpl. split_and!.
    + intros i Hi. destruct (I1 _ Hi) as (p' & Hp' & Hv' & ?).
      exists p'. split; [|done]. rewrite list_lookup_alter_ne; [done|].
      intros ->. congruence.
    + intros i (q & Hq & Hvq & Hdq).
      rewrite list_lookup_alter in Hq. case_decide as Hi.
      * subst i. rewrite Hp in Hq. by injection Hq as <-.
      * apply I2. by exists q.
    + intros i q Hq Hvq. rewrite list_lookup_alter in Hq. case_decide as Hi.
      * subst i. rewrite Hp in Hq. injection Hq as <-. simpl. by eapply I3.
      * by eapply I3.
Qed.

Lemma tracksItsPreview_getPreview host botHost outcome w :
  tracksItsPreview w -> tracksItsPreview (view.getPreview host botHost outcome w).
Proof.
  intros Hinv. unfold view.getPreview.
  destruct (whenTruthy host) as [h|]; [|done].
  destruct (whenTruthy (activeDocument w)) as [text|]; [|done].
  destruct (previewCurrentPlanel w) as [id|] eqn:Ht.
  - destruct (bot.getBot botHost w) as [tbot|]; [|done].
    rewrite Ht. eapply tracksItsPreview_rewrites; [|done].
    apply rewrites_getView_Panel.
  - pose proof (tracksItsPreview_track (lit "WikitextPreviewer") Beside
                  (enableJavascript (config w)) w Ht Hinv) as Hinv'.
    simpl in Hinv' |- *.
    match goal with
    | |- context [bot.getBot botHost ?w1] =>
        destruct (bot.getBot botHost w1) as [tbot|]; [|done]
    end.
    simpl. eapply tracksItsPreview_rewrites; [|exact Hinv'].
    apply rewrites_getView_Panel.
Qed.

Lemma tracksItsPreview_getPageView host pageTitle botHost outcome w :
  tracksItsPreview w ->
  tracksItsPreview (view.getPageView host pageTitle botHost outcome w).
Proof.
  intros Hinv. unfold view.getPageView.
  destruct (whenTruthy host) as [h|]; [|done].
  destruct (whenTruthy pageTitle) as [t|]; [|done].
  destruct (bot.getBot botHost w) as [tbot|]; [|done].
  eapply tracksItsPreview_rewrites; [apply rewrites_getView_ViewType|].
  apply tracksItsPreview_create; [apply pageViewer_not_previewer | done].
Qed.

Lemma rewrites_orUncaught {A} id (c : Completion A) k w :
  (∀ a w1, rewrites id w1 (k a w1)) ->
  rewrites id w (wmcore.orUncaught c k w).
Proof. intros Hk. destruct c; simpl; [apply Hk | apply rewrites_emit]. Qed.

Lemma rewrites_viewPage_decoded id re w :
  rewrites id w (wmcore.viewPage_decoded id re w).
Proof.
  unfold wmcore.viewPage_decoded.
  destruct (completion.defined (getViewInterface.error re)).
  { apply rewrites_orUncaught. intros. apply rewrites_emit. }
  destruct (completion.defined (getViewInterface.parse re));
    [|apply rewrites_refl].
  apply rewrites_orUncaught. intros h w1.
  eapply rewrites_trans; [apply rewrites_setHtml|].
  apply rewrites_orUncaught. intros. apply rewrites_setTitle.
Qed.

Lemma tracksItsPreview_viewPage pageTitle response w :
  tracksItsPreview w -> tracksItsPreview (wmcore.viewPage pageTitle response w).
Proof.
  intros Hinv. unfold wmcore.viewPage.
  destruct (whenTruthy pageTitle) as [t|]; [|done].
  match goal with
  | |- context [emit (SendRequest ?q) w] =>
      assert (tracksItsPreview (emit (SendRequest q) w)) as Hinv'
        by (eapply (tracksItsPreview_rewrites 0); [apply rewrites_emit|done]);
      generalize dependent (emit (SendRequest q) w)
  end.
  intros w1 Hinv1. destruct response as [|re| |name]; [done|..]; cbn.
  - eapply tracksItsPreview_rewrites; [apply rewrites_viewPage_decoded|].
    by apply (tracksItsPreview_create (lit "pageViewer") (lit "PageViewer")
                Active (enableJavascript (config w1)) w1
                pageViewer_not_previewer).
  - eapply (tracksItsPreview_rewrites 0); [apply rewrites_emit|].
    by apply (tracksItsPreview_create (lit "pageViewer") (lit "PageViewer")
                Active (enableJavascript (config w1)) w1
                pageViewer_not_previewer).
  - eapply (tracksItsPreview_rewrites 0); [apply rewrites_emit|].
    by apply (tracksItsPreview_create (lit "pageViewer") (lit "PageViewer")
                Active (enableJavascript (config w1)) w1
                pageViewer_not_previewer).
Qed.

Lemma rewrites_with_pageName id t w : rewrites id w (with_pageName t w).
Proof. unfold rewrites, sameFrame. simpl. naive_solver. Qed.

Lemma rewrites_readPage_decoded re w :
  rewrites 0 w (wmcore.readPage_decoded re w).
Proof.
  unfold wmcore.readPage_decoded.
  apply rewrites_orUncaught. intros iw w1. destruct (completion.defined iw).
  { apply rewrites_orUncaught. intros. apply rewrites_emit. }
  apply rewrites_orUncaught. intros pg w2.
  destruct (negb _); [apply rewrites_refl|].
  apply rewrites_orUncaught. intros wikiTitle w3.
  apply rewrites_orUncaught. intros gone w4. destruct gone.
  { apply rewrites_orUncaught. intros. apply rewrites_emit. }
  apply rewrites_orUncaught. intros content w5.
  apply rewrites_orUncaught. intros model w6.
  eapply rewrites_trans; [apply rewrites_emit|].
  eapply rewrites_trans; [apply rewrites_with_pageName|].
  apply rewrites_orUncaught. intros wikiPageID w7.
  apply rewrites_orUncaught. intros normalized w8.
  apply rewrites_orUncaught. intros redirect w9. apply rewrites_emit.
Qed.

Lemma rewrites_readPage title response w :
  rewrites 0 w (wmcore.readPage title response w).
Proof.
  unfold wmcore.readPage.
  destruct (whenTruthy title) as [t|]; [|apply rewrites_refl].
  eapply rewrites_trans; [apply rewrites_emit|].
  destruct response as [|re| |name];
    [apply rewrites_refl | apply rewrites_readPage_decoded
     | apply rewrites_emit | apply rewrites_emit].
Qed.

Lemma rewrites_writePage wikiTitle wikiSummary token edit w :
  rewrites 0 w (wmcore.writePage wikiTitle wikiSummary token edit w).
Proof.
  unfold wmcore.writePage.
  destruct (activeDocument w) as [wikiContent|]; [|apply rewrites_emit].
  destruct (wmcore_bot w); [|apply rewrites_emit].
  destruct (whenTruthy wikiTitle) as [t|]; [|apply rewrites_refl].
  destruct token as [response|name];
    (eapply rewrites_trans; [apply rewrites_emit|]);
    (eapply rewrites_trans; [apply rewrites_emit|]);
    (eapply rewrites_trans; [apply rewrites_emit|]);
    (destruct edit as [e|]; [|apply rewrites_refl]);
    destruct (completion.defined _); apply rewrites_emit.
Qed.

Lemma tracksItsPreview_step w a :
  tracksItsPreview w -> tracksItsPreview (step w a).
Proof.
  destruct a; simpl.
  - apply tracksItsPreview_getPreview.
  - apply tracksItsPreview_getPageView.
  - apply tracksItsPreview_viewPage.
  - apply tracksItsPreview_rewrites with 0, rewrites_readPage.
  - apply tracksItsPreview_rewrites with 0, rewrites_writePage.
  - apply tracksItsPreview_userCloses.
  - done.
  - done.
Qed.

Lemma tracksItsPreview_run acts w :
  tracksItsPreview w -> tracksItsPreview (run acts w).
Proof.
  revert w. induction acts as [|a acts IH]; intros w Hinv; [done|].
  apply IH. by apply tracksItsPreview_step.
Qed.

End Tracking.

(* ================================================================== *)
(** * One tracked preview surface *)
(* ================================================================== *)

Section OneSurface.
Implicit Types (w : World) (id : nat) (p q : WebviewPanel).



(** With a tracked panel, a preview request makes no panel: whatever it
    does, it does to the tracked one. *)
Lemma getPreview_reuses host botHost outcome id w :
  previewCurrentPlanel w = Some id ->
  rewrites id w (view.getPreview host botHost outcome w).
Proof.
  intros Ht. unfold view.getPreview.
  destruct (whenTruthy host) as [h|]; [|apply rewrites_refl].
  destruct (whenTruthy (activeDocument w)) as [text|]; [|apply rewrites_refl].
  rewrite Ht.
  destruct (bot.getBot botHost w) as [tbot|]; [|apply rewrites_refl].
  rewrite Ht. apply rewrites_getView_Panel.
Qed.


(** A page view that gets past its guards makes a panel of its own. *)
Lemma getPageView_creates host pageTitle botHost outcome h t tbot w :
  whenTruthy host = Some h ->
  whenTruthy pageTitle = Some t ->
  bot.getBot botHost w = Some tbot ->
  let w' := view.getPageView host pageTitle botHost outcome w in
  length (panels w') = S (length (panels w))
  ∧ (∀ i p, panels w !! i = Some p -> panels w' !! i = Some p)
  ∧ previewCurrentPlanel w' = previewCurrentPlanel w
  ∧ ∃ p, panels w' !! length (panels w) = Some p
         ∧ viewType p = lit "pageViewer" ∧ disposed p = false
         ∧ onDidDispose p = [].
Proof.
  intros Hh Ht Hb. unfold view.getPageView. rewrite Hh, Ht, Hb. simpl.
  match goal with
  | |- context [view.getView (view.ViewType ?v) ?vt ?a ?b ?u ?o ?w0] =>
      pose proof (rewrites_getView_ViewType v vt a b u o w0)
        as (Htr & _ & _ & _ & Hl & Ho & Hf)
  end.
  simpl in Htr, Hl, Ho, Hf. split_and!.
  - rewrite Hl, length_app. simpl. lia.
  - intros i p Hp. rewrite Ho.
    + by apply lookup_app_l_Some.
    + apply lookup_lt_Some in Hp. lia.
  - done.
  - edestruct Hf as (q & Hq & Hv & Hd & Hls); [by apply list_lookup_middle|].
    exists q. done.
Qed.

(** So does [viewPage], once its response arrives. *)
Lemma viewPage_creates c t response w :
  response ≠ NoResponse ->
  let w' := wmcore.viewPage (Some (c :: t)) response w in
  length (panels w') = S (length (panels w))
  ∧ (∀ i p, panels w !! i = Some p -> panels w' !! i = Some p)
  ∧ previewCurrentPlanel w' = previewCurrentPlanel w
  ∧ ∃ p, panels w' !! length (panels w) = Some p
         ∧ viewType p = lit "pageViewer" ∧ disposed p = false
         ∧ onDidDispose p = [].
Proof.
  intros Hresp w'. unfold w', wmcore.viewPage.
  change (whenTruthy (Some (c :: t))) with (Some (c :: t)).
  unfold createWebviewPanel. cbv beta iota zeta.
  destruct response as [|re| |name]; [done|..].
  - match goal with
    | |- context [wmcore.viewPage_decoded ?i re ?w1] =>
        destruct (rewrites_viewPage_decoded i re w1)
          as (Htr & _ & _ & _ & Hl & Ho & Hf)
    end.
    split_and!.
    + rewrite Hl. simpl. rewrite length_app. simpl. lia.
    + intros i p Hp. rewrite Ho.
      * simpl. by apply lookup_app_l_Some.
      * apply lookup_lt_Some in Hp. simpl. lia.
    + by rewrite Htr.
    + edestruct Hf as (q & Hq & Hv & Hd & Hls);
        [simpl; by apply list_lookup_middle|].
      exists q. done.
  - simpl. split_and!.
    + rewrite length_app. simpl. lia.
    + intros i p Hp. by apply lookup_app_l_Some.
    + done.
    + eexists. split; [by apply list_lookup_middle|]. done.
  - simpl. split_and!.
    + rewrite length_app. simpl. lia.
    + intros i p Hp. by apply lookup_app_l_Some.
    + done.
    + eexists. split; [by apply list_lookup_middle|]. done.
Qed.

End OneSurface.



(* ================================================================== *)
(** * What a command logs *)
(* ================================================================== *)

Section Logs.
Implicit Types (w : World) (id : nat).

Ltac not_request :=
  repeat first
    [ apply Forall_nil_2
    | apply Forall_cons_2;
        [ intros [(? & ? & ?)|(? & ?)]; discriminate | ] ].

Lemma getView_catch_log id error w :
  log (view.getView_catch id error w)
  = log w ++ [ ShowErrorMessage
                 (lit "ErrorCode:" ++ toString (getViewInterface.code error)
                    ++ lit "| ErrorInfo:"
                    ++ toString (getViewInterface.info error));
               SetHtml id (view.showHtmlInfo (lit "Error")) ].
Proof. unfold view.getView_catch. simpl. by rewrite <-(assoc_L (++)). Qed.

Lemma getView_try_log id viewerTitle baseURI re w :
  ∃ l, log (view.getView_try id viewerTitle baseURI re w) = log w ++ l
       ∧ Forall (λ e, ¬ isRequest e) l.
Proof.
  unfold view.getView_try. destruct (negb _).
  { exists []. by rewrite (right_id_L [] (++)). }
  destruct (view.html _ _ _) as [h|].
  - destruct (view.panelTitle _ _) as [t|].
    + eexists. simpl. rewrite <-(assoc_L (++)). split; [done|]. not_request.
    + eexists. rewrite getView_catch_log. simpl. rewrite <-(assoc_L (++)).
      split; [done|]. not_request.
  - eexists. rewrite getView_catch_log. split; [done|]. not_request.
Qed.

(** [getView] writes the "Loading..." placeholder, then issues its request,
    the only one it issues; before the two it has at most made the panel. *)
Lemma getView_log currentPlanel viewerTitle args tbot baseURI outcome w :
  ∃ created id after,
    log (view.getView currentPlanel viewerTitle args tbot baseURI outcome w)
    = log w ++ created
        ++ SetHtml id (view.showHtmlInfo (lit "Loading..."))
        :: BotRequest tbot args :: after
    ∧ Forall (λ e, ¬ isRequest e) (created ++ after)
    ∧ match currentPlanel with
      | view.Panel i => id = i ∧ created = []
      | view.ViewType s =>
          id = length (panels w)
          ∧ created = [CreateWebviewPanel id s viewerTitle Active]
      end.
Proof.
  assert (∀ id w1, ∃ after,
            log match outcome with
                | Pending => w1
                | Resolved re => view.getView_try id viewerTitle baseURI re w1
                | Threw error => view.getView_catch id error w1
                end = log w1 ++ after
            ∧ Forall (λ e, ¬ isRequest e) after) as Hafter.
  { intros id w1. destruct outcome as [|re|error].
    - exists []. by rewrite (right_id_L [] (++)).
    - apply getView_try_log.
    - eexists. rewrite getView_catch_log. split; [done|]. not_request. }
  unfold view.getView. destruct currentPlanel as [i|s]; simpl.
  - edestruct Hafter as (after & -> & Hno). exists [], i, after. simpl.
    rewrite <-!(assoc_L (++)). done.
  - edestruct Hafter as (after & -> & Hno).
    eexists [_], (length (panels w)), after. simpl.
    rewrite <-!(assoc_L (++)). simpl. split_and!; [done| |done..].
    apply Forall_cons_2; [|done].
    intros [(? & ? & ?)|(? & ?)]; discriminate.
Qed.

Lemma getPreview_activeDocument host botHost outcome w :
  activeDocument (view.getPreview host botHost outcome w) = activeDocument w.
Proof.
  unfold view.getPreview.
  destruct (whenTruthy host) as [h|]; [|done].
  destruct (whenTruthy (activeDocument w)) as [text|]; [|done].
  destruct (previewCurrentPlanel w) as [id|] eqn:Ht.
  - destruct (bot.getBot botHost w) as [tbot|]; [|done]. rewrite Ht.
    match goal with
    | |- context [view.getView (view.Panel ?i) ?vt ?a ?b ?u ?o ?w0] =>
        destruct (rewrites_getView_Panel i vt a b u o w0) as (_ & _ & Hr & _)
    end.
    by rewrite Hr.
  - simpl.
    match goal with
    | |- context [bot.getBot botHost ?w1] =>
        destruct (bot.getBot botHost w1) as [tbot|]; [|done]
    end.
    simpl.
    match goal with
    | |- context [view.getView (view.Panel ?i) ?vt ?a ?b ?u ?o ?w0] =>
        destruct (rewrites_getView_Panel i vt a b u o w0) as (_ & _ & Hr & _)
    end.
    by rewrite Hr.
Qed.

(** A preview request that gets past its guards writes the placeholder and
    then sends its one request, with the stripped text of the document. *)
Lemma getPreview_log host botHost outcome h text tbot w :
  whenTruthy host = Some h ->
  whenTruthy (activeDocument w) = Some text ->
  bot.getBot botHost w = Some tbot ->
  ∃ created id args after,
    log (view.getPreview host botHost outcome w)
    = log w ++ created
        ++ SetHtml id (view.showHtmlInfo (lit "Loading..."))
        :: BotRequest tbot args :: after
    ∧ argOf "text" args = Some (Str (replaceRegExp text view.pageInfoRegExp []))
    ∧ Forall (λ e, ¬ isRequest e) (created ++ after).
Proof.
  intros Hh Hd Hb. unfold view.getPreview. rewrite Hh, Hd.
  destruct (previewCurrentPlanel w) as [id|] eqn:Ht.
  - rewrite Hb, Ht.
    match goal with
    | |- context [view.getView ?c ?vt ?a ?b ?u ?o ?w0] =>
        destruct (getView_log c vt a b u o w0)
          as (created & i & after & Hlog & Hno & _ & ->)
    end.
    rewrite Hlog. eexists [], i, _, after. done.
  - simpl.
    match goal with
    | |- context [bot.getBot botHost ?w1] =>
        change (bot.getBot botHost w1) with (bot.getBot botHost w)
    end.
    rewrite Hb. simpl.
    match goal with
    | |- context [view.getView ?c ?vt ?a ?b ?u ?o ?w0] =>
        destruct (getView_log c vt a b u o w0)
          as (created & i & after & Hlog & Hno & _ & ->)
    end.
    rewrite Hlog. simpl. rewrite <-(assoc_L (++)). simpl.
    eexists [_], i, _, after. split_and!; [done | done |].
    apply Forall_cons_2; [|done].
    intros [(? & ? & ?)|(? & ?)]; discriminate.
Qed.

(** So does a page view by [getPageView]. *)
Lemma getPageView_log host pageTitle botHost outcome h t tbot w :
  whenTruthy host = Some h ->
  whenTruthy pageTitle = Some t ->
  bot.getBot botHost w = Some tbot ->
  ∃ args after,
    log (view.getPageView host pageTitle botHost outcome w)
    = log w
        ++ [ CreateWebviewPanel (length (panels w)) (lit "pageViewer")
               (lit "WikiViewer") Active;
             SetHtml (length (panels w)) (view.showHtmlInfo (lit "Loading..."));
             BotRequest tbot args ]
        ++ after
    ∧ argOf "page" args = Some (Str t)
    ∧ Forall (λ e, ¬ isRequest e) after.
Proof.
  intros Hh Ht Hb. unfold view.getPageView. rewrite Hh, Ht, Hb.
  match goal with
  | |- context [view.getView ?c ?vt ?a ?b ?u ?o ?w0] =>
      destruct (getView_log c vt a b u o w0)
        as (created & i & after & Hlog & Hno & -> & ->)
  end.
  rewrite Hlog. eexists _, after. split_and!.
  - simpl. reflexivity.
  - by destruct (redirects (config w)).
  - by apply Forall_cons_1 in Hno as [_ ?].
Qed.

End Logs.

(** C10.  The text a live preview sends to the parse API is the text of the
    active document without its first page-info block (the leftmost, and the
    shortest that starts there) and without the white space that follows the
    block; a document that holds no block is sent as it is.  The document
    itself is left as it was. *)
Theorem C10_preview_sends_text_without_first_page_info
    (host botHost : option (list N)) (outcome : RequestOutcome) (w : World)
    (h text : list N) (tbot : MWBot) :
  whenTruthy host = Some h ->
  whenTruthy (activeDocument w) = Some text ->
  bot.getBot botHost w = Some tbot ->
  let w' := view.getPreview host botHost outcome w in
  ∃ sent,
    (∃ before args after,
       log w' = log w ++ before ++ BotRequest tbot args :: after
       ∧ argOf "text" args = Some (Str sent)
       ∧ Forall (λ e, ¬ isRequest e) (before ++ after))
    ∧ activeDocument w' = Some text
    ∧ (((∀ pre b rest, text = pre ++ b ++ rest -> ¬ isBlock b) ∧ sent = text)
       ∨ ∃ pre b ws post,
           text = pre ++ b ++ ws ++ post
           ∧ isBlock b
           ∧ Forall (λ c, isSpace c = true) ws
           ∧ noLeadingSpace post
           ∧ sent = pre ++ post
           ∧ (∀ pre' b' rest',
                text = pre' ++ b' ++ rest' -> isBlock b' ->
                length pre ≤ length pre')
           ∧ (∀ b' rest',
                b ++ ws ++ post = b' ++ rest' -> isBlock b' ->
                length b ≤ length b')).
Proof.
  intros Hh Hd Hb w'. exists (replaceRegExp text view.pageInfoRegExp []).
  split_and!.
  - destruct (getPreview_log host botHost outcome h text tbot w Hh Hd Hb)
      as (created & id & args & after & Hlog & Harg & Hno).
    eexists (created ++ [_]), args, after. split_and!.
    + unfold w'. rewrite Hlog. by rewrite <-!(assoc_L (++)).
    + done.
    + rewrite <-(assoc_L (++)). apply Forall_app in Hno as [Hc Ha].
      apply Forall_app. split; [done|]. apply Forall_cons_2; [|done].
      intros [(? & ? & ?)|(? & ?)]; discriminate.
  - unfold w'. rewrite getPreview_activeDocument.
    unfold whenTruthy in Hd. by destruct (truthy (activeDocument w)).
  - apply replace_pageInfo.
Qed.

(** The example document, previewed in a fresh editor: the request carries
    the text without the block, and the document is still there. *)
Lemma C10_preview_sends_text_without_first_page_info_witness :
  let w := fresh exampleConfig (Some exampleDocument) in
  let tbot := {| apiUrl := lit "https://wiki.example/w/api.php" |} in
  let w' := view.getPreview exampleHost exampleHost Pending w in
  whenTruthy exampleHost = Some (lit "wiki.example")
  ∧ whenTruthy (activeDocument w) = Some exampleDocument
  ∧ bot.getBot exampleHost w = Some tbot
  ∧ ∃ sent,
      (∃ before args after,
         log w' = log w ++ before ++ BotRequest tbot args :: after
         ∧ argOf "text" args = Some (Str sent))
      ∧ activeDocument w' = Some exampleDocument.
Proof.
  intros w tbot w'. split_and!; [reflexivity..|].
  destruct (C10_preview_sends_text_without_first_page_info
              exampleHost exampleHost Pending w
              (lit "wiki.example") exampleDocument tbot)
    as (sent & (before & args & after & Hlog & Harg & _) & Hdoc & _);
    [reflexivity..|].
  exists sent. split; [|exact Hdoc].
  exists before, args, after. split; [exact Hlog | exact Harg].
Defined.

Example exampleDocument_sent :
  replaceRegExp exampleDocument view.pageInfoRegExp [] = lit "intro ''Hello''".
Proof. vm_compute. reflexivity. Qed.

(* ================================================================== *)
(** * Decoding and assembling *)
(* ================================================================== *)

Section Decoding.
Import getViewInterface.
Implicit Types (re : GetViewResult) (p : Parse) (cfg : Configuration).

(** The fields [getView] reads under a [parse] node. *)
Lemma getView_fields cfg baseURI viewerTitle p e :
  let re := {| parse := Some p; error := e |} in
  view.htmlHead cfg baseURI re
  = Normal (coalesce
              ((λ s, replace s (lit "<head>")
                       (lit "<head>" ++ view.baseElem baseURI ++ view.style cfg))
                 <$> fragment re headhtml)
              (lit "<!DOCTYPE html><html><head>"
                 ++ (view.baseElem baseURI ++ view.style cfg)
                 ++ lit "</head><body>"))
  ∧ view.htmlText re = Normal (orElse (fragment re text) [])
  ∧ view.categoriesPayload re = Normal (fragment re categorieshtml)
  ∧ view.htmlCategories re
    = Normal (if truthy (fragment re categorieshtml)
              then lit "<hr />" ++ toString (fragment re categorieshtml)
              else [])
  ∧ view.panelTitle viewerTitle re
    = Normal (viewerTitle ++ lit ": " ++ toString (displaytitle p)).
Proof.
  intros re. destruct p as [t d hh c]. split_and!.
  - by destruct hh as [[[s|]]|].
  - by destruct t as [[[s|]]|].
  - by destruct c as [[[s|]]|].
  - by destruct c as [[[[|x s]|]]|].
  - done.
Qed.

Lemma getView_html cfg baseURI p e :
  let re := {| parse := Some p; error := e |} in
  ∃ head body categories,
    view.htmlHead cfg baseURI re = Normal head
    ∧ view.htmlText re = Normal body
    ∧ view.htmlCategories re = Normal categories
    ∧ view.html cfg baseURI re
      = Normal (head ++ body ++ categories ++ view.htmlEnd).
Proof.
  intros re.
  destruct (getView_fields cfg baseURI [] p e) as (Hh & Ht & _ & Hc & _).
  fold re in Hh, Ht, Hc. unfold view.html. rewrite Hh, Ht, Hc.
  eexists _, _, _. done.
Qed.

(** The fields [viewPage] reads. *)
Lemma viewPage_fields cfg p e :
  let re := {| parse := Some p; error := e |} in
  wmcore.header cfg re
  = Normal (if getCss cfg then orElse (fragment re headhtml) []
            else lit "<!DOCTYPE html><html><body>")
  ∧ wmcore.pageHtml cfg re
    = Normal ((if getCss cfg then orElse (fragment re headhtml) []
               else lit "<!DOCTYPE html><html><body>")
                ++ toString (fragment re text) ++ lit "</body></html>")
  ∧ wmcore.pageTitleText re
    = Normal (lit "WikitextPreviewer: " ++ toString (displaytitle p)).
Proof.
  intros re. destruct p as [t d hh c].
  assert (wmcore.header cfg re
          = Normal (if getCss cfg then orElse (fragment re headhtml) []
                    else lit "<!DOCTYPE html><html><body>")) as Hh.
  { unfold wmcore.header. destruct (getCss cfg); [|done].
    by destruct hh as [[[s|]]|]. }
  split_and!; [done | | done].
  unfold wmcore.pageHtml. rewrite Hh. by destruct t as [[[s|]]|].
Qed.

End Decoding.

(** The guard [if (!re.parse) return] of [getView] is what keeps its reads
    from throwing: read on its own, the head of a result without a [parse]
    node is a [TypeError]. *)
Example htmlHead_without_parse cfg baseURI e :
  view.htmlHead cfg baseURI
    {| getViewInterface.parse := None; getViewInterface.error := e |}
  = ThrowTypeError.
Proof. reflexivity. Qed.

(** Reading a decoded response never throws, whichever of its nodes
    are missing.  [getView] reads nothing without a [parse] node and
    otherwise renders; [viewPage] reports the error, renders, or does
    nothing; neither ever ends in a [TypeError].  Each fragment is read by
    itself, and one that is absent, or whose ["*"] payload is, comes out as
    [undefined] whatever the others are. *)
Theorem decoded_fields_never_throw
    (cfg : Configuration) (baseURI viewerTitle : list N)
    (re : getViewInterface.GetViewResult) :
  (* getView *)
  (∀ id w, config w = cfg ->
     view.getView_try id viewerTitle baseURI re w
     = match getViewInterface.parse re with
       | None => w
       | Some p =>
           setTitle id
             (viewerTitle ++ lit ": "
                ++ toString (getViewInterface.displaytitle p))
             (setHtml id
                (coalesce
                   ((λ s, replace s (lit "<head>")
                            (lit "<head>" ++ view.baseElem baseURI
                               ++ view.style cfg))
                      <$> fragment re getViewInterface.headhtml)
                   (lit "<!DOCTYPE html><html><head>"
                      ++ (view.baseElem baseURI ++ view.style cfg)
                      ++ lit "</head><body>")
                   ++ orElse (fragment re getViewInterface.text) []
                   ++ (if truthy (fragment re getViewInterface.categorieshtml)
                       then lit "<hr />"
                              ++ toString (fragment re getViewInterface.categorieshtml)
                       else [])
                   ++ view.htmlEnd)
                w)
       end)
  (* viewPage *)
  ∧ (∀ id w, config w = cfg ->
       wmcore.viewPage_decoded id re w
       = match getViewInterface.error re, getViewInterface.parse re with
         | Some e, _ =>
             emit (ShowErrorMessage
                     (toString (getViewInterface.code e) ++ lit "! "
                        ++ toString (getViewInterface.info e))) w
         | None, Some p =>
             setTitle id
               (lit "WikitextPreviewer: "
                  ++ toString (getViewInterface.displaytitle p))
               (setHtml id
                  ((if getCss cfg
                    then orElse (fragment re getViewInterface.headhtml) []
                    else lit "<!DOCTYPE html><html><body>")
                     ++ toString (fragment re getViewInterface.text)
                     ++ lit "</body></html>")
                  w)
         | None, None => w
         end)
  (* the expressions themselves *)
  ∧ (completion.defined (getViewInterface.parse re) = true ->
       (∃ h, view.html cfg baseURI re = Normal h)
       ∧ (∃ t, view.panelTitle viewerTitle re = Normal t)
       ∧ (∃ h, wmcore.pageHtml cfg re = Normal h)
       ∧ (∃ t, wmcore.pageTitleText re = Normal t))
  ∧ (completion.defined (getViewInterface.error re) = true ->
       ∃ m, wmcore.errorMessage re = Normal m).
Proof.
  destruct re as [[p|] err].
  - destruct (getView_fields cfg baseURI viewerTitle p err)
      as (Hh & Ht & _ & Hc & Hti).
    destruct (viewPage_fields cfg p err) as (_ & Hp & Hpt).
    cbv zeta in Hh, Ht, Hc, Hti, Hp, Hpt.
    split_and!.
    + intros id w <-. unfold view.getView_try, view.html.
      rewrite Hh, Ht, Hc, Hti. reflexivity.
    + intros id w <-. unfold wmcore.viewPage_decoded, wmcore.orUncaught.
      rewrite Hp, Hpt. by destruct err as [[c i]|].
    + intros _. unfold view.html. rewrite Hh, Ht, Hc, Hti, Hp, Hpt.
      split_and!; by eexists.
    + destruct err as [[c i]|]; [|done]. intros _. by eexists.
  - split_and!.
    + done.
    + intros id w <-. unfold wmcore.viewPage_decoded.
      by destruct err as [[c i]|].
    + done.
    + destruct err as [[c i]|]; [|done]. intros _. by eexists.
Qed.

(** A response without a [parse] node and without an error is read without
    a throw, and nothing is shown. *)
Lemma decoded_fields_never_throw_witness :
  wmcore.viewPage_decoded 0
    {| getViewInterface.parse := None; getViewInterface.error := None |}
    (fresh exampleConfig None)
  = fresh exampleConfig None.
Proof.
  apply (proj1 (proj2 (decoded_fields_never_throw exampleConfig [] []
                         {| getViewInterface.parse := None;
                            getViewInterface.error := None |}))).
  reflexivity.
Defined.

(** C4.  Decoding is not total in [viewPage]: when decoding the body of the
    response throws (as [JSON.parse] does on a body that is not JSON), the
    exception leaves the ['end'] handler with nobody to catch it.  The
    request was sent and the callback made its panel; nothing is written to
    that panel, which stays empty under its first title, and no message is
    shown.  ([getView] decodes inside its [try]: there the same failure
    lands in the [catch] block, [getView_Threw].  Once a response is
    decoded, no field access throws in either: [decoded_fields_never_throw].) *)
Theorem C4_viewPage_decoding_throws_uncaught
    (c : N) (pageTitle : list N) (w : World) :
  let w' :=
    wmcore.viewPage (Some (c :: pageTitle))
      (Undecodable : Response getViewInterface.GetViewResult) w in
  ∃ queryInput,
    log w'
    = log w
        ++ [ SendRequest queryInput;
             CreateWebviewPanel (length (panels w)) (lit "pageViewer")
               (lit "PageViewer") Active;
             UncaughtException ]
    ∧ argOf "page" queryInput = Some (Str (c :: pageTitle))
    ∧ panels w'
      = panels w
          ++ [ {| viewType := lit "pageViewer"; title := lit "PageViewer";
                  html := []; viewColumn := Active;
                  enableScripts := enableJavascript (config w);
                  disposed := false; onDidDispose := [] |} ].
Proof.
  intros w'. unfold w', wmcore.viewPage. cbn.
  eexists. rewrite <-!(assoc_L (++)). split_and!; [reflexivity| |reflexivity].
  by destruct (vscode.redirects (config w)).
Qed.

(** The page [Foo], and a body that is not JSON. *)
Example C4_viewPage_undecodable_body :
  ∃ queryInput,
    log (wmcore.viewPage (Some (lit "Foo")) Undecodable
           (fresh exampleConfig None))
    = [ SendRequest queryInput;
        CreateWebviewPanel 0 (lit "pageViewer") (lit "PageViewer") Active;
        UncaughtException ].
Proof. eexists. vm_compute. reflexivity. Qed.

(* ================================================================== *)
(** * The rendered document and its title *)
(* ================================================================== *)

Section Rendering.
Import getViewInterface.
Implicit Types (re : GetViewResult) (p : Parse) (cfg : Configuration).

(** What [getView] does with a decoded result that has a [parse] node. *)
Lemma getView_Resolved currentPlanel viewerTitle args tbot baseURI p e w :
  let re := {| parse := Some p; error := e |} in
  ∃ created id h,
    view.html (config w) baseURI re = Normal h
    ∧ log (view.getView currentPlanel viewerTitle args tbot baseURI
             (Resolved re) w)
      = log w ++ created
          ++ [ SetHtml id (view.showHtmlInfo (lit "Loading..."));
               BotRequest tbot args;
               SetHtml id h;
               SetTitle id (viewerTitle ++ lit ": " ++ toString (displaytitle p)) ]
    ∧ (∀ q, panels (view.getView currentPlanel viewerTitle args tbot baseURI
                      (Resolved re) w) !! id = Some q ->
            title q = viewerTitle ++ lit ": " ++ toString (displaytitle p)
            ∧ html q = h)
    ∧ match currentPlanel with
      | view.Panel i => id = i ∧ created = []
      | view.ViewType s =>
          id = length (panels w)
          ∧ created = [CreateWebviewPanel id s viewerTitle Active]
      end.
Proof.
  intros re.
  destruct (getView_html (config w) baseURI p e) as (hd & bd & ct & _ & _ & _ & Hh).
  destruct (getView_fields (config w) baseURI viewerTitle p e)
    as (_ & _ & _ & _ & Hti).
  cbv zeta in Hh, Hti. fold re in Hh, Hti.
  assert (∀ id w1, config w1 = config w ->
            view.getView_try id viewerTitle baseURI re w1
            = setTitle id (viewerTitle ++ lit ": " ++ toString (displaytitle p))
                (setHtml id (hd ++ bd ++ ct ++ view.htmlEnd) w1)) as Htry.
  { intros id w1 Hc. unfold view.getView_try. rewrite Hc, Hh, Hti. done. }
  assert (∀ id t h0 w2 q,
            panels (setTitle id t (setHtml id h0 w2)) !! id = Some q ->
            title q = t ∧ html q = h0) as Hq.
  { intros id t h0 w2 q. simpl. rewrite !list_lookup_alter_eq.
    destruct (panels w2 !! id) as [q0|]; simpl; [|done]. by intros [= <-]. }
  destruct currentPlanel as [i|s]; unfold view.getView.
  - exists [], i, (hd ++ bd ++ ct ++ view.htmlEnd).
    rewrite Htry by done. split_and!; [done | | apply Hq | done | done].
    simpl. by rewrite <-!(assoc_L (++)).
  - eexists [_], (length (panels w)), (hd ++ bd ++ ct ++ view.htmlEnd).
    simpl. rewrite Htry by done.
    split_and!; [done | | apply Hq | done | done].
    simpl. by rewrite <-!(assoc_L (++)).
Qed.

Lemma getSubstitution_plain matched before after repl :
  Forall (λ c, c ≠ 36%N) repl ->
  getSubstitution matched before after repl = repl.
Proof.
  induction 1 as [|c repl Hc _ IH]; simpl; [done|].
  destruct (N.eqb_spec c 36) as [->|_]; [done|]. by rewrite IH.
Qed.

Lemma isPrefix_app pat s :
  isPrefix pat s = true -> s = pat ++ drop (length pat) s.
Proof.
  revert s. induction pat as [|a pat IH]; intros [|b s]; simpl; try done.
  intros [->%N.eqb_eq Hp]%andb_true_iff. f_equal. by apply IH.
Qed.

Lemma splitAt_sound pat s before after :
  splitAt pat s = Some (before, after) -> s = before ++ pat ++ after.
Proof.
  revert before after. induction s as [|c s IH]; intros before after; simpl.
  - destruct (isPrefix pat []) eqn:Hp; [|done]. intros [= <- <-].
    by apply isPrefix_app in Hp.
  - destruct (isPrefix pat (c :: s)) eqn:Hp.
    + intros [= <- <-]. by apply isPrefix_app in Hp.
    + destruct (splitAt pat s) as [[b a]|]; [|done]. intros [= <- <-].
      simpl. f_equal. by apply IH.
Qed.

(** With head HTML that has a [<head>] tag, and no dollar sign in the base
    address and the style sheet, the base element and the style block land
    right after the first [<head>]. *)
Lemma htmlHead_injects cfg baseURI s before after t d c e :
  splitAt (lit "<head>") s = Some (before, after) ->
  Forall (λ c, c ≠ 36%N) baseURI ->
  Forall (λ c, c ≠ 36%N) (toString (previewCssStyle cfg)) ->
  let re := {| parse := Some {| text := t; displaytitle := d;
                                headhtml := Some {| star := Some s |};
                                categorieshtml := c |};
               error := e |} in
  s = before ++ lit "<head>" ++ after
  ∧ view.htmlHead cfg baseURI re
    = Normal (before ++ lit "<head>" ++ view.baseElem baseURI
                ++ view.style cfg ++ after).
Proof.
  intros Hs Hb Hc re. split; [by apply splitAt_sound|].
  unfold view.htmlHead. cbn. unfold replace. rewrite Hs.
  rewrite getSubstitution_plain; [by rewrite <-!(assoc_L (++))|].
  unfold view.baseElem, view.style. rewrite !Forall_app.
  split_and!; try done; by vm_compute; repeat constructor.
Qed.

End Rendering.

(** C2.  Without head HTML the head that [getView] makes up does not hold
    exactly the base tag and the style block: a double quote follows the
    base tag, the one that ends the template literal of [baseElem] after
    its [/>].  (It follows the base tag in the same way when head HTML is
    supplied.) *)
Theorem C2_synthesized_head_has_stray_quote
    (cfg : Configuration) (baseURI : list N)
    (t : option getViewInterface.Star) (d : option (list N))
    (c : option getViewInterface.Star) (e : option getViewInterface.Error) :
  view.htmlHead cfg baseURI
    {| getViewInterface.parse :=
         Some {| getViewInterface.text := t;
                 getViewInterface.displaytitle := d;
                 getViewInterface.headhtml := None;
                 getViewInterface.categorieshtml := c |};
       getViewInterface.error := e |}
  = Normal (lit "<!DOCTYPE html><html><head>"
              ++ (lit "<base href=" ++ [dq] ++ baseURI ++ [dq] ++ lit " />")
              ++ [dq]
              ++ (lit "<style>" ++ toString (previewCssStyle cfg)
                    ++ lit "</style>")
              ++ lit "</head><body>").
Proof.
  unfold view.htmlHead, view.baseElem, view.style. cbn. f_equal.
  repeat first [rewrite <-(assoc_L (++)) | rewrite <-app_comm_cons]. done.
Qed.

Example C2_stray_quote_rendered :
  view.htmlHead exampleConfig (lit "https://wiki.example/wiki/") exampleResult
  = Normal (lit "<!DOCTYPE html><html><head><base href=" ++ [dq]
              ++ lit "https://wiki.example/wiki/" ++ [dq] ++ lit " />" ++ [dq]
              ++ lit "<style>body { margin: 0; }</style></head><body>").
Proof. vm_compute. reflexivity. Qed.

(** C3, as the code has it.  After a render by [getView] the panel title is
    the viewer label, [": "] and the display title converted to a string:
    the display title itself when one was decoded, the text [undefined] when
    none was. *)
Theorem C3_title_is_label_colon_display_title
    (currentPlanel : view.PanelOrString) (viewerTitle : list N)
    (args : list (string * ArgValue)) (tbot : MWBot) (baseURI : list N)
    (p : getViewInterface.Parse) (e : option getViewInterface.Error)
    (w : World) :
  let re := {| getViewInterface.parse := Some p;
               getViewInterface.error := e |} in
  let w' :=
    view.getView currentPlanel viewerTitle args tbot baseURI (Resolved re) w in
  let shown :=
    viewerTitle ++ lit ": "
      ++ match getViewInterface.displaytitle p with
         | Some displayTitle => displayTitle
         | None => lit "undefined"
         end in
  ∃ id before,
    log w' = log w ++ before ++ [SetTitle id shown]
    ∧ (∀ q, panels w' !! id = Some q -> title q = shown)
    ∧ match currentPlanel with
      | view.Panel i => id = i
      | view.ViewType _ => id = length (panels w)
      end.
Proof.
  intros re w' shown.
  destruct (getView_Resolved currentPlanel viewerTitle args tbot baseURI p e w)
    as (created & id & h & _ & Hlog & Hq & Hid).
  exists id. eexists (created ++ [_; _; _]). split_and!.
  - unfold w', re. rewrite Hlog. by rewrite <-!(assoc_L (++)).
  - intros q Hq'. by apply Hq in Hq' as [-> _].
  - clear Hlog Hq. destruct currentPlanel; exact (proj1 Hid).
Qed.

(** A page view of a response without display title: the title is
    ["WikiViewer: undefined"], not the viewer label alone. *)
Lemma C3_counterexample :
  let w' :=
    view.getPageView exampleHost (Some (lit "Foo")) exampleHost
      (Resolved untitledResult) (fresh exampleConfig None) in
  title <$> panels w' !! 0%nat = Some (lit "WikiViewer: undefined")
  ∧ title <$> panels w' !! 0%nat ≠ Some (lit "WikiViewer").
Proof. vm_compute. split; [reflexivity | discriminate]. Qed.

(** C7, as the code has it.  The assembled document is the head, the body,
    the categories segment and the closing tags, in this order; the segment
    is empty when the categories payload is absent or empty, and is
    [<hr />] followed by the payload otherwise. *)
Theorem C7_categories_segment
    (cfg : Configuration) (baseURI : list N)
    (p : getViewInterface.Parse) (e : option getViewInterface.Error) :
  let re := {| getViewInterface.parse := Some p;
               getViewInterface.error := e |} in
  ∃ head body,
    view.htmlHead cfg baseURI re = Normal head
    ∧ view.htmlText re = Normal body
    ∧ view.html cfg baseURI re
      = Normal (head ++ body
                  ++ match fragment re getViewInterface.categorieshtml with
                     | Some (c :: categories) =>
                         lit "<hr />" ++ c :: categories
                     | Some [] | None => []
                     end
                  ++ lit "</body></html>").
Proof.
  intros re.
  destruct (getView_html cfg baseURI p e) as (hd & bd & ct & Hh & Ht & Hc & Hhtml).
  destruct (getView_fields cfg baseURI [] p e) as (_ & _ & _ & Hc' & _).
  cbv zeta in Hh, Ht, Hc, Hhtml, Hc'. fold re in Hh, Ht, Hc, Hhtml, Hc'.
  exists hd, bd. split_and!; [done..|].
  rewrite Hhtml. rewrite Hc in Hc'. injection Hc' as ->.
  by destruct (fragment re getViewInterface.categorieshtml) as [[|x s]|].
Qed.

(** A response with an empty categories payload: the document has no
    [<hr />] segment after the body. *)
Lemma C7_counterexample :
  let baseURI := lit "https://wiki.example/wiki/" in
  ∃ head,
    view.htmlHead exampleConfig baseURI emptyCategoriesResult = Normal head
    ∧ view.htmlText emptyCategoriesResult = Normal (lit "<p>Hi</p>")
    ∧ fragment emptyCategoriesResult getViewInterface.categorieshtml = Some []
    ∧ view.html exampleConfig baseURI emptyCategoriesResult
      = Normal (head ++ lit "<p>Hi</p>" ++ lit "</body></html>")
    ∧ view.html exampleConfig baseURI emptyCategoriesResult
      ≠ Normal (head ++ lit "<p>Hi</p>" ++ (lit "<hr />" ++ [])
                  ++ lit "</body></html>").
Proof.
  eexists. vm_compute. split_and!; [reflexivity.. | discriminate].
Qed.

(* ================================================================== *)
(** * Failures *)
(* ================================================================== *)

Section Failures.
Import getViewInterface.
Implicit Types (w : World) (error : Error).

(** The [catch] block of [getView]: a message from [code] and [info], and
    the "Error" placeholder on the panel. *)
Lemma getView_Threw currentPlanel viewerTitle args tbot baseURI error w :
  let w' :=
    view.getView currentPlanel viewerTitle args tbot baseURI (Threw error) w in
  ∃ created id,
    log w'
    = log w ++ created
        ++ [ SetHtml id (view.showHtmlInfo (lit "Loading..."));
             BotRequest tbot args;
             ShowErrorMessage
               (lit "ErrorCode:" ++ toString (code error)
                  ++ lit "| ErrorInfo:" ++ toString (info error));
             SetHtml id (view.showHtmlInfo (lit "Error")) ]
    ∧ (∀ q, panels w' !! id = Some q ->
            html q = view.showHtmlInfo (lit "Error")).
Proof.
  intros w'. unfold w', view.getView.
  assert (∀ id h0 (l : list WebviewPanel) q,
            alter (set_html h0) id l !! id = Some q -> html q = h0) as Hq.
  { intros id h0 l q. rewrite list_lookup_alter_eq.
    destruct (l !! id) as [q0|]; simpl; [|done]. by intros [= <-]. }
  destruct currentPlanel as [i|s]; simpl.
  - exists [], i. rewrite <-!(assoc_L (++)). split; [done|].
    intros q. apply Hq.
  - eexists [_], _. rewrite <-!(assoc_L (++)). split; [done|].
    intros q. apply Hq.
Qed.

(** An error object in a response that [tbot.request] resolved with is not
    looked at by [getView]: without a [parse] node the command ends as if
    the response had not come. *)
Lemma getView_ignores_decoded_error currentPlanel viewerTitle args tbot
    baseURI error w :
  view.getView currentPlanel viewerTitle args tbot baseURI
    (Resolved {| parse := None; error := Some error |}) w
  = view.getView currentPlanel viewerTitle args tbot baseURI Pending w.
Proof. unfold view.getView. by destruct currentPlanel. Qed.

End Failures.

(** C1.  [viewPage] on a response whose decode carries an API error shows
    the message made from the code and the info and reads no fragment, but
    it does not overwrite the display surface: the panel it made for the
    response keeps its empty content, and no "Error" placeholder is
    written. *)
Theorem C1_viewPage_error_leaves_surface_unwritten
    (c : N) (pageTitle : list N) (code info : option (list N))
    (parse : option getViewInterface.Parse) (w : World) :
  let re := {| getViewInterface.parse := parse;
               getViewInterface.error :=
                 Some {| getViewInterface.code := code;
                         getViewInterface.info := info |} |} in
  let w' := wmcore.viewPage (Some (c :: pageTitle)) (End re) w in
  ∃ queryInput,
    log w'
    = log w
        ++ [ SendRequest queryInput;
             CreateWebviewPanel (length (panels w)) (lit "pageViewer")
               (lit "PageViewer") Active;
             ShowErrorMessage (toString code ++ lit "! " ++ toString info) ]
    ∧ panels w'
      = panels w
          ++ [ {| viewType := lit "pageViewer"; title := lit "PageViewer";
                  html := []; viewColumn := Active;
                  enableScripts := enableJavascript (config w);
                  disposed := false; onDidDispose := [] |} ].
Proof.
  intros re w'. unfold w', wmcore.viewPage. cbn.
  eexists. rewrite <-!(assoc_L (++)). split; reflexivity.
Qed.

Example C1_viewPage_errorResult :
  let w' :=
    wmcore.viewPage (Some (lit "Foo")) (End errorResult)
      (fresh exampleConfig None) in
  html <$> panels w' !! 0%nat = Some []
  ∧ log w' !! 2%nat
    = Some (ShowErrorMessage
              (lit "missingtitle! The page you specified doesn't exist.")).
Proof. vm_compute. split; reflexivity. Qed.

(** C5.  [viewPage] issues its request before it has a display surface:
    the panel is made by the callback, once a response arrives, and without
    a response no panel is made at all.  Nothing is written to any panel
    before the request. *)
Theorem C5_viewPage_requests_before_its_surface_exists
    (c : N) (pageTitle : list N)
    (response : Response getViewInterface.GetViewResult) (w : World) :
  let w' := wmcore.viewPage (Some (c :: pageTitle)) response w in
  ∃ queryInput after,
    log w' = log w ++ SendRequest queryInput :: after
    ∧ match response with
      | NoResponse => after = [] ∧ panels w' = panels w
      | End _ | Undecodable | Failed _ =>
          ∃ after',
            after = CreateWebviewPanel (length (panels w)) (lit "pageViewer")
                      (lit "PageViewer") Active :: after'
            ∧ length (panels w') = S (length (panels w))
      end.
Proof.
  intros w'. unfold w', wmcore.viewPage. cbn.
  destruct response as [|re| |name]; cbn.
  - eexists _, []. done.
  - assert (∀ id w1, ∃ l,
              log (wmcore.viewPage_decoded id re w1) = log w1 ++ l
              ∧ length (panels (wmcore.viewPage_decoded id re w1))
                = length (panels w1)) as Hdec.
    { intros id w1. unfold wmcore.viewPage_decoded, wmcore.orUncaught.
      destruct (completion.defined (getViewInterface.error re)).
      { destruct (wmcore.errorMessage re); eexists [_]; done. }
      destruct (completion.defined (getViewInterface.parse re)).
      2:{ exists []. by rewrite (right_id_L [] (++)). }
      destruct (wmcore.pageHtml _ _); [|eexists [_]; done].
      destruct (wmcore.pageTitleText re); cbn.
      - eexists [_; _]. rewrite <-!(assoc_L (++)), !length_alter. done.
      - eexists [_; _]. rewrite <-!(assoc_L (++)), !length_alter. done. }
    edestruct Hdec as (l & -> & ->). cbn.
    eexists _, _. rewrite <-!(assoc_L (++)). split; [reflexivity|].
    eexists. split; [reflexivity|]. rewrite length_app. cbn. lia.
  - eexists _, _. rewrite <-!(assoc_L (++)). split; [reflexivity|].
    eexists. split; [reflexivity|]. rewrite length_app. cbn. lia.
  - eexists _, _. rewrite <-!(assoc_L (++)). split; [reflexivity|].
    eexists. split; [reflexivity|]. rewrite length_app. cbn. lia.
Qed.

Example C5_viewPage_exampleResult :
  ∃ queryInput,
    log (wmcore.viewPage (Some (lit "Foo")) (End exampleResult)
           (fresh exampleConfig None))
    = [ SendRequest queryInput;
        CreateWebviewPanel 0 (lit "pageViewer") (lit "PageViewer") Active;
        SetHtml 0 (lit "<p>Hi</p></body></html>");
        SetTitle 0 (lit "WikitextPreviewer: Hi") ].
Proof. eexists. vm_compute. reflexivity. Qed.

(* ================================================================== *)
(** * Pages that are missing or invalid *)
(* ================================================================== *)

(** C8, as the code has it.  For a response without interwiki entry whose
    first page carries a [missing] or an [invalid] flag, [readPage] shows one
    warning and does nothing else: no document is opened and the remembered
    page name stays.  The warning names the title of that page and, when an
    invalid-reason is supplied, ends with it. *)
Theorem C8_missing_or_invalid_page_warning
    (attrs : readPageInterface.PageAttr)
    (revisions : option (list readPageInterface.Revisions))
    (morePages : list readPageInterface.Page)
    (morePageLists : list readPageInterface.Pages)
    (normalized : option (list readPageInterface.Normalized))
    (redirects : option (list readPageInterface.Redirects))
    (moreQueries : list readPageInterface.Query) (w : World) :
  completion.defined (readPageInterface.missing attrs) = true
  ∨ completion.defined (readPageInterface.invalid attrs) = true ->
  let re :=
    pageResponse attrs revisions morePages morePageLists normalized redirects
      moreQueries in
  let w' := wmcore.readPage_decoded re w in
  let notExist :=
    lit "The page "
      ++ wmcore.quoted (toString (readPageInterface.title attrs))
      ++ lit " you are looking for does not exist." in
  ∃ m,
    w' = emit (ShowWarningMessage m) w
    ∧ log w' = log w ++ [ShowWarningMessage m]
    ∧ pageName w' = pageName w
    ∧ (∃ rest, m = notExist ++ rest)
    ∧ (∀ reason,
         readPageInterface.invalidreason attrs = Some reason ->
         m = notExist ++ reason).
Proof.
  intros Hflag re w' notExist.
  exists (notExist ++ toString (readPageInterface.invalidreason attrs)).
  assert (w' = emit (ShowWarningMessage
                       (notExist
                          ++ toString (readPageInterface.invalidreason attrs)))
                 w) as ->.
  { unfold w', wmcore.readPage_decoded, wmcore.orUncaught. cbn.
    assert (∀ l : list N, match l with [] => [] | c :: s => c :: s end = l)
      as Hor by (by intros []).
    destruct attrs as [t pid [m|] [i|] reason]; cbn in Hflag |- *;
      try (by destruct Hflag);
      unfold notExist; cbn; rewrite Hor;
      repeat first [rewrite <-(assoc_L (++)) | rewrite <-app_comm_cons];
      reflexivity. }
  split_and!; [done | done | done | by eexists |].
  by intros reason ->.
Qed.

(** The page [Foo] does not exist. *)
Lemma C8_missing_or_invalid_page_warning_witness :
  completion.defined
    (readPageInterface.missing
       {| readPageInterface.title := Some (lit "Foo");
          readPageInterface.pageid := None;
          readPageInterface.missing := Some [];
          readPageInterface.invalid := None;
          readPageInterface.invalidreason := None |}) = true
  ∧ ∃ m,
      log (wmcore.readPage_decoded missingFoo (fresh exampleConfig None))
      = [ShowWarningMessage m]
      ∧ ∃ rest,
          m = lit "The page " ++ wmcore.quoted (lit "Foo")
                ++ lit " you are looking for does not exist." ++ rest.
Proof.
  split; [reflexivity|].
  destruct (C8_missing_or_invalid_page_warning
              {| readPageInterface.title := Some (lit "Foo");
                 readPageInterface.pageid := None;
                 readPageInterface.missing := Some [];
                 readPageInterface.invalid := None;
                 readPageInterface.invalidreason := None |}
              None [] [] None None [] (fresh exampleConfig None))
    as (m & _ & Hlog & _ & (rest & Hm) & _).
  - left. reflexivity.
  - exists m. split; [exact Hlog|]. exists rest.
    rewrite Hm. rewrite <-!(assoc_L (++)). reflexivity.
Defined.

(** The answer to [titles=w:Bar|Foo<] flags an invalid page and supplies a
    reason; the only warning is the interwiki one, which holds neither the
    reason nor the title of the invalid page. *)
Lemma C8_counterexample :
  let w' :=
    wmcore.readPage (Some (lit "w:Bar|Foo<")) (End interwikiAndInvalid)
      (fresh exampleConfig None) in
  ∃ queryInput m,
    log w' = [SendRequest queryInput; ShowWarningMessage m]
    ∧ m = lit "Interwiki page " ++ wmcore.quoted (lit "w:Bar")
            ++ lit " in space " ++ wmcore.quoted (lit "w")
            ++ lit " are currently not supported. Please try to modify host."
    ∧ splitAt (lit "The requested page title contains invalid characters.") m
      = None
    ∧ splitAt (lit "Foo<") m = None.
Proof. eexists _, _. vm_compute. split_and!; reflexivity. Qed.

Example readPage_missingFoo :
  ∃ queryInput,
    log (wmcore.readPage (Some (lit "Foo")) (End missingFoo)
           (fresh exampleConfig None))
    = [ SendRequest queryInput;
        ShowWarningMessage
          (lit "The page " ++ wmcore.quoted (lit "Foo")
             ++ lit " you are looking for does not exist.undefined") ].
Proof. eexists. vm_compute. reflexivity. Qed.

(* ================================================================== *)
(** * Unmet preconditions *)
(* ================================================================== *)

(** C9, as the code has it.  A command whose host is not configured
    ([getPreview], [getPageView]), whose active document is missing or empty
    ([getPreview]) or whose title input is empty or dismissed ([getPageView],
    [readPage], [viewPage], and [writePage] once it has a document and a
    session) returns with the editor as it was: no message, no request, no
    panel made or written.  [writePage] without an active editor, or without
    a session, is not silent: it shows a warning, and does nothing else. *)
Theorem C9_unmet_preconditions (w : World) :
  (∀ host botHost outcome,
     truthy host = false -> view.getPreview host botHost outcome w = w)
  ∧ (∀ host botHost outcome,
       truthy (activeDocument w) = false ->
       view.getPreview host botHost outcome w = w)
  ∧ (∀ host pageTitle botHost outcome,
       truthy host = false ∨ truthy pageTitle = false ->
       view.getPageView host pageTitle botHost outcome w = w)
  ∧ (∀ title response,
       truthy title = false -> wmcore.readPage title response w = w)
  ∧ (∀ pageTitle response,
       truthy pageTitle = false -> wmcore.viewPage pageTitle response w = w)
  ∧ (∀ wikiTitle wikiSummary token edit,
       completion.defined (activeDocument w) = true ->
       completion.defined (wmcore_bot w) = true ->
       truthy wikiTitle = false ->
       wmcore.writePage wikiTitle wikiSummary token edit w = w)
  ∧ (∀ wikiTitle wikiSummary token edit,
       activeDocument w = None ->
       wmcore.writePage wikiTitle wikiSummary token edit w
       = emit (ShowWarningMessage (lit "There is no active text editor.")) w)
  ∧ (∀ wikiTitle wikiSummary token edit,
       completion.defined (activeDocument w) = true ->
       wmcore_bot w = None ->
       wmcore.writePage wikiTitle wikiSummary token edit w
       = emit (ShowWarningMessage
                 (lit "You are not logged in. Please log in and try again."))
              w).
Proof.
  split_and!.
  - intros host botHost outcome Hh. unfold view.getPreview, whenTruthy.
    by rewrite Hh.
  - intros host botHost outcome Hd. unfold view.getPreview, whenTruthy.
    rewrite Hd. by destruct (truthy host), host.
  - intros host pageTitle botHost outcome [Hh|Ht];
      unfold view.getPageView, whenTruthy.
    + by rewrite Hh.
    + rewrite Ht. by destruct (truthy host), host.
  - intros title response Ht. unfold wmcore.readPage, whenTruthy.
    by rewrite Ht.
  - intros pageTitle response Ht. unfold wmcore.viewPage, whenTruthy.
    by rewrite Ht.
  - intros wikiTitle wikiSummary token edit Hd Hb Ht.
    unfold wmcore.writePage, whenTruthy. rewrite Ht.
    destruct (activeDocument w); [|done]. by destruct (wmcore_bot w).
  - intros wikiTitle wikiSummary token edit Hd. unfold wmcore.writePage.
    by rewrite Hd.
  - intros wikiTitle wikiSummary token edit Hd Hb. unfold wmcore.writePage.
    rewrite Hb. by destruct (activeDocument w).
Qed.

(** [getPreview] makes its panel before it asks for the bot: when there is
    no session and the host is gone by then, it returns without a message,
    but with a panel made and tracked. *)
Example getPreview_panel_before_bot :
  let w' :=
    view.getPreview exampleHost None Pending
      (fresh exampleConfig (Some exampleDocument)) in
  log w' = [CreateWebviewPanel 0 (lit "previewer") (lit "WikitextPreviewer")
              Beside]
  ∧ previewCurrentPlanel w' = Some 0%nat.
Proof. vm_compute. split; reflexivity. Qed.

(** Without a host, a preview request leaves a fresh editor fresh. *)
Lemma C9_unmet_preconditions_witness :
  view.getPreview None exampleHost Pending
    (fresh exampleConfig (Some exampleDocument))
  = fresh exampleConfig (Some exampleDocument).
Proof.
  apply (proj1 (C9_unmet_preconditions
                  (fresh exampleConfig (Some exampleDocument)))).
  reflexivity.
Defined.

(** [writePage] without an active editor shows a warning. *)
Lemma C9_counterexample :
  let w := fresh exampleConfig None in
  let w' := wmcore.writePage (Some (lit "Foo")) None (inr []) None w in
  activeDocument w = None
  ∧ log w' = [ShowWarningMessage (lit "There is no active text editor.")]
  ∧ log w' ≠ log w.
Proof. vm_compute. split_and!; [reflexivity.. | discriminate]. Qed.

(* ================================================================== *)
(** * The first elements of a revisions answer *)
(* ================================================================== *)

Section ReadPage.
Import readPageInterface.
Implicit Types (re : ReadPageResult) (q : Query) (pg : Page) (w : World).

Lemma query0_first a q qs :
  query a = Some (q :: qs) -> wmcore.query0 {| api := Some a |} = Normal (Some q).
Proof. intros Hq. unfold wmcore.query0. cbn. by rewrite Hq. Qed.

Lemma page0_first re q ps pss pg pgs :
  wmcore.query0 re = Normal (Some q) ->
  pages q = Some (ps :: pss) -> page ps = Some (pg :: pgs) ->
  wmcore.page0 re = Normal (Some pg).
Proof. intros Hq Hps Hpg. unfold wmcore.page0. rewrite Hq. cbn. rewrite Hps. cbn. by rewrite Hpg. Qed.

Lemma page0Attr_first re pg f :
  wmcore.page0 re = Normal (Some pg) ->
  wmcore.page0Attr re f = Normal (dollar pg ≫= f).
Proof. intros Hpg. unfold wmcore.page0Attr. rewrite Hpg. cbn. by destruct (dollar pg). Qed.

Lemma slot0_first {B} re pg (rest : option Slot -> Completion (option B)) :
  wmcore.page0 re = Normal (Some pg) ->
  headed (λ rv, headed (λ r, headed (λ ss, headed (λ _, True) (slot ss))
                                (slots r)) (rev rv)) (revisions pg) ->
  wmcore.slot0 re rest
  = match firstSlot (revisions pg) with
    | Some s => rest (Some s)
    | None => Normal None
    end.
Proof.
  intros Hpg Hh. unfold wmcore.slot0, firstSlot. rewrite Hpg. cbn.
  destruct (revisions pg) as [[|[rv] ?]|]; cbn in *; try done.
  destruct rv as [[|[r] ?]|]; cbn in *; try done.
  destruct r as [[|[ss] ?]|]; cbn in *; try done.
  destruct ss as [[|s ?]|]; cbn in *; done.
Qed.

Lemma wikiNormalized_first re q :
  wmcore.query0 re = Normal (Some q) ->
  headed (λ nz, headed (λ _, True) (n nz)) (normalized q) ->
  wmcore.wikiNormalized re = Normal (firstNormalized (normalized q)).
Proof.
  intros Hq Hh. unfold wmcore.wikiNormalized, firstNormalized. rewrite Hq. cbn.
  destruct (normalized q) as [[|[nz] ?]|]; cbn in *; try done.
  destruct nz as [[|e ?]|]; cbn in *; done.
Qed.

Lemma wikiRedirect_first re q :
  wmcore.query0 re = Normal (Some q) ->
  headed (λ rd, headed (λ _, True) (r rd)) (redirects q) ->
  wmcore.wikiRedirect re = Normal (firstRedirect (redirects q)).
Proof.
  intros Hq Hh. unfold wmcore.wikiRedirect, firstRedirect. rewrite Hq. cbn.
  destruct (redirects q) as [[|[rd] ?]|]; cbn in *; try done.
  destruct rd as [[|e ?]|]; cbn in *; done.
Qed.


Lemma interwikiProbe_first a q qs :
  query a = Some (q :: qs) ->
  wmcore.interwikiProbe {| api := Some a |} = Normal (interwiki q).
Proof. intros Hq. unfold wmcore.interwikiProbe. cbn. by rewrite Hq. Qed.

Lemma pageProbe_first a q qs :
  query a = Some (q :: qs) ->
  headed (λ _, True) (pages q) ->
  wmcore.pageProbe {| api := Some a |} = Normal (first (pages q) ≫= page).
Proof.
  intros Hq Hh. unfold wmcore.pageProbe. cbn. rewrite Hq. cbn.
  by destruct (pages q) as [[|ps ?]|].
Qed.

Lemma missingOrInvalid_first re pg :
  wmcore.page0 re = Normal (Some pg) ->
  wmcore.missingOrInvalid re
  = Normal (defined (dollar pg ≫= missing) || defined (dollar pg ≫= invalid)).
Proof.
  intros Hpg. unfold wmcore.missingOrInvalid.
  rewrite !(page0Attr_first _ pg) by done. cbn.
  by destruct (defined (dollar pg ≫= missing)).
Qed.

Lemma wikiContent_first re pg :
  wmcore.page0 re = Normal (Some pg) ->
  headed (λ rv, headed (λ r, headed (λ ss, headed (λ _, True) (slot ss))
                                (slots r)) (rev rv)) (revisions pg) ->
  wmcore.wikiContent re = Normal (firstSlot (revisions pg) ≫= underscore).
Proof.
  intros Hpg Hh. unfold wmcore.wikiContent. rewrite (slot0_first _ pg) by done.
  by destruct (firstSlot _).
Qed.

Lemma wikiModel_first re pg :
  wmcore.page0 re = Normal (Some pg) ->
  headed (λ rv, headed (λ r, headed (λ ss, headed (λ _, True) (slot ss))
                                (slots r)) (rev rv)) (revisions pg) ->
  wmcore.wikiModel re
  = Normal ((firstSlot (revisions pg) ≫= slot_dollar) ≫= contentmodel).
Proof.
  intros Hpg Hh. unfold wmcore.wikiModel. rewrite (slot0_first _ pg) by done.
  destruct (firstSlot _) as [s|]; [|done]. cbn. by destruct (slot_dollar s).
Qed.

Lemma interwikiAttr_first a q qs iwk more f :
  query a = Some (q :: qs) -> interwiki q = Some (iwk :: more) ->
  headed (λ _, True) (i iwk) ->
  wmcore.interwikiAttr {| api := Some a |} f
  = Normal ((first (i iwk) ≫= i_dollar) ≫= f).
Proof.
  intros Hq Hiw Hh. unfold wmcore.interwikiAttr.
  rewrite (query0_first _ _ _ Hq). cbn. rewrite Hiw. cbn.
  destruct (i iwk) as [[|e ?]|]; cbn in *; try done.
  by destruct (i_dollar e).
Qed.

(** What [readPage] does with an answer that has an interwiki entry. *)
Lemma readPage_decoded_interwiki a q qs iwk more w :
  query a = Some (q :: qs) -> interwiki q = Some (iwk :: more) ->
  headed (λ _, True) (i iwk) ->
  let attr := first (i iwk) ≫= i_dollar in
  wmcore.readPage_decoded {| api := Some a |} w
  = emit (ShowWarningMessage
            (lit "Interwiki page "
               ++ wmcore.quoted (toString (attr ≫= iw_title))
               ++ lit " in space " ++ wmcore.quoted (toString (attr ≫= iw))
               ++ lit " are currently not supported. Please try to modify host."))
      w.
Proof.
  intros Hq Hiw Hh attr. unfold wmcore.readPage_decoded.
  rewrite (interwikiProbe_first _ _ _ Hq), Hiw.
  unfold wmcore.orUncaught at 1. cbn [defined].
  unfold wmcore.interwikiMessage.
  rewrite !(interwikiAttr_first _ _ _ _ _ _ Hq Hiw Hh). reflexivity.
Qed.

(** What [readPage] does with an answer without interwiki entry and without
    page list. *)
Lemma readPage_decoded_no_page re w :
  firstElements re ->
  (∀ a q qs, api re = Some a -> query a = Some (q :: qs) ->
     interwiki q = None
     ∧ ∀ ps pss, pages q = Some (ps :: pss) -> page ps = None) ->
  wmcore.readPage_decoded re w = w.
Proof.
  intros Hfirst Hno. destruct re as [[a|]]; [|done].
  destruct (query a) as [[|q qs]|] eqn:Hq.
  - unfold firstElements in Hfirst. cbn in Hfirst. by rewrite Hq in Hfirst.
  - destruct (Hno a q qs eq_refl Hq) as (Hiw & Hpg).
    unfold firstElements in Hfirst. cbn in Hfirst. rewrite Hq in Hfirst.
    destruct Hfirst as (_ & Hps & _).
    unfold wmcore.readPage_decoded.
    rewrite (interwikiProbe_first _ _ _ Hq), Hiw.
    rewrite (pageProbe_first _ _ _ Hq).
    + destruct (pages q) as [[|ps pss]|]; [done| |done].
      cbn. by rewrite (Hpg ps pss).
    + by destruct (pages q) as [[|ps pss]|].
  - unfold wmcore.readPage_decoded, wmcore.interwikiProbe, wmcore.pageProbe.
    cbn. by rewrite Hq.
Qed.

(** What [readPage] does with the first page of an answer, once the page
    list is there. *)
Lemma readPage_decoded_page a q qs ps pss pg pgs w :
  query a = Some (q :: qs) -> interwiki q = None ->
  pages q = Some (ps :: pss) -> page ps = Some (pg :: pgs) ->
  headed (λ rv, headed (λ r, headed (λ ss, headed (λ _, True) (slot ss))
                                (slots r)) (rev rv)) (revisions pg) ->
  headed (λ nz, headed (λ _, True) (n nz)) (normalized q) ->
  headed (λ rd, headed (λ _, True) (r rd)) (redirects q) ->
  let wikiTitle := dollar pg ≫= title in
  let model := (firstSlot (revisions pg) ≫= slot_dollar) ≫= contentmodel in
  wmcore.readPage_decoded {| api := Some a |} w
  = if defined (dollar pg ≫= missing) || defined (dollar pg ≫= invalid)
    then emit (ShowWarningMessage
                 (orElse (Some (lit "The page "
                                  ++ wmcore.quoted (toString wikiTitle)
                                  ++ lit " you are looking for does not exist."
                                  ++ toString (dollar pg ≫= invalidreason)))
                         [])) w
    else emit (ShowInformationMessage
                 (wmcore.openedMessage wikiTitle (dollar pg ≫= pageid) model
                    (firstNormalized (normalized q))
                    (firstRedirect (redirects q))))
           (with_pageName wikiTitle
              (emit (OpenTextDocument model
                       (firstSlot (revisions pg) ≫= underscore)) w)).
Proof.
  intros Hq Hiw Hps Hpg Hrv Hnz Hrd wikiTitle model.
  pose proof (query0_first _ _ _ Hq) as Hq0.
  pose proof (page0_first _ _ _ _ _ _ Hq0 Hps Hpg) as Hpg0.
  unfold wmcore.readPage_decoded.
  rewrite (interwikiProbe_first _ _ _ Hq), Hiw.
  rewrite (pageProbe_first _ _ _ Hq) by (by rewrite Hps).
  rewrite Hps. cbn [first mbind option_bind]. rewrite Hpg.
  unfold wmcore.orUncaught at 1 2. cbn [defined negb].
  rewrite (page0Attr_first _ pg) by done.
  rewrite (missingOrInvalid_first _ pg) by done.
  unfold wmcore.orUncaught at 1 2.
  destruct (defined (dollar pg ≫= missing) || defined (dollar pg ≫= invalid)).
  - unfold wmcore.notExistMessage. rewrite (page0Attr_first _ pg) by done.
    reflexivity.
  - rewrite (wikiContent_first _ pg), (wikiModel_first _ pg) by done.
    unfold wmcore.orUncaught at 1 2.
    rewrite (page0Attr_first _ pg) by done.
    rewrite (wikiNormalized_first _ q), (wikiRedirect_first _ q) by done.
    reflexivity.
Qed.

End ReadPage.

Section Frames.
Implicit Types (w : World).

Lemma onlyMessages_refl w : onlyMessages w w.
Proof. by unfold onlyMessages. Qed.

Lemma onlyMessages_trans w1 w2 w3 :
  onlyMessages w1 w2 -> onlyMessages w2 w3 -> onlyMessages w1 w3.
Proof.
  intros (? & ? & ? & ? & ? & ?) (? & ? & ? & ? & ? & ?).
  unfold onlyMessages. split_and!; congruence.
Qed.

Lemma onlyMessages_emit e w : onlyMessages w (emit e w).
Proof. by unfold onlyMessages. Qed.

Lemma onlyMessages_with_pageName t w : onlyMessages w (with_pageName t w).
Proof. by unfold onlyMessages. Qed.

Lemma emit_ne e w : emit e w ≠ w.
Proof.
  intros Heq. apply (f_equal (λ w, length (log w))) in Heq. simpl in Heq.
  rewrite length_app in Heq. simpl in Heq. lia.
Qed.

End Frames.

(* ================================================================== *)
(** * Reading a page *)
(* ================================================================== *)

(** X1.  When the first page of the answer is there (no interwiki entry, no
    [missing] or [invalid] flag), [readPage] opens one document, with the
    text of the first slot of the first revision as content and the content
    model of that slot as language, remembers the title of the page as the
    page name that [writePage] will offer, and reports the page; it sent
    its one request before.  A part that the answer lacks comes out as
    undefined, in the message as the text of that name. *)
Theorem readPage_opens_first_page
    (attrs : readPageInterface.PageAttr)
    (revisions : option (list readPageInterface.Revisions))
    (morePages : list readPageInterface.Page)
    (morePageLists : list readPageInterface.Pages)
    (normalized : option (list readPageInterface.Normalized))
    (redirects : option (list readPageInterface.Redirects))
    (moreQueries : list readPageInterface.Query)
    (c : N) (t : list N) (w : World) :
  let re :=
    pageResponse attrs revisions morePages morePageLists normalized redirects
      moreQueries in
  firstElements re ->
  readPageInterface.missing attrs = None ->
  readPageInterface.invalid attrs = None ->
  let w' := wmcore.readPage (Some (c :: t)) (End re) w in
  let slot := firstSlot revisions in
  let model :=
    (slot ≫= readPageInterface.slot_dollar) ≫= readPageInterface.contentmodel in
  (∃ queryInput,
     log w'
     = log w
         ++ [ SendRequest queryInput;
              OpenTextDocument model (slot ≫= readPageInterface.underscore);
              ShowInformationMessage
                (wmcore.openedMessage (readPageInterface.title attrs)
                   (readPageInterface.pageid attrs) model
                   (firstNormalized normalized) (firstRedirect redirects)) ]
     ∧ argOf "titles" queryInput = Some (Str (c :: t)))
  ∧ pageName w' = readPageInterface.title attrs.
Proof.
  intros re Hfirst Hm Hi w' slot model.
  destruct Hfirst as (_ & Hrv & Hnz & Hrd).
  unfold w', wmcore.readPage.
  change (whenTruthy (Some (c :: t))) with (Some (c :: t)). cbv zeta.
  unfold re, pageResponse.
  erewrite readPage_decoded_page; [|reflexivity..|exact Hrv|exact Hnz|exact Hrd].
  cbn [readPageInterface.dollar mbind option_bind readPageInterface.revisions
       readPageInterface.normalized readPageInterface.redirects].
  rewrite Hm, Hi. cbn [defined orb].
  split; [|done]. eexists. split.
  - cbn [log emit with_pageName]. rewrite <-!(assoc_L (++)). reflexivity.
  - by destruct (vscode.redirects (config w)).
Qed.

(** The page [Foo], asked for as [foo]. *)
Lemma readPage_opens_first_page_witness :
  firstElements openedFoo
  ∧ ∃ queryInput,
      log (wmcore.readPage (Some (lit "foo")) (End openedFoo)
             (fresh exampleConfig None))
      = [ SendRequest queryInput;
          OpenTextDocument (Some (lit "wikitext")) (Some (lit "''Hello''"));
          ShowInformationMessage
            (lit "Opened page " ++ wmcore.quoted (lit "Foo")
               ++ lit " (page ID:" ++ wmcore.quoted (lit "42")
               ++ lit ") with Model wikitext. Normalized: "
               ++ wmcore.quoted (lit "foo") ++ lit " => "
               ++ wmcore.quoted (lit "Foo") ++ lit ".") ].
Proof.
  assert (firstElements openedFoo) as Hfirst by (vm_compute; tauto).
  split; [exact Hfirst|].
  destruct (readPage_opens_first_page fooAttrs fooRevisions [] [] fooNormalized
              None [] 102%N (lit "oo") (fresh exampleConfig None)
              Hfirst eq_refl eq_refl) as ((queryInput & Hlog & _) & _).
  exists queryInput. exact Hlog.
Defined.

(** X2.  On an answer in which no array that [readPage] reads the first
    element of is empty, [readPage] raises no [TypeError]: it ends silently,
    or with one warning, or it opens one document, remembers one page name
    and shows one message. *)
Theorem readPage_first_elements_no_TypeError
    (re : readPageInterface.ReadPageResult) (w : World) :
  firstElements re ->
  let w' := wmcore.readPage_decoded re w in
  (w' = w
   ∨ (∃ m, w' = emit (ShowWarningMessage m) w)
   ∨ (∃ model content wikiTitle m,
        w' = emit (ShowInformationMessage m)
               (with_pageName wikiTitle
                  (emit (OpenTextDocument model content) w))))
  ∧ ∃ l, log w' = log w ++ l ∧ UncaughtTypeError ∉ l.
Proof.
  intros Hfirst w'.
  assert (w' = w
          ∨ (∃ m, w' = emit (ShowWarningMessage m) w)
          ∨ (∃ model content wikiTitle m,
               w' = emit (ShowInformationMessage m)
                      (with_pageName wikiTitle
                         (emit (OpenTextDocument model content) w)))) as Hcases.
  { unfold w'. destruct re as [[a|]]; [|by left].
    destruct (readPageInterface.query a) as [[|q qs]|] eqn:Hq.
    - unfold firstElements in Hfirst. cbn in Hfirst. by rewrite Hq in Hfirst.
    - pose proof Hfirst as Hf. unfold firstElements in Hf. cbn in Hf.
      rewrite Hq in Hf. cbn in Hf. destruct Hf as (Hiw & Hps & Hnz & Hrd).
      destruct (readPageInterface.interwiki q) as [[|iwk more]|] eqn:Hi;
        [done| |].
      { right. left. eexists.
        by apply (readPage_decoded_interwiki a q qs iwk more). }
      destruct (readPageInterface.pages q) as [[|ps pss]|] eqn:Hp; [done| |].
      2:{ left. apply readPage_decoded_no_page; [done|].
          intros a' q' qs' [= <-]. rewrite Hq. intros [= <- <-].
          split; [done|]. by rewrite Hp. }
      cbn in Hps.
      destruct (readPageInterface.page ps) as [[|pg pgs]|] eqn:Hg; [done| |].
      2:{ left. apply readPage_decoded_no_page; [done|].
          intros a' q' qs' [= <-]. rewrite Hq. intros [= <- <-].
          split; [done|]. rewrite Hp. by intros ps' pss' [= <- <-]. }
      cbn in Hps.
      rewrite (readPage_decoded_page a q qs ps pss pg pgs) by done.
      destruct (_ || _); [right; left | right; right]; by repeat eexists.
    - left. apply readPage_decoded_no_page; [done|].
      intros a' q' qs' [= <-]. by rewrite Hq. }
  split; [exact Hcases|].
  destruct Hcases as [->|[(m & ->)|(model & content & t & m & ->)]].
  - exists []. rewrite app_nil_r. split; [done|]. apply not_elem_of_nil.
  - eexists [_]. split; [done|]. by intros ?%list_elem_of_singleton.
  - eexists [_; _]. split; [by simpl; rewrite <-(assoc_L (++))|].
    intros [?|[?|[]%elem_of_nil]%elem_of_cons]%elem_of_cons; discriminate.
Qed.

(** The answer for [Foo] has a first element in every array. *)
Lemma readPage_first_elements_no_TypeError_witness :
  firstElements openedFoo
  ∧ ∃ l, log (wmcore.readPage_decoded openedFoo (fresh exampleConfig None))
         = l ∧ UncaughtTypeError ∉ l.
Proof.
  assert (firstElements openedFoo) as Hfirst by (vm_compute; tauto).
  split; [exact Hfirst|].
  destruct (readPage_first_elements_no_TypeError openedFoo
              (fresh exampleConfig None) Hfirst) as (_ & l & Hlog & Hno).
  exists l. split; [exact Hlog | exact Hno].
Defined.

(** X3.  An answer with an interwiki entry makes [readPage] show the
    interwiki warning, with the title and the prefix of the first entry,
    and nothing else: whatever pages the answer lists, none is opened and
    the remembered page name stays. *)
Theorem readPage_interwiki_warning
    (a : readPageInterface.Api) (q : readPageInterface.Query)
    (qs : list readPageInterface.Query) (iwk : readPageInterface.Interwiki)
    (more : list readPageInterface.Interwiki) (w : World) :
  readPageInterface.query a = Some (q :: qs) ->
  readPageInterface.interwiki q = Some (iwk :: more) ->
  readPageInterface.i iwk ≠ Some [] ->
  let w' := wmcore.readPage_decoded {| readPageInterface.api := Some a |} w in
  let attr := first (readPageInterface.i iwk) ≫= readPageInterface.i_dollar in
  log w'
  = log w
      ++ [ ShowWarningMessage
             (lit "Interwiki page "
                ++ wmcore.quoted
                     (toString (attr ≫= readPageInterface.iw_title))
                ++ lit " in space "
                ++ wmcore.quoted (toString (attr ≫= readPageInterface.iw))
                ++ lit " are currently not supported. Please try to modify host.") ]
  ∧ pageName w' = pageName w
  ∧ onlyMessages w w'.
Proof.
  intros Hq Hiw Hi w' attr. unfold w'.
  rewrite (readPage_decoded_interwiki a q qs iwk more) by
    (try done; by destruct (readPageInterface.i iwk) as [[|]|]).
  split_and!; [done | done | apply onlyMessages_emit].
Qed.

(** The answer to [titles=w:Bar|Foo<]. *)
Lemma readPage_interwiki_warning_witness :
  log (wmcore.readPage_decoded interwikiAndInvalid (fresh exampleConfig None))
  = [ ShowWarningMessage
        (lit "Interwiki page " ++ wmcore.quoted (lit "w:Bar")
           ++ lit " in space " ++ wmcore.quoted (lit "w")
           ++ lit " are currently not supported. Please try to modify host.") ].
Proof.
  pose (iwk :=
          {| readPageInterface.i := Some
               [ {| readPageInterface.i_dollar := Some
                      {| readPageInterface.iw_title := Some (lit "w:Bar");
                         readPageInterface.iw := Some (lit "w") |} |} ] |}).
  pose (q :=
          match readPageInterface.api interwikiAndInvalid with
          | Some {| readPageInterface.query := Some (q :: _) |} => q
          | _ => {| readPageInterface.interwiki := None;
                    readPageInterface.pages := None;
                    readPageInterface.normalized := None;
                    readPageInterface.redirects := None |}
          end).
  refine (proj1 (readPage_interwiki_warning
                   {| readPageInterface.query := Some [q] |} q [] iwk []
                   (fresh exampleConfig None) eq_refl eq_refl _)).
  discriminate.
Defined.

(** X4.  On an answer in which no array read is empty, [readPage] ends
    without any trace (no message, no document, nothing remembered) exactly
    when the answer has neither an interwiki entry nor a list of pages in
    its first query: for instance when the API answers with an error
    only. *)
Theorem readPage_silent_iff_no_page_list
    (re : readPageInterface.ReadPageResult) (w : World) :
  firstElements re ->
  wmcore.readPage_decoded re w = w
  ↔ (∀ a q qs,
       readPageInterface.api re = Some a ->
       readPageInterface.query a = Some (q :: qs) ->
       readPageInterface.interwiki q = None
       ∧ ∀ ps pss, readPageInterface.pages q = Some (ps :: pss) ->
                   readPageInterface.page ps = None).
Proof.
  intros Hfirst. split; [|by apply readPage_decoded_no_page].
  intros Hsilent a q qs Ha Hq. destruct re as [a']. cbn in Ha. subst a'.
  pose proof Hfirst as Hf. unfold firstElements in Hf. cbn in Hf.
  rewrite Hq in Hf. cbn in Hf. destruct Hf as (Hiw & Hps & Hnz & Hrd).
  destruct (readPageInterface.interwiki q) as [[|iwk more]|] eqn:Hi; [done| |].
  { rewrite (readPage_decoded_interwiki a q qs iwk more) in Hsilent by done.
    by apply emit_ne in Hsilent. }
  split; [done|]. intros ps pss Hp. rewrite Hp in Hps. cbn in Hps.
  destruct (readPageInterface.page ps) as [[|pg pgs]|] eqn:Hg; [done| |done].
  cbn in Hps.
  rewrite (readPage_decoded_page a q qs ps pss pg pgs) in Hsilent by done.
  destruct (_ || _); [by apply emit_ne in Hsilent|].
  apply (f_equal (λ w, length (log w))) in Hsilent. simpl in Hsilent.
  rewrite !length_app in Hsilent. simpl in Hsilent. lia.
Qed.

(** An answer that holds an error only: [<api><error/></api>]. *)
Lemma readPage_silent_iff_no_page_list_witness :
  wmcore.readPage_decoded
    {| readPageInterface.api :=
         Some {| readPageInterface.query := None |} |}
    (fresh exampleConfig None)
  = fresh exampleConfig None.
Proof.
  refine (proj2 (readPage_silent_iff_no_page_list _ _ _) _).
  - vm_compute. exact I.
  - intros a q qs [= <-]. discriminate.
Defined.

(* ================================================================== *)
(** * Writing a page, and the session it needs *)
(* ================================================================== *)

Section WritePage.
Implicit Types (w : World).

(** What [writePage] logs once it has a document, a session and a title. *)
Lemma writePage_log (c : N) (t : list N) wikiSummary token edit doc tbot w :
  activeDocument w = Some doc ->
  wmcore_bot w = Some tbot ->
  log (wmcore.writePage (Some (c :: t)) wikiSummary token edit w)
  = log w
      ++ [ BotGetEditToken;
           match token with
           | inl response =>
               ShowInformationMessage (wmcore.tokenMessage response)
           | inr name => ShowErrorMessage name
           end;
           BotEdit (c :: t) doc
             (toString wikiSummary
                ++ lit " // Edit via Wikitext Extension for Visual Studio Code") ]
      ++ match edit with
         | None => []
         | Some e =>
             [ if defined (wmcore.ed_nochange e)
               then ShowWarningMessage (wmcore.noChangeMessage e)
               else ShowInformationMessage (wmcore.editMessage e) ]
         end.
Proof.
  intros Hd Hb. unfold wmcore.writePage. rewrite Hd, Hb.
  change (whenTruthy (Some (c :: t))) with (Some (c :: t)). cbv zeta.
  destruct token, edit as [e|]; [destruct (defined _)| |destruct (defined _)|];
    simpl; rewrite <-?(assoc_L (++)); reflexivity.
Qed.

End WritePage.

(** X5.  Once [writePage] has a document, a session and a title, it asks
    for an edit token, shows what came of that (the answer as an
    information message, a failure as an error message with the name of the
    error), and then, whichever it was, issues exactly one edit: to the
    title as entered, with the text of the document as it is, and with the
    summary as entered followed by the fixed suffix (a dismissed summary box
    gives the text [undefined] before the suffix).  An edit that is answered
    is reported once, as a warning when the answer says that nothing
    changed and as information otherwise; one that fails is not
    reported. *)
Theorem writePage_edits_whatever_the_token
    (c : N) (t : list N) (wikiSummary : option (list N))
    (token : wmcore.TokenResponse + list N)
    (edit : option wmcore.EditResponse)
    (doc : list N) (tbot : MWBot) (w : World) :
  activeDocument w = Some doc ->
  wmcore_bot w = Some tbot ->
  log (wmcore.writePage (Some (c :: t)) wikiSummary token edit w)
  = log w
      ++ [ BotGetEditToken;
           match token with
           | inl response =>
               ShowInformationMessage (wmcore.tokenMessage response)
           | inr name => ShowErrorMessage name
           end;
           BotEdit (c :: t) doc
             (toString wikiSummary
                ++ lit " // Edit via Wikitext Extension for Visual Studio Code") ]
      ++ match edit with
         | None => []
         | Some e =>
             [ if defined (wmcore.ed_nochange e)
               then ShowWarningMessage (wmcore.noChangeMessage e)
               else ShowInformationMessage (wmcore.editMessage e) ]
         end.
Proof. apply writePage_log. Qed.

(** A summary box that was dismissed, and a token request that failed. *)
Lemma writePage_edits_whatever_the_token_witness :
  log (wmcore.writePage (Some (lit "Foo")) None (inr (lit "Error")) None
         (with_wmcore_bot
            (Some {| apiUrl := lit "https://wiki.example/w/api.php" |})
            (fresh exampleConfig (Some exampleDocument))))
  = [ BotGetEditToken; ShowErrorMessage (lit "Error");
      BotEdit (lit "Foo") exampleDocument
        (lit "undefined // Edit via Wikitext Extension for Visual Studio Code") ].
Proof.
  exact (writePage_edits_whatever_the_token 70%N (lit "oo") None
           (inr (lit "Error")) None exampleDocument
           {| apiUrl := lit "https://wiki.example/w/api.php" |}
           (with_wmcore_bot
              (Some {| apiUrl := lit "https://wiki.example/w/api.php" |})
              (fresh exampleConfig (Some exampleDocument)))
           eq_refl eq_refl).
Defined.

Section OnlyMessages.
Implicit Types (w : World).

Lemma onlyMessages_orUncaught {A} (c : Completion A) k w :
  (∀ a w1, onlyMessages w1 (k a w1)) ->
  onlyMessages w (wmcore.orUncaught c k w).
Proof. intros Hk. destruct c; simpl; [apply Hk | apply onlyMessages_emit]. Qed.

Lemma onlyMessages_readPage title response w :
  onlyMessages w (wmcore.readPage title response w).
Proof.
  unfold wmcore.readPage.
  destruct (whenTruthy title) as [t|]; [|apply onlyMessages_refl].
  eapply onlyMessages_trans; [apply onlyMessages_emit|].
  destruct response as [|re| |name];
    [apply onlyMessages_refl | | apply onlyMessages_emit
     | apply onlyMessages_emit].
  unfold wmcore.readPage_decoded.
  apply onlyMessages_orUncaught. intros iw w1. destruct (defined iw).
  { apply onlyMessages_orUncaught. intros. apply onlyMessages_emit. }
  apply onlyMessages_orUncaught. intros pg w2.
  destruct (negb _); [apply onlyMessages_refl|].
  apply onlyMessages_orUncaught. intros wikiTitle w3.
  apply onlyMessages_orUncaught. intros gone w4. destruct gone.
  { apply onlyMessages_orUncaught. intros. apply onlyMessages_emit. }
  apply onlyMessages_orUncaught. intros content w5.
  apply onlyMessages_orUncaught. intros model w6.
  eapply onlyMessages_trans; [apply onlyMessages_emit|].
  eapply onlyMessages_trans; [apply onlyMessages_with_pageName|].
  apply onlyMessages_orUncaught. intros wikiPageID w7.
  apply onlyMessages_orUncaught. intros normalized w8.
  apply onlyMessages_orUncaught. intros redirect w9. apply onlyMessages_emit.
Qed.

Lemma onlyMessages_writePage wikiTitle wikiSummary token edit w :
  let w' := wmcore.writePage wikiTitle wikiSummary token edit w in
  onlyMessages w w' ∧ pageName w' = pageName w.
Proof.
  cbv zeta. unfold wmcore.writePage.
  destruct (activeDocument w) as [wikiContent|]; [|done].
  destruct (wmcore_bot w); [|done].
  destruct (whenTruthy wikiTitle) as [t|]; [|done].
  destruct token, edit as [e|]; try destruct (defined _); done.
Qed.

End OnlyMessages.

(** X6.  [readPage] and [writePage] only talk: whatever they are given and
    whatever the answer, the panels, the tracked preview panel, the active
    document, the settings and both sessions are afterwards what they were
    before; [writePage] also leaves the remembered page name as it was. *)
Theorem readPage_and_writePage_only_talk (w : World) :
  (∀ title response, onlyMessages w (wmcore.readPage title response w))
  ∧ (∀ wikiTitle wikiSummary token edit,
       let w' := wmcore.writePage wikiTitle wikiSummary token edit w in
       onlyMessages w w' ∧ pageName w' = pageName w).
Proof.
  split.
  - intros title response. apply onlyMessages_readPage.
  - intros wikiTitle wikiSummary token edit. apply onlyMessages_writePage.
Qed.

(** X7.  [login] of wmcore.ts, given a host and both credentials, makes its
    session before the login call is answered, for the address it builds
    under [https://] whatever the transfer protocol of the settings: so
    after it, even when the call failed, [writePage] no longer stops at the
    warning that nobody is logged in but goes on to the edit token; and
    after [logout], which always reports success, it stops there again. *)
Theorem login_lets_writePage_through
    (host userName password : option (list N))
    (outcome : LoginResponse + list N) (h u p doc : list N)
    (c : N) (t : list N) (wikiSummary : option (list N))
    (token : wmcore.TokenResponse + list N)
    (edit : option wmcore.EditResponse) (w : World) :
  whenTruthy host = Some h ->
  whenTruthy userName = Some u ->
  whenTruthy password = Some p ->
  activeDocument w = Some doc ->
  let tbot :=
    {| apiUrl := lit "https://" ++ h ++ toString (apiPath (config w)) |} in
  let w1 := (wmcore.login host userName password outcome w).2 in
  let w2 := wmcore.logout w1 in
  (wmcore.login host userName password outcome w).1 = [BotLogin tbot u p]
  ∧ wmcore_bot w1 = Some tbot
  ∧ (∃ rest,
       log (wmcore.writePage (Some (c :: t)) wikiSummary token edit w1)
       = log w1 ++ BotGetEditToken :: rest)
  ∧ wmcore_bot w2 = None
  ∧ log w2
    = log w1
        ++ [ShowInformationMessage (lit "result: " ++ wmcore.quoted (lit "Success"))]
  ∧ log (wmcore.writePage (Some (c :: t)) wikiSummary token edit w2)
    = log w2
        ++ [ShowWarningMessage
              (lit "You are not logged in. Please log in and try again.")].
Proof.
  intros Hh Hu Hp Hd tbot w1 w2. unfold w2, w1, wmcore.login.
  rewrite Hh, Hu, Hp. cbv zeta.
  assert (∀ w0 : World, activeDocument w0 = Some doc ->
            wmcore_bot w0 = Some tbot ->
            ∃ rest,
              log (wmcore.writePage (Some (c :: t)) wikiSummary token edit w0)
              = log w0 ++ BotGetEditToken :: rest) as Hwrite.
  { intros w0 Hd0 Hb0.
    rewrite (writePage_log c t wikiSummary token edit doc tbot w0 Hd0 Hb0).
    by eexists. }
  split_and!; [done| | | done | done |].
  - by destruct outcome.
  - destruct outcome; by apply Hwrite.
  - unfold wmcore.writePage, wmcore.logout. destruct outcome; simpl; by rewrite Hd.
Qed.

(** A login that fails. *)
Lemma login_lets_writePage_through_witness :
  let w := fresh exampleConfig (Some exampleDocument) in
  let w1 :=
    (wmcore.login exampleHost (Some (lit "Bot")) (Some (lit "secret"))
       (inr (lit "Invalid password")) w).2 in
  log w1 = [ShowErrorMessage (lit "Invalid password")]
  ∧ ∃ rest,
      log (wmcore.writePage (Some (lit "Foo")) (Some (lit "typo")) (inr (lit "Error"))
             None w1)
      = log w1 ++ BotGetEditToken :: rest.
Proof.
  intros w w1. split; [reflexivity|].
  exact (proj1 (proj2 (proj2
           (login_lets_writePage_through exampleHost (Some (lit "Bot"))
              (Some (lit "secret")) (inr (lit "Invalid password"))
              (lit "wiki.example") (lit "Bot") (lit "secret") exampleDocument
              70%N (lit "oo") (Some (lit "typo")) (inr (lit "Error")) None w
              eq_refl eq_refl eq_refl eq_refl)))).
Defined.

(** X8.  [login] of bot.ts, given a host and both credentials, makes its
    session before the login call is answered, for the address built from
    the transfer protocol, the host and the API path of that moment.  From
    then on, even when the call failed, [getBot] answers with that session
    whatever the host has become, and a preview sends its request through
    it. *)
Theorem login_session_serves_the_previews
    (host userName password : option (list N))
    (outcome : LoginResponse + list N) (h u p : list N) (w : World) :
  whenTruthy host = Some h ->
  whenTruthy userName = Some u ->
  whenTruthy password = Some p ->
  let tbot :=
    {| apiUrl := toString (transferProtocol (config w)) ++ h
                   ++ toString (apiPath (config w)) |} in
  let w1 := (bot.login host userName password outcome w).2 in
  (bot.login host userName password outcome w).1
  = [ SetStatusBarMessage (lit "Wikitext: Login..."); BotLogin tbot u p;
      DisposeStatusBarMessage ]
  ∧ (∃ m, log w1 = log w ++ [m] ∧ isMessage m)
  ∧ (∀ botHost, bot.getBot botHost w1 = Some tbot)
  ∧ (∀ host' botHost outcome' h' text,
       whenTruthy host' = Some h' ->
       whenTruthy (activeDocument w) = Some text ->
       ∃ before args after,
         log (view.getPreview host' botHost outcome' w1)
         = before ++ BotRequest tbot args :: after).
Proof.
  intros Hh Hu Hp tbot w1.
  pose (m := match outcome with
             | inl response => ShowInformationMessage (bot.loginMessage response)
             | inr message => ShowErrorMessage message
             end).
  assert (bot.login host userName password outcome w
          = ([ SetStatusBarMessage (lit "Wikitext: Login..."); BotLogin tbot u p;
               DisposeStatusBarMessage ],
             emit m (with_bot (Some tbot) w))) as Hlogin.
  { unfold bot.login. rewrite Hh, Hu, Hp. unfold m.
    destruct outcome; reflexivity. }
  unfold w1. rewrite Hlogin. clear Hlogin w1. cbn [fst snd].
  split_and!.
  - reflexivity.
  - exists m. split; [reflexivity|]. unfold isMessage, m.
    destruct outcome; eauto.
  - intros botHost. reflexivity.
  - intros host' botHost outcome' h' text Hh' Hd.
    destruct (getPreview_log host' botHost outcome' h' text tbot
                (emit m (with_bot (Some tbot) w)) Hh' Hd eq_refl)
      as (created & id & args & after & Hlog & _).
    rewrite Hlog.
    exists (log (emit m (with_bot (Some tbot) w)) ++ created
              ++ [SetHtml id (view.showHtmlInfo (lit "Loading..."))]),
           args, after.
    rewrite <-!(assoc_L (++)). reflexivity.
Qed.

(** A login that fails, and a preview while the host is not configured any
    more. *)
Lemma login_session_serves_the_previews_witness :
  let w := fresh exampleConfig (Some exampleDocument) in
  let w1 :=
    (bot.login exampleHost (Some (lit "Bot")) (Some (lit "secret"))
       (inr (lit "Invalid password")) w).2 in
  bot.getBot None w1
  = Some {| apiUrl := lit "https://wiki.example/w/api.php" |}.
Proof.
  intros w w1.
  exact (proj1 (proj2 (proj2
           (login_session_serves_the_previews exampleHost (Some (lit "Bot"))
              (Some (lit "secret")) (inr (lit "Invalid password"))
              (lit "wiki.example") (lit "Bot") (lit "secret") w
              eq_refl eq_refl eq_refl))) None).
Defined.

(** X9.  [logout] of bot.ts ends the session exactly when it shows its
    success message.  Without a session it sends nothing and still reports
    success.  With one it asks for an edit token; if that fails the command
    ends there, with nothing shown, no logout request and no status bar
    message; otherwise it sends the logout request with the token of the
    bot, between setting and disposing the status bar message, and either
    ends the session and reports success, or, when the request failed,
    shows the message of the error and keeps the session. *)
Theorem logout_ends_the_session_iff_it_reports_success
    (tokenFetched : bool) (editToken : list N) (outcome : unit + list N)
    (w : World) :
  let calls := (bot.logout tokenFetched editToken outcome w).1 in
  let w' := (bot.logout tokenFetched editToken outcome w).2 in
  let l :=
    match vscode.bot w with
    | None => [ShowInformationMessage bot.success]
    | Some tbot =>
        BotGetEditToken
        :: (if tokenFetched
            then [ BotRequest tbot
                     [ ("action", Str (lit "logout"));
                       ("token", Str editToken) ]%string;
                   match outcome with
                   | inl _ => ShowInformationMessage bot.success
                   | inr message => ShowErrorMessage message
                   end ]
            else [])
    end in
  log w' = log w ++ l
  ∧ calls
    = (if vscode.bot w is Some _
       then if tokenFetched
            then [ SetStatusBarMessage (lit "Wikitext: Logout...");
                   DisposeStatusBarMessage ]
            else []
       else [ SetStatusBarMessage (lit "Wikitext: Logout...");
              DisposeStatusBarMessage ])
  ∧ (vscode.bot w' = None
     ↔ vscode.bot w = None ∨ (tokenFetched = true ∧ ∃ u, outcome = inl u))
  ∧ (vscode.bot w' = None ∨ vscode.bot w' = vscode.bot w)
  ∧ (ShowInformationMessage bot.success ∈ l ↔ vscode.bot w' = None).
Proof.
  intros calls w' l. unfold calls, w', l, bot.logout. clear calls w' l.
  destruct (vscode.bot w) as [tbot|] eqn:Hb.
  - destruct tokenFetched; [destruct outcome as [u|message]|]; cbn [fst snd].
    + split_and!.
      * cbn [log emit with_bot]. rewrite <-!(assoc_L (++)). reflexivity.
      * reflexivity.
      * split; [intros _; right; eauto | reflexivity].
      * left. reflexivity.
      * split; [reflexivity|]. intros _.
        apply list_elem_of_further, list_elem_of_further, list_elem_of_here.
    + split_and!.
      * cbn [log emit]. rewrite <-!(assoc_L (++)). reflexivity.
      * reflexivity.
      * cbn [vscode.bot emit]. rewrite Hb.
        split; [discriminate|]. intros [?|(_ & u & ?)]; discriminate.
      * right. exact Hb.
      * cbn [vscode.bot emit]. rewrite Hb. split; [|discriminate].
        intros Hin. repeat (apply elem_of_cons in Hin as [Hin|Hin];
                            [discriminate|]).
        by apply elem_of_nil in Hin.
    + split_and!.
      * reflexivity.
      * reflexivity.
      * cbn [vscode.bot emit]. rewrite Hb.
        split; [discriminate|]. intros [?|(? & _)]; discriminate.
      * right. exact Hb.
      * cbn [vscode.bot emit]. rewrite Hb. split; [|discriminate].
        intros Hin. apply list_elem_of_singleton in Hin. discriminate.
  - cbn [fst snd]. split_and!.
    + reflexivity.
    + reflexivity.
    + split; [intros _; left|]; reflexivity.
    + left. reflexivity.
    + split; [reflexivity|]. intros _. apply list_elem_of_here.
Qed.

(* ================================================================== *)
(** * The head of the rendered document *)
(* ================================================================== *)

Section FirstOccurrence.
Implicit Types (pat s before after : list N).

Lemma isPrefix_complete pat s : isPrefix pat (pat ++ s) = true.
Proof. induction pat as [|a pat IH]; [done|]. simpl. by rewrite N.eqb_refl. Qed.

Lemma splitAt_unfold pat s :
  splitAt pat s
  = if isPrefix pat s then Some ([], drop (length pat) s)
    else match s with
         | [] => None
         | c :: s' =>
             match splitAt pat s' with
             | Some (before, after) => Some (c :: before, after)
             | None => None
             end
         end.
Proof. by destruct s. Qed.

(** [splitAt] finds an occurrence no later than any given one. *)
Lemma splitAt_first pat s before after :
  s = before ++ pat ++ after ->
  ∃ b0 a0, splitAt pat s = Some (b0, a0) ∧ length b0 ≤ length before.
Proof.
  revert s. induction before as [|c before IH]; intros s ->.
  - rewrite splitAt_unfold. simpl. rewrite isPrefix_complete.
    eexists _, _. split; [done|]. simpl. lia.
  - rewrite splitAt_unfold.
    destruct (isPrefix pat _); [eexists _, _; split; [done|simpl; lia]|].
    simpl. destruct (IH _ eq_refl) as (b0 & a0 & -> & Hle).
    eexists _, _. split; [done|]. simpl. lia.
Qed.

Lemma splitAt_first_occurrence pat before after :
  (∀ b a, before ++ pat ++ after = b ++ pat ++ a -> length before ≤ length b) ->
  splitAt pat (before ++ pat ++ after) = Some (before, after).
Proof.
  intros Hfirst.
  destruct (splitAt_first pat _ before after eq_refl) as (b0 & a0 & Hs & Hle).
  pose proof (splitAt_sound _ _ _ _ Hs) as Heq.
  pose proof (Hfirst _ _ Heq) as Hge.
  apply app_inj_1 in Heq as [-> Heq]; [|lia].
  apply app_inv_head in Heq as ->. done.
Qed.

Lemma splitAt_no_occurrence pat s :
  (∀ b a, s ≠ b ++ pat ++ a) -> splitAt pat s = None.
Proof.
  intros Hno. destruct (splitAt pat s) as [[b a]|] eqn:Hs; [|done].
  by apply splitAt_sound, Hno in Hs.
Qed.

Lemma getSubstitution_app_plain matched before after x repl :
  Forall (λ c, c ≠ 36%N) x ->
  getSubstitution matched before after (x ++ repl)
  = x ++ getSubstitution matched before after repl.
Proof.
  induction 1 as [|c x Hc _ IH]; [done|]. simpl.
  destruct (N.eqb_spec c 36) as [->|_]; [done|]. by rewrite IH.
Qed.

End FirstOccurrence.

(** X10.  Head HTML that the wiki supplies without the exact text [<head>]
    in it (the empty string, or a head tag with attributes) becomes the head
    of the document as it is: neither base element nor style sheet is put
    in, and the made-up head is not used either. *)
Theorem htmlHead_without_head_tag
    (cfg : Configuration) (baseURI s : list N)
    (t : option getViewInterface.Star) (d : option (list N))
    (c : option getViewInterface.Star) (e : option getViewInterface.Error) :
  (∀ before after, s ≠ before ++ lit "<head>" ++ after) ->
  view.htmlHead cfg baseURI
    {| getViewInterface.parse :=
         Some {| getViewInterface.text := t;
                 getViewInterface.displaytitle := d;
                 getViewInterface.headhtml :=
                   Some {| getViewInterface.star := Some s |};
                 getViewInterface.categorieshtml := c |};
       getViewInterface.error := e |}
  = Normal s.
Proof.
  intros Hno. unfold view.htmlHead. cbn. unfold replace.
  by rewrite splitAt_no_occurrence.
Qed.

(** A head tag with an attribute. *)
Lemma htmlHead_without_head_tag_witness :
  view.htmlHead exampleConfig (lit "https://wiki.example/wiki/")
    {| getViewInterface.parse :=
         Some {| getViewInterface.text := None;
                 getViewInterface.displaytitle := None;
                 getViewInterface.headhtml :=
                   Some {| getViewInterface.star :=
                             Some (lit "<html><head lang=en></head><body>") |};
                 getViewInterface.categorieshtml := None |};
       getViewInterface.error := None |}
  = Normal (lit "<html><head lang=en></head><body>").
Proof.
  apply htmlHead_without_head_tag. intros before after Heq.
  destruct (splitAt_first _ _ _ _ Heq) as (b0 & a0 & Hs & _).
  vm_compute in Hs. discriminate.
Defined.

(** X11.  When the supplied head HTML holds [<head>], and neither the base
    address nor the style sheet of the settings holds a dollar sign, the
    head of the document is the supplied head HTML with the base element
    and the style block put in right after its first [<head>]; nothing else
    of it changes, later [<head>] texts included. *)
Theorem htmlHead_injects_after_first_head
    (cfg : Configuration) (baseURI before after : list N)
    (t : option getViewInterface.Star) (d : option (list N))
    (c : option getViewInterface.Star) (e : option getViewInterface.Error) :
  (∀ b a, before ++ lit "<head>" ++ after = b ++ lit "<head>" ++ a ->
          length before ≤ length b) ->
  Forall (λ c, c ≠ 36%N) baseURI ->
  Forall (λ c, c ≠ 36%N) (toString (previewCssStyle cfg)) ->
  view.htmlHead cfg baseURI
    {| getViewInterface.parse :=
         Some {| getViewInterface.text := t;
                 getViewInterface.displaytitle := d;
                 getViewInterface.headhtml :=
                   Some {| getViewInterface.star :=
                             Some (before ++ lit "<head>" ++ after) |};
                 getViewInterface.categorieshtml := c |};
       getViewInterface.error := e |}
  = Normal (before ++ lit "<head>" ++ view.baseElem baseURI
              ++ view.style cfg ++ after).
Proof.
  intros Hfirst Hb Hc.
  apply (htmlHead_injects cfg baseURI _ before after t d c e);
    [by apply splitAt_first_occurrence | done | done].
Qed.

(** Head HTML with a second [<head>] text, in a comment. *)
Lemma htmlHead_injects_after_first_head_witness :
  view.htmlHead exampleConfig (lit "https://wiki.example/wiki/")
    {| getViewInterface.parse :=
         Some {| getViewInterface.text := None;
                 getViewInterface.displaytitle := None;
                 getViewInterface.headhtml :=
                   Some {| getViewInterface.star :=
                             Some (lit "<html>" ++ lit "<head>"
                                     ++ lit "<!-- <head> --></head><body>") |};
                 getViewInterface.categorieshtml := None |};
       getViewInterface.error := None |}
  = Normal (lit "<html>" ++ lit "<head>"
              ++ view.baseElem (lit "https://wiki.example/wiki/")
              ++ view.style exampleConfig
              ++ lit "<!-- <head> --></head><body>").
Proof.
  apply htmlHead_injects_after_first_head.
  - intros b a Heq.
    destruct (splitAt_first _ _ _ _ Heq) as (b0 & a0 & Hs & Hle).
    vm_compute in Hs. injection Hs as <- <-. exact Hle.
  - vm_compute. repeat constructor; discriminate.
  - vm_compute. repeat constructor; discriminate.
Defined.

(** X12.  A style sheet of the settings with two dollar signs in a row
    reaches the document with one of them when head HTML is supplied (the
    style block is part of the replacement text of [replace], where [$$]
    stands for one dollar sign), and with both when the head is made up. *)
Theorem htmlHead_halves_double_dollar
    (cfg : Configuration) (baseURI before after x y : list N)
    (t : option getViewInterface.Star) (d : option (list N))
    (c : option getViewInterface.Star) (e : option getViewInterface.Error) :
  previewCssStyle cfg = Some (x ++ lit "$$" ++ y) ->
  (∀ b a, before ++ lit "<head>" ++ after = b ++ lit "<head>" ++ a ->
          length before ≤ length b) ->
  Forall (λ c, c ≠ 36%N) baseURI ->
  Forall (λ c, c ≠ 36%N) x ->
  Forall (λ c, c ≠ 36%N) y ->
  let re hh :=
    {| getViewInterface.parse :=
         Some {| getViewInterface.text := t;
                 getViewInterface.displaytitle := d;
                 getViewInterface.headhtml := hh;
                 getViewInterface.categorieshtml := c |};
       getViewInterface.error := e |} in
  view.htmlHead cfg baseURI
    (re (Some {| getViewInterface.star :=
                   Some (before ++ lit "<head>" ++ after) |}))
  = Normal (before ++ lit "<head>" ++ view.baseElem baseURI
              ++ lit "<style>" ++ x ++ lit "$" ++ y ++ lit "</style>"
              ++ after)
  ∧ view.htmlHead cfg baseURI (re None)
    = Normal (lit "<!DOCTYPE html><html><head>" ++ view.baseElem baseURI
                ++ lit "<style>" ++ x ++ lit "$$" ++ y ++ lit "</style>"
                ++ lit "</head><body>").
Proof.
  intros Hcss Hfirst Hb Hx Hy re. split.
  - unfold re, view.htmlHead. cbn. unfold replace.
    rewrite splitAt_first_occurrence by done.
    unfold view.style. rewrite Hcss. cbn [toString].
    assert (Forall (λ c, c ≠ 36%N) (lit "<head>" ++ view.baseElem baseURI
                                      ++ lit "<style>" ++ x)) as Hplain.
    { unfold view.baseElem. rewrite !Forall_app.
      split_and!; try done; by vm_compute; repeat constructor. }
    replace (lit "<head>" ++ view.baseElem baseURI
               ++ lit "<style>" ++ (x ++ lit "$$" ++ y) ++ lit "</style>")
      with ((lit "<head>" ++ view.baseElem baseURI ++ lit "<style>" ++ x)
              ++ lit "$$" ++ (y ++ lit "</style>"))
      by (by rewrite <-!(assoc_L (++))).
    rewrite getSubstitution_app_plain by done.
    change (lit "$$" ++ (y ++ lit "</style>"))
      with (36%N :: 36%N :: (y ++ lit "</style>")).
    cbn [getSubstitution N.eqb Pos.eqb].
    rewrite getSubstitution_plain.
    + change (lit "$") with [36%N].
      repeat first [rewrite <-(assoc_L (++)) | rewrite <-app_comm_cons].
      reflexivity.
    + rewrite Forall_app. split; [done|]. by vm_compute; repeat constructor.
  - unfold re, view.htmlHead, view.style. cbn. rewrite Hcss. cbn [toString].
    rewrite <-!(assoc_L (++)). reflexivity.
Qed.

(** The style sheet [a::after { content: "$$" }]. *)
Lemma htmlHead_halves_double_dollar_witness :
  let cfg :=
    {| getCss := true; enableJavascript := false; redirects := false;
       previewCssStyle :=
         Some (lit "a::after { content: '" ++ lit "$$" ++ lit "' }");
       transferProtocol := Some (lit "https://");
       articlePath := Some (lit "/wiki/");
       apiPath := Some (lit "/w/api.php") |} in
  view.htmlHead cfg (lit "https://wiki.example/wiki/")
    {| getViewInterface.parse :=
         Some {| getViewInterface.text := None;
                 getViewInterface.displaytitle := None;
                 getViewInterface.headhtml :=
                   Some {| getViewInterface.star :=
                             Some (lit "<html>" ++ lit "<head>"
                                     ++ lit "</head><body>") |};
                 getViewInterface.categorieshtml := None |};
       getViewInterface.error := None |}
  = Normal (lit "<html>" ++ lit "<head>"
              ++ view.baseElem (lit "https://wiki.example/wiki/")
              ++ lit "<style>" ++ lit "a::after { content: '" ++ lit "$"
              ++ lit "' }" ++ lit "</style>" ++ lit "</head><body>").
Proof.
  intros cfg.
  refine (proj1 (htmlHead_halves_double_dollar cfg
                   (lit "https://wiki.example/wiki/") (lit "<html>")
                   (lit "</head><body>") (lit "a::after { content: '")
                   (lit "' }") None None None None eq_refl _ _ _ _)).
  - intros b a Heq.
    destruct (splitAt_first _ _ _ _ Heq) as (b0 & a0 & Hs & Hle).
    vm_compute in Hs. injection Hs as <- <-. exact Hle.
  - vm_compute. repeat constructor; discriminate.
  - vm_compute. repeat constructor; discriminate.
  - vm_compute. repeat constructor; discriminate.
Defined.

(* ================================================================== *)
(** * What a request leaves on its panel *)
(* ================================================================== *)

Section Shown.
Implicit Types (w : World) (id : nat) (q : WebviewPanel).

(** On an existing panel [getView] changes nothing but what the panel
    shows: its content and its title. *)
Lemma getView_Panel_shows id viewerTitle args tbot baseURI outcome w :
  let w' :=
    view.getView (view.Panel id) viewerTitle args tbot baseURI outcome w in
  config w' = config w
  ∧ ∃ f, panels w' = alter f id (panels w)
         ∧ ∀ t h q, set_title t (set_html h (f q)) = set_title t (set_html h q).
Proof.
  intros w'. split.
  { by destruct (rewrites_getView_Panel id viewerTitle args tbot baseURI
                   outcome w) as (_ & ? & _). }
  unfold w', view.getView, view.getView_try, view.getView_catch, setHtml,
    setTitle.
  destruct outcome as [|re|error]; cbn [panels config emit with_panels].
  - by eexists.
  - destruct (negb _); [by eexists|].
    destruct (view.html _ _ _) as [h0|]; cbn [panels config emit with_panels].
    + destruct (view.panelTitle _ _); cbn [panels config emit with_panels];
        rewrite !list_alter_alter_eq; by eexists.
    + rewrite !list_alter_alter_eq. by eexists.
  - rewrite !list_alter_alter_eq. by eexists.
Qed.

(** A render on an existing panel sets its content and its title. *)
Lemma getView_Panel_renders id viewerTitle args tbot baseURI p e w :
  let re := {| getViewInterface.parse := Some p; getViewInterface.error := e |} in
  ∃ h,
    view.html (config w) baseURI re = Normal h
    ∧ panels (view.getView (view.Panel id) viewerTitle args tbot baseURI
                (Resolved re) w)
      = alter (λ q, set_title
                      (viewerTitle ++ lit ": "
                         ++ toString (getViewInterface.displaytitle p))
                      (set_html h q))
          id (panels w).
Proof.
  intros re.
  destruct (getView_html (config w) baseURI p e) as (hd & bd & ct & _ & _ & _ & Hh).
  destruct (getView_fields (config w) baseURI viewerTitle p e)
    as (_ & _ & _ & _ & Hti).
  cbv zeta in Hh, Hti. fold re in Hh, Hti.
  exists (hd ++ bd ++ ct ++ view.htmlEnd). split; [done|].
  unfold view.getView, view.getView_try, setHtml.
  cbn [panels config emit with_panels getViewInterface.parse re defined negb].
  rewrite Hh, Hti. unfold setTitle, setHtml. cbn [panels config emit with_panels].
  rewrite !list_alter_alter_eq. by apply list_alter_ext.
Qed.

End Shown.

(** X13.  Unless the answer has a [parse] node, [getView] leaves the title
    of the panel it was given as it was (say, the title of the last page
    rendered there): a request that is still out, and an answer that was
    decoded without a [parse] node, leave the panel on the "Loading..."
    placeholder without any message, and a request that failed leaves it on
    the "Error" placeholder after its one message. *)
Theorem getView_without_render_keeps_title
    (id : nat) (q : WebviewPanel) (viewerTitle : list N)
    (args : list (string * ArgValue)) (tbot : MWBot) (baseURI : list N)
    (outcome : RequestOutcome) (w : World) :
  panels w !! id = Some q ->
  (∀ p e, outcome ≠ Resolved {| getViewInterface.parse := Some p;
                                getViewInterface.error := e |}) ->
  let w' :=
    view.getView (view.Panel id) viewerTitle args tbot baseURI outcome w in
  (∃ q', panels w' !! id = Some q'
         ∧ title q' = title q
         ∧ html q'
           = view.showHtmlInfo
               (if outcome is Threw _ then lit "Error" else lit "Loading..."))
  ∧ log w'
    = log w
        ++ [ SetHtml id (view.showHtmlInfo (lit "Loading..."));
             BotRequest tbot args ]
        ++ (if outcome is Threw error
            then [ ShowErrorMessage
                     (lit "ErrorCode:" ++ toString (getViewInterface.code error)
                        ++ lit "| ErrorInfo:"
                        ++ toString (getViewInterface.info error));
                   SetHtml id (view.showHtmlInfo (lit "Error")) ]
            else []).
Proof.
  intros Hq Hno w'. unfold w', view.getView.
  destruct outcome as [|[[p|] e]|error].
  - split.
    + exists (set_html (view.showHtmlInfo (lit "Loading...")) q).
      cbn [panels setHtml emit with_panels].
      by rewrite list_lookup_alter_eq, Hq.
    + cbn [log setHtml emit with_panels]. by rewrite <-!(assoc_L (++)).
  - by destruct (Hno p e).
  - split.
    + exists (set_html (view.showHtmlInfo (lit "Loading...")) q).
      unfold view.getView_try.
      cbn [panels setHtml emit with_panels getViewInterface.parse defined negb].
      by rewrite list_lookup_alter_eq, Hq.
    + unfold view.getView_try.
      cbn [log setHtml emit with_panels getViewInterface.parse defined negb].
      by rewrite <-!(assoc_L (++)).
  - split.
    + exists (set_html (view.showHtmlInfo (lit "Error"))
                (set_html (view.showHtmlInfo (lit "Loading...")) q)).
      unfold view.getView_catch. cbn [panels setHtml emit with_panels].
      by rewrite !list_lookup_alter_eq, Hq.
    + unfold view.getView_catch. cbn [log setHtml emit with_panels].
      by rewrite <-!(assoc_L (++)).
Qed.

(** A preview that was rendered, and a second request that fails: the
    panel keeps the title of the render. *)
Lemma getView_without_render_keeps_title_witness :
  let w :=
    view.getPreview exampleHost exampleHost (Resolved exampleResult)
      (fresh exampleConfig (Some exampleDocument)) in
  let w' :=
    view.getView (view.Panel 0) (lit "WikitextPreviewer") [] 
      {| apiUrl := lit "https://wiki.example/w/api.php" |}
      (lit "https://wiki.example/wiki/")
      (Threw {| getViewInterface.code := None; getViewInterface.info := None |})
      w in
  ∃ q', panels w' !! 0%nat = Some q'
        ∧ title q' = lit "WikitextPreviewer: Hi"
        ∧ html q' = view.showHtmlInfo (lit "Error").
Proof.
  intros w w'.
  assert (∃ q, panels w !! 0%nat = Some q ∧ title q = lit "WikitextPreviewer: Hi")
    as (q & Hq & Ht) by (eexists; split; vm_compute; reflexivity).
  destruct (getView_without_render_keeps_title 0 q (lit "WikitextPreviewer") []
              {| apiUrl := lit "https://wiki.example/w/api.php" |}
              (lit "https://wiki.example/wiki/")
              (Threw {| getViewInterface.code := None;
                        getViewInterface.info := None |}) w Hq)
    as ((q' & Hq' & Ht' & Hh') & _); [discriminate|].
  exists q'. split_and!; [exact Hq' | by rewrite Ht' | exact Hh'].
Defined.

(** X14.  The last render wins: after an answer with a [parse] node was
    rendered on a panel, the panels are what they would be had the request
    before it on that panel never been made, whatever that request came to
    (nothing, a render, a failure). *)
Theorem getView_last_render_wins
    (id : nat) (viewerTitle1 viewerTitle : list N)
    (args1 args : list (string * ArgValue)) (tbot1 tbot : MWBot)
    (baseURI1 baseURI : list N) (outcome1 : RequestOutcome)
    (p : getViewInterface.Parse) (e : option getViewInterface.Error)
    (w : World) :
  let re := {| getViewInterface.parse := Some p; getViewInterface.error := e |} in
  let w1 :=
    view.getView (view.Panel id) viewerTitle1 args1 tbot1 baseURI1 outcome1 w in
  panels (view.getView (view.Panel id) viewerTitle args tbot baseURI
            (Resolved re) w1)
  = panels (view.getView (view.Panel id) viewerTitle args tbot baseURI
              (Resolved re) w).
Proof.
  intros re w1. subst re.
  destruct (getView_Panel_shows id viewerTitle1 args1 tbot1 baseURI1 outcome1 w)
    as (Hc & f & Hp & Hf). fold w1 in Hc, Hp.
  destruct (getView_Panel_renders id viewerTitle args tbot baseURI p e w1)
    as (h1 & Hh1 & ->).
  destruct (getView_Panel_renders id viewerTitle args tbot baseURI p e w)
    as (h & Hh & ->).
  rewrite Hc in Hh1. cbv zeta in Hh1, Hh. rewrite Hh in Hh1.
  injection Hh1 as <-.
  rewrite Hp, list_alter_alter_eq. apply list_alter_ext; [|done].
  intros q _. apply Hf.
Qed.

(* ================================================================== *)
(** * Closing a panel that is not the preview *)
(* ================================================================== *)

(** X15.  Whatever commands ran before, closing a panel that is not the
    tracked preview panel leaves the tracked reference as it was and the
    preview panel open, so the next preview is shown on the same panel and
    no new one is made. *)
Theorem closing_another_panel_keeps_the_preview
    (cfg : Configuration) (document : option (list N)) (acts : list Action)
    (id tracked : nat) :
  let w := run acts (fresh cfg document) in
  previewCurrentPlanel w = Some tracked ->
  id ≠ tracked ->
  let w1 := userCloses id w in
  previewCurrentPlanel w1 = Some tracked
  ∧ livePreview w1 tracked
  ∧ ∀ host botHost outcome,
      length (panels (view.getPreview host botHost outcome w1))
      = length (panels w).
Proof.
  intros w Ht Hne w1.
  assert (tracksItsPreview w) as Hinv
    by apply tracksItsPreview_run, tracksItsPreview_fresh.
  destruct Hinv as (I1 & I2 & I3).
  destruct (I1 _ Ht) as (pt & Hpt & Hvt & Hdt & _).
  assert (w1 = w ∨ w1 = with_panels (alter set_disposed id (panels w)) w)
    as Hw1.
  { unfold w1, userCloses. destruct (panels w !! id) as [p|] eqn:Hp; [|by left].
    destruct (disposed p) eqn:Hd; [by left|]. right.
    rewrite (I3 id p Hp); [done|]. intros Hv.
    assert (previewCurrentPlanel w = Some id) as Hid
      by (apply I2; exists p; done).
    congruence. }
  assert (previewCurrentPlanel w1 = Some tracked ∧ livePreview w1 tracked
          ∧ length (panels w1) = length (panels w)) as (Ht1 & Hlive & Hlen).
  { destruct Hw1 as [->| ->].
    - split_and!; [done| |done]. by exists pt.
    - split_and!; [done| |apply length_alter]. exists pt.
      cbn [panels with_panels]. by rewrite list_lookup_alter_ne. }
  split_and!; [done..|].
  intros host botHost outcome.
  destruct (getPreview_reuses host botHost outcome tracked w1 Ht1)
    as (_ & _ & _ & _ & Hl & _).
  by rewrite Hl.
Qed.

(** After the example session the tracked preview is panel 2; the page
    view, panel 1, is closed. *)
Lemma closing_another_panel_keeps_the_preview_witness :
  livePreview
    (userCloses 1
       (run exampleSession (fresh exampleConfig (Some exampleDocument))))
    2.
Proof.
  refine (proj1 (proj2
            (closing_another_panel_keeps_the_preview exampleConfig
               (Some exampleDocument) exampleSession 1 2 _ _))).
  - vm_compute. reflexivity.
  - discriminate.
Defined.

Section OtherPanels.
Implicit Types (w : World) (id : nat) (p : WebviewPanel).

Lemma getPreview_other host botHost outcome id p w :
  panels w !! id = Some p ->
  previewCurrentPlanel w ≠ Some id ->
  panels (view.getPreview host botHost outcome w) !! id = Some p.
Proof.
  intros Hp Hne. destruct (previewCurrentPlanel w) as [tracked|] eqn:Ht.
  - destruct (getPreview_reuses host botHost outcome tracked w Ht)
      as (_ & _ & _ & _ & _ & Ho & _).
    rewrite Ho; [done|]. congruence.
  - unfold view.getPreview.
    destruct (whenTruthy host) as [h|]; [|done].
    destruct (whenTruthy (activeDocument w)) as [text|]; [|done].
    rewrite Ht. cbn [createWebviewPanel].
    set (w1 := registerOnDidDispose _ _ _).
    assert (panels w1 !! id = Some p) as Hp1.
    { unfold w1. cbn [panels registerOnDidDispose with_panels
                        with_previewCurrentPlanel emit].
      apply lookup_lt_Some in Hp as Hlt.
      rewrite list_lookup_alter_ne by lia. by apply lookup_app_l_Some. }
    assert (previewCurrentPlanel w1 = Some (length (panels w))) as Ht1 by done.
    destruct (bot.getBot botHost w1) as [tbot|]; [|done].
    rewrite Ht1.
    match goal with
    | |- context [view.getView (view.Panel ?i) ?vt ?a ?b ?u ?o ?w0] =>
        destruct (rewrites_getView_Panel i vt a b u o w0)
          as (_ & _ & _ & _ & _ & Ho & _)
    end.
    rewrite Ho; [done|]. apply lookup_lt_Some in Hp. lia.
Qed.

Lemma getPageView_other host pageTitle botHost outcome id p w :
  panels w !! id = Some p ->
  panels (view.getPageView host pageTitle botHost outcome w) !! id = Some p.
Proof.
  intros Hp.
  destruct (whenTruthy host) as [h|] eqn:Hh;
    [|by unfold view.getPageView; rewrite Hh].
  destruct (whenTruthy pageTitle) as [t|] eqn:Ht;
    [|by unfold view.getPageView; rewrite Hh, Ht].
  destruct (bot.getBot botHost w) as [tbot|] eqn:Hb;
    [|by unfold view.getPageView; rewrite Hh, Ht, Hb].
  destruct (getPageView_creates host pageTitle botHost outcome h t tbot w
              Hh Ht Hb) as (_ & Hold & _).
  by apply Hold.
Qed.

Lemma viewPage_other pageTitle response id p w :
  panels w !! id = Some p ->
  panels (wmcore.viewPage pageTitle response w) !! id = Some p.
Proof.
  intros Hp. destruct pageTitle as [[|c t]|]; [done| |done].
  destruct response as [|re| |name]; [done|..].
  - destruct (viewPage_creates c t (End re) w) as (_ & Hold & _); [done|].
    by apply Hold.
  - destruct (viewPage_creates c t Undecodable w) as (_ & Hold & _); [done|].
    by apply Hold.
  - destruct (viewPage_creates c t (Failed name) w) as (_ & Hold & _); [done|].
    by apply Hold.
Qed.

End OtherPanels.

(** X17.  Whatever the editor is like, a command writes to no panel that
    exists when it is invoked, unless that panel is the tracked preview
    panel: what [getPreview] writes, up to and including the handler of its
    answer, it writes to the tracked panel or to the panel it makes;
    [getPageView] and [viewPage] write to the panel they make; [readPage]
    and [writePage] write to none.  So a page view keeps the content and
    the title it got, whatever is previewed, viewed, read or written
    next. *)
Theorem commands_leave_the_other_panels
    (id : nat) (p : WebviewPanel) (w : World) :
  panels w !! id = Some p ->
  previewCurrentPlanel w ≠ Some id ->
  (∀ host botHost outcome,
     panels (view.getPreview host botHost outcome w) !! id = Some p)
  ∧ (∀ host pageTitle botHost outcome,
       panels (view.getPageView host pageTitle botHost outcome w) !! id
       = Some p)
  ∧ (∀ pageTitle response,
       panels (wmcore.viewPage pageTitle response w) !! id = Some p)
  ∧ (∀ title response,
       panels (wmcore.readPage title response w) !! id = Some p)
  ∧ (∀ wikiTitle wikiSummary token edit,
       panels (wmcore.writePage wikiTitle wikiSummary token edit w) !! id
       = Some p).
Proof.
  intros Hp Hne. split_and!.
  - intros host botHost outcome. by apply getPreview_other.
  - intros host pageTitle botHost outcome. by apply getPageView_other.
  - intros pageTitle response. by apply viewPage_other.
  - intros title response.
    destruct (onlyMessages_readPage title response w) as (_ & _ & -> & _).
    done.
  - intros wikiTitle wikiSummary token edit.
    destruct (onlyMessages_writePage wikiTitle wikiSummary token edit w)
      as ((_ & _ & -> & _) & _).
    done.
Qed.

(** After the example session panel 1 is the page view and panel 2 the
    tracked preview; a further preview leaves the page view alone. *)
Lemma commands_leave_the_other_panels_witness :
  ∃ p, panels (run exampleSession (fresh exampleConfig (Some exampleDocument)))
         !! 1%nat = Some p
       ∧ panels (view.getPreview exampleHost exampleHost
                   (Resolved exampleResult)
                   (run exampleSession
                      (fresh exampleConfig (Some exampleDocument))))
           !! 1%nat = Some p.
Proof.
  assert (∃ p, panels (run exampleSession
                         (fresh exampleConfig (Some exampleDocument)))
                 !! 1%nat = Some p)
    as (p & Hp) by (eexists; vm_compute; reflexivity).
  assert (previewCurrentPlanel
            (run exampleSession (fresh exampleConfig (Some exampleDocument)))
          ≠ Some 1%nat) as Hne by (vm_compute; discriminate).
  destruct (commands_leave_the_other_panels 1 p _ Hp Hne) as (Hpreview & _).
  exists p. split; [exact Hp | apply Hpreview].
Defined.

(* ================================================================== *)
(** * What is previewed and what is saved *)
(* ================================================================== *)

(** X16.  For a document with a page-info block, what [writePage] saves
    and what the preview showed are not the same text: the edit carries the
    document as it is, block included, while the preview had the wiki parse
    a strictly shorter text. *)
Theorem page_info_is_saved_but_not_previewed
    (host botHost : option (list N)) (outcome : RequestOutcome)
    (h : list N) (tbot session : MWBot) (c : N) (t : list N)
    (wikiSummary : option (list N)) (token : wmcore.TokenResponse + list N)
    (edit : option wmcore.EditResponse) (pre b rest : list N) (w : World) :
  whenTruthy host = Some h ->
  activeDocument w = Some (pre ++ b ++ rest) ->
  isBlock b ->
  bot.getBot botHost w = Some tbot ->
  wmcore_bot w = Some session ->
  (∃ before summary after,
     log (wmcore.writePage (Some (c :: t)) wikiSummary token edit w)
     = before ++ BotEdit (c :: t) (pre ++ b ++ rest) summary :: after)
  ∧ (∃ before args sent after,
       log (view.getPreview host botHost outcome w)
       = before ++ BotRequest tbot args :: after
       ∧ argOf "text" args = Some (Str sent)
       ∧ length sent < length (pre ++ b ++ rest)).
Proof.
  intros Hh Hd Hb Hbot Hs. split.
  - rewrite (writePage_log c t wikiSummary token edit _ session w Hd Hs).
    eexists (log w ++ [BotGetEditToken; _]), _, _.
    rewrite <-(assoc_L (++)). reflexivity.
  - assert (0 < length b) as Hlen.
    { destruct Hb as (ws1 & body & ws2 & -> & _).
      rewrite length_app. change (length (lit "<%--")) with 4%nat. lia. }
    assert (whenTruthy (activeDocument w) = Some (pre ++ b ++ rest)) as Hd'.
    { rewrite Hd. destruct (pre ++ b ++ rest) as [|x l] eqn:Heq; [|done].
      apply (f_equal length) in Heq. rewrite !length_app in Heq.
      simpl in Heq. lia. }
    destruct (getPreview_log host botHost outcome h _ tbot w Hh Hd' Hbot)
      as (created & id & args & after & Hlog & Harg & _).
    exists (log w ++ created
              ++ [SetHtml id (view.showHtmlInfo (lit "Loading..."))]),
           args, (replaceRegExp (pre ++ b ++ rest) view.pageInfoRegExp []),
           after.
    split_and!; [by rewrite Hlog, <-!(assoc_L (++)) | exact Harg |].
    destruct (replace_pageInfo (pre ++ b ++ rest))
      as [(Hnone & _)|(pre' & b' & ws & post & Heq & Hb' & _ & _ & -> & _)].
    + by destruct (Hnone pre b rest).
    + rewrite Heq, !length_app.
      assert (0 < length b'); [|lia].
      destruct Hb' as (ws1 & body & ws2 & -> & _).
      rewrite length_app. change (length (lit "<%--")) with 4%nat. lia.
Qed.

(** The example document, with a session of wmcore.ts. *)
Lemma page_info_is_saved_but_not_previewed_witness :
  let w :=
    with_wmcore_bot (Some {| apiUrl := lit "https://wiki.example/w/api.php" |})
      (fresh exampleConfig (Some exampleDocument)) in
  ∃ before summary after,
    log (wmcore.writePage (Some (lit "Foo")) None (inr (lit "Error")) None w)
    = before ++ BotEdit (lit "Foo") exampleDocument summary :: after.
Proof.
  intros w.
  refine (proj1 (page_info_is_saved_but_not_previewed exampleHost exampleHost
                   Pending (lit "wiki.example")
                   {| apiUrl := lit "https://wiki.example/w/api.php" |}
                   {| apiUrl := lit "https://wiki.example/w/api.php" |}
                   70%N (lit "oo") None (inr (lit "Error")) None
                   (lit "intro ")
                   (lit "<%--" ++ lit " " ++ lit "[PAGE_INFO]"
                      ++ lit " title=Foo " ++ lit "[END_PAGE_INFO]"
                      ++ lit " " ++ lit "--%>")
                   (lit "  ''Hello''") w eq_refl eq_refl _ eq_refl eq_refl)).
  exists (lit " "), (lit " title=Foo "), (lit " ").
  split_and!; [reflexivity | |]; vm_compute; repeat constructor.
Defined.

(* ================================================================== *)
(** * A preview without a bot *)
(* ================================================================== *)

(** X18.  [getPreview] makes its panel before it asks for a bot.  So when
    no panel is tracked and no bot can be had (no session, and no host for
    [getBot]), the command ends without a message and without a request, but
    not without a trace: an empty preview panel, titled with the viewer
    label, is open and tracked.  The next preview that gets a bot makes no
    panel: it is [getView] on that very panel, with the stripped text of
    the document, and changes no other panel. *)
Theorem getPreview_without_bot_leaves_an_empty_panel
    (host botHost : option (list N)) (outcome : RequestOutcome)
    (h text : list N) (w : World) :
  whenTruthy host = Some h ->
  whenTruthy (activeDocument w) = Some text ->
  previewCurrentPlanel w = None ->
  bot.getBot botHost w = None ->
  let w' := view.getPreview host botHost outcome w in
  let id := length (panels w) in
  log w'
  = log w
      ++ [CreateWebviewPanel id (lit "previewer") (lit "WikitextPreviewer")
            Beside]
  ∧ panels w'
    = panels w
        ++ [ {| viewType := lit "previewer";
                title := lit "WikitextPreviewer"; html := [];
                viewColumn := Beside;
                enableScripts := enableJavascript (config w);
                disposed := false;
                onDidDispose := [ClearPreviewCurrentPlanel] |} ]
  ∧ previewCurrentPlanel w' = Some id
  ∧ ∀ host' botHost' outcome' h' tbot,
      whenTruthy host' = Some h' ->
      bot.getBot botHost' w' = Some tbot ->
      let w'' := view.getPreview host' botHost' outcome' w' in
      (∃ args,
         w'' = view.getView (view.Panel id) (lit "WikitextPreviewer") args
                 tbot
                 (toString (transferProtocol (config w)) ++ h'
                    ++ toString (articlePath (config w)))
                 outcome' w'
         ∧ argOf "text" args
           = Some (Str (replaceRegExp text view.pageInfoRegExp [])))
      ∧ length (panels w'') = S (length (panels w))
      ∧ (∀ i, i ≠ id -> panels w'' !! i = panels w' !! i)
      ∧ previewCurrentPlanel w'' = Some id.
Proof.
  intros Hh Hd Ht Hb w' id.
  assert (w' = registerOnDidDispose id ClearPreviewCurrentPlanel
                 (with_previewCurrentPlanel (Some id)
                    (createWebviewPanel (lit "previewer")
                       (lit "WikitextPreviewer") Beside
                       (enableJavascript (config w)) w).2)) as Hw'.
  { unfold w', view.getPreview. rewrite Hh, Hd, Ht. cbn [createWebviewPanel].
    match goal with
    | |- context [bot.getBot botHost ?w1] =>
        change (bot.getBot botHost w1) with (bot.getBot botHost w)
    end.
    by rewrite Hb. }
  assert (panels w'
          = panels w
              ++ [ {| viewType := lit "previewer";
                      title := lit "WikitextPreviewer"; html := [];
                      viewColumn := Beside;
                      enableScripts := enableJavascript (config w);
                      disposed := false;
                      onDidDispose := [ClearPreviewCurrentPlanel] |} ])
    as Hpanels.
  { rewrite Hw'. cbn [panels registerOnDidDispose with_panels
                        with_previewCurrentPlanel createWebviewPanel snd emit].
    rewrite alter_app_r_alt by done. unfold id. by rewrite Nat.sub_diag. }
  assert (previewCurrentPlanel w' = Some id) as Ht' by (by rewrite Hw').
  assert (activeDocument w' = activeDocument w) as Hd' by (by rewrite Hw').
  assert (config w' = config w) as Hc' by (by rewrite Hw').
  split_and!; [by rewrite Hw' | done | done |].
  intros host' botHost' outcome' h' tbot Hh' Hb' w''.
  destruct (getPreview_reuses host' botHost' outcome' id w' Ht')
    as (Htr & _ & _ & _ & Hlen & Hother & _). fold w'' in Htr, Hlen, Hother.
  split_and!.
  - eexists. split.
    + unfold w'', view.getPreview.
      rewrite Hh', Hd', Hd, Ht', Hb', Ht', Hc'. reflexivity.
    + reflexivity.
  - rewrite Hlen, Hpanels, length_app. simpl. lia.
  - exact Hother.
  - by rewrite Htr.
Qed.

(** No session, and the host is gone by the time [getBot] asks for it. *)
Lemma getPreview_without_bot_leaves_an_empty_panel_witness :
  log (view.getPreview exampleHost None Pending
         (fresh exampleConfig (Some exampleDocument)))
  = [CreateWebviewPanel 0 (lit "previewer") (lit "WikitextPreviewer") Beside].
Proof.
  exact (proj1 (getPreview_without_bot_leaves_an_empty_panel exampleHost None
                  Pending (lit "wiki.example") exampleDocument
                  (fresh exampleConfig (Some exampleDocument))
                  eq_refl eq_refl eq_refl eq_refl)).
Defined.
